(** * Page-interaction scripts of the links landing page

    A shallow embedding of the three scripts of the repository:
    - [script.js]: the stand-alone title swapper;
    - the page-management script ([CONFIG], [Utils], [PageTitleManager],
      [ThemeManager], [App]);
    - the theme selector popover ([ThemeToggleModal]).

    The scripts are event handlers over browser state.  The part of the
    browser they touch is the record [DOM.Page]; every script object is a
    record of its own fields; a method is a function on those records, and a
    method that can raise is a computation in the monad [JS.M], which keeps
    the state reached when the exception is thrown. *)

From Stdlib Require Import String Ascii.
From stdpp Require Import base option list strings gmap.

(** ** JavaScript values, strings and completions *)

Module JS.

Inductive exn := TypeError | SyntaxError | InvalidCharacterError.

(** How the evaluation of a call ends. *)
Inductive completion (A : Type) :=
| Normal (a : A)
| Throw (e : exn).
Arguments Normal {A} a.
Arguments Throw {A} e.

(** A computation over state [S]: an exception leaves the state as it was
    when it was thrown, it is not rolled back. *)
Definition M (S A : Type) : Type := S -> completion A * S.

Definition ret {S A} (a : A) : M S A := fun s => (Normal a, s).

Definition throw {S A} (e : exn) : M S A := fun s => (Throw e, s).

Definition bind {S A B} (m : M S A) (k : A -> M S B) : M S B :=
  fun s =>
    match m s with
    | (Normal a, s') => k a s'
    | (Throw e, s') => (Throw e, s')
    end.

Definition gets {S A} (f : S -> A) : M S A := fun s => (Normal (f s), s).

Definition modify {S} (f : S -> S) : M S unit := fun s => (Normal tt, f s).

(** Runs a computation on the second component of a pair of states. *)
Definition onSnd {S T A} (m : M T A) : M (S * T) A :=
  fun st =>
    match m (snd st) with
    | (c, t') => (c, (fst st, t'))
    end.

(** [Array.prototype.forEach]: stops at the first exception. *)
Fixpoint forEach {S A} (l : list A) (f : A -> M S unit) : M S unit :=
  match l with
  | [] => ret tt
  | x :: l' => bind (f x) (fun _ => forEach l' f)
  end.

(** The state a computation ends in, whichever way it completes: what an
    event handler leaves behind. *)
Definition exec {S A} (m : M S A) (s : S) : S := snd (m s).

(** A value that is a string or [undefined]. *)
Definition value := option string.

(** [String(v)], as the DOM applies it to arguments declared DOMString. *)
Definition ToString (v : value) : string :=
  match v with
  | Some s => s
  | None => "undefined"
  end.

(** [s.includes(search)]: [search] occurs in [s] as a contiguous substring.
    The searches of the scripts are ASCII, for which code units and bytes
    agree. *)
Fixpoint includes (s search : string) : bool :=
  String.prefix search s ||
  match s with
  | EmptyString => false
  | String _ s' => includes s' search
  end.

End JS.

Declare Scope js_scope.
Delimit Scope js_scope with js.
Notation "'do' x <- m ; k" := (JS.bind m (fun x => k))
  (at level 10, x name, m at level 100, k at level 200) : js_scope.

(** ** The DOM as the scripts see it *)

Module DOMTokenList.

(** The token set behind [element.classList], in order.  [add] and [remove]
    first validate every argument: the empty string raises [SyntaxError], a
    token with ASCII whitespace raises [InvalidCharacterError].  The set
    operations below are what they do after validation; a call site whose
    argument is a literal that is a valid token uses them directly, a call
    site whose argument is a variable runs [validate] first. *)

Definition is_ascii_whitespace (c : ascii) : bool :=
  match c with
  | "009" | "010" | "012" | "013" | " " => true
  | _ => false
  end%char.

Fixpoint has_whitespace (s : string) : bool :=
  match s with
  | EmptyString => false
  | String c s' => is_ascii_whitespace c || has_whitespace s'
  end.

Definition validate (token : string) : option JS.exn :=
  if decide (token = "") then Some JS.SyntaxError
  else if has_whitespace token then Some JS.InvalidCharacterError
  else None.

Definition contains (tokens : list string) (token : string) : bool :=
  bool_decide (token ∈ tokens).

Definition add (tokens : list string) (token : string) : list string :=
  if contains tokens token then tokens else tokens ++ [token].

Definition remove (tokens : list string) (args : list string) : list string :=
  filter (fun t => t ∉ args) tokens.

(** The serialization of the set, which [element.className] reads.  The
    class attribute as the document has it may separate the names by other
    whitespace and repeat a name; a search for a name without whitespace
    finds the same in both. *)
Definition value (tokens : list string) : string := String.concat " " tokens.

End DOMTokenList.

Module DOM.

(** A node is named by its position in the document, in tree order. *)
Abbreviation node := nat (only parsing).

Record Element := mkElement {
  id : string;
  classList : list string;
  dataset_theme : JS.value;      (* [dataset.theme]: the data-theme attribute *)
  src : string;
  parentNode : option node
}.

Definition set_classList (f : list string -> list string) (e : Element) : Element :=
  {| id := id e; classList := f (classList e); dataset_theme := dataset_theme e;
     src := src e; parentNode := parentNode e |}.

Definition set_src (s : string) (e : Element) : Element :=
  {| id := id e; classList := classList e; dataset_theme := dataset_theme e;
     src := s; parentNode := parentNode e |}.

Record Page := mkPage {
  title : string;                        (* document.title *)
  documentElement : list string;         (* the root element's classList *)
  matchMedia : option bool;              (* None: window.matchMedia is undefined;
                                            Some b: b is the [matches] of the
                                            (prefers-color-scheme: dark) query *)
  localStorage : gmap string string;
  nodes : list Element;                  (* the elements below the root *)
  activeElement : option node;           (* the element holding keyboard focus *)
  observers : list nat;                  (* the MutationObservers observing the
                                            root's class attribute *)
  nextObserver : nat                     (* the next observer to be allocated *)
}.

Definition set_title (t : string) (p : Page) : Page :=
  {| title := t; documentElement := documentElement p; matchMedia := matchMedia p;
     localStorage := localStorage p; nodes := nodes p;
     activeElement := activeElement p; observers := observers p;
     nextObserver := nextObserver p |}.

Definition set_documentElement (f : list string -> list string) (p : Page) : Page :=
  {| title := title p; documentElement := f (documentElement p);
     matchMedia := matchMedia p; localStorage := localStorage p; nodes := nodes p;
     activeElement := activeElement p; observers := observers p;
     nextObserver := nextObserver p |}.

Definition set_matchMedia (m : option bool) (p : Page) : Page :=
  {| title := title p; documentElement := documentElement p; matchMedia := m;
     localStorage := localStorage p; nodes := nodes p;
     activeElement := activeElement p; observers := observers p;
     nextObserver := nextObserver p |}.

Definition set_localStorage (f : gmap string string -> gmap string string)
    (p : Page) : Page :=
  {| title := title p; documentElement := documentElement p;
     matchMedia := matchMedia p; localStorage := f (localStorage p);
     nodes := nodes p; activeElement := activeElement p;
     observers := observers p; nextObserver := nextObserver p |}.

Definition set_nodes (f : list Element -> list Element) (p : Page) : Page :=
  {| title := title p; documentElement := documentElement p;
     matchMedia := matchMedia p; localStorage := localStorage p;
     nodes := f (nodes p); activeElement := activeElement p;
     observers := observers p; nextObserver := nextObserver p |}.

Definition set_activeElement (a : option node) (p : Page) : Page :=
  {| title := title p; documentElement := documentElement p;
     matchMedia := matchMedia p; localStorage := localStorage p; nodes := nodes p;
     activeElement := a; observers := observers p;
     nextObserver := nextObserver p |}.

Definition set_observers (f : list nat -> list nat) (next : nat) (p : Page) : Page :=
  {| title := title p; documentElement := documentElement p;
     matchMedia := matchMedia p; localStorage := localStorage p; nodes := nodes p;
     activeElement := activeElement p; observers := f (observers p);
     nextObserver := next |}.

(** [document.documentElement.className] *)
Definition className (p : Page) : string :=
  DOMTokenList.value (documentElement p).

(** [document.getElementById(i)]: the first element in tree order whose id is
    [i], or null. *)
Definition getElementById (p : Page) (i : string) : option node :=
  fst <$> list_find (fun e => id e = i) (nodes p).

(** An update of the element a reference points to.  A reference held by a
    script always points into the document; a position outside [nodes]
    stands for no element and the update does nothing. *)
Definition update (f : Element -> Element) (n : node) (p : Page) : Page :=
  set_nodes (alter f n) p.

(** [n.classList.contains(c)] *)
Definition hasClass (p : Page) (n : node) (c : string) : bool :=
  match nodes p !! n with
  | Some e => DOMTokenList.contains (classList e) c
  | None => false
  end.

(** [b] and its ancestors below the root, innermost first: the elements a
    click on [b] passes while it bubbles.  The walk up takes at most as many
    steps as the document has elements. *)
Fixpoint path_upto (fuel : nat) (els : list Element) (b : node) : list node :=
  b :: match fuel with
       | O => []
       | S fuel' =>
           match els !! b ≫= parentNode with
           | Some b' => path_upto fuel' els b'
           | None => []
           end
       end.

Definition path (p : Page) (b : node) : list node :=
  path_upto (length (nodes p)) (nodes p) b.

(** [a.contains(b)]: [b] is [a] or a descendant of [a]. *)
Definition contains (p : Page) (a b : node) : bool :=
  bool_decide (a ∈ path p b).

(** [a.querySelector('.' + c)]: the first descendant of [a] in tree order
    that carries class [c], or null. *)
Fixpoint first_from (P : node -> Element -> bool) (n : node) (els : list Element)
    : option node :=
  match els with
  | [] => None
  | e :: els' => if P n e then Some n else first_from P (S n) els'
  end.

Definition querySelectorClass (p : Page) (a : node) (c : string) : option node :=
  first_from
    (fun n e => negb (bool_decide (n = a)) && contains p a n
                && DOMTokenList.contains (classList e) c)
    0 (nodes p).

End DOM.

Local Open Scope js_scope.

(** ** script.js: the stand-alone title swapper *)

Module Script.

Inductive event := Blur | Focus.

(** [let docTitle = document.title], evaluated when the script loads. *)
Definition load (p : DOM.Page) : string := DOM.title p.

Definition onBlur (p : DOM.Page) : DOM.Page :=
  DOM.set_title "🔙 Ooops, ainda estou aqui!" p.

Definition onFocus (docTitle : string) (p : DOM.Page) : DOM.Page :=
  DOM.set_title docTitle p.

Definition handle (docTitle : string) (p : DOM.Page) (e : event) : DOM.Page :=
  match e with
  | Blur => onBlur p
  | Focus => onFocus docTitle p
  end.

(** The page after the window received the events [es], oldest first. *)
Definition run (docTitle : string) (es : list event) (p : DOM.Page) : DOM.Page :=
  fold_left (handle docTitle) es p.

End Script.

(** ** The page-management script *)

Module CONFIG.

Definition MESSAGES_BLUR_TITLE : string := "Ooops, ainda estou aqui!".

Record imagePaths := { dark : string; light : string }.

Definition IMAGES_signature : imagePaths :=
  {| dark := "./images/signature.gif"; light := "./images/signature_alt.gif" |}.

Definition IMAGES_rateIcon : imagePaths :=
  {| dark := "./images/rate1_w.png"; light := "./images/rate1.png" |}.

Definition SELECTORS_SIGNATURE : string := "signature".
Definition SELECTORS_RATE_ICON : string := "rate-icon".

Definition THEMES_DARK : string := "theme-dark".
Definition THEMES_AUTO : string := "theme-auto".

End CONFIG.

Module Utils.

(** [window.matchMedia('(prefers-color-scheme: dark)').matches], called
    without a guard: a TypeError where [window.matchMedia] is undefined. *)
Definition prefersDarkMatches : JS.M DOM.Page bool :=
  fun p =>
    match DOM.matchMedia p with
    | Some matches => (JS.Normal matches, p)
    | None => (JS.Throw JS.TypeError, p)
    end.

Definition isDarkMode : JS.M DOM.Page bool :=
  do themeClass <- JS.gets DOM.className;
  if JS.includes themeClass CONFIG.THEMES_DARK then JS.ret true
  else if JS.includes themeClass CONFIG.THEMES_AUTO then prefersDarkMatches
  else JS.ret false.

Definition updateImageSrc (element : option DOM.node) (imagePaths : CONFIG.imagePaths)
    : JS.M DOM.Page unit :=
  match element with
  | None => JS.ret tt
  | Some el =>
      do isDark <- isDarkMode;
      JS.modify
        (DOM.update
           (DOM.set_src (if isDark then CONFIG.dark imagePaths
                         else CONFIG.light imagePaths))
           el)
  end.

End Utils.

Module PageTitleManager.

Inductive event := Blur | Focus.

Record PageTitleManager := { originalTitle : string }.

(** The object literal: [originalTitle: document.title]. *)
Definition create (p : DOM.Page) : PageTitleManager :=
  {| originalTitle := DOM.title p |}.

Definition handleBlur (p : DOM.Page) : DOM.Page :=
  DOM.set_title CONFIG.MESSAGES_BLUR_TITLE p.

Definition handleFocus (this : PageTitleManager) (p : DOM.Page) : DOM.Page :=
  DOM.set_title (originalTitle this) p.

(** The listeners that [bindEvents] registers on the window. *)
Definition handle (this : PageTitleManager) (p : DOM.Page) (e : event) : DOM.Page :=
  match e with
  | Blur => handleBlur p
  | Focus => handleFocus this p
  end.

Definition run (this : PageTitleManager) (es : list event) (p : DOM.Page) : DOM.Page :=
  fold_left (handle this) es p.

End PageTitleManager.

Module ThemeManager.

Record ThemeManager := { observer : option nat }.

(** The object literal: [observer: null]. *)
Definition create : ThemeManager := {| observer := None |}.

Definition state : Type := ThemeManager * DOM.Page.

Definition updateImagesForTheme : JS.M DOM.Page unit :=
  do signature <- JS.gets (fun p => DOM.getElementById p CONFIG.SELECTORS_SIGNATURE);
  do rateIcon <- JS.gets (fun p => DOM.getElementById p CONFIG.SELECTORS_RATE_ICON);
  do _ <- Utils.updateImageSrc signature CONFIG.IMAGES_signature;
  Utils.updateImageSrc rateIcon CONFIG.IMAGES_rateIcon.

(** The pairs of element id and image paths that [updateImagesForTheme]
    hands to [Utils.updateImageSrc]. *)
Definition bindings : list (string * CONFIG.imagePaths) :=
  [(CONFIG.SELECTORS_SIGNATURE, CONFIG.IMAGES_signature);
   (CONFIG.SELECTORS_RATE_ICON, CONFIG.IMAGES_rateIcon)].

(** The listener of the color-scheme query's change event; [bindEvents]
    registers it when [window.matchMedia] is defined, and changes no state. *)
Definition onSchemeChange : JS.M DOM.Page unit := updateImagesForTheme.

Definition bindEvents : JS.M state unit := JS.ret tt.

Record MutationRecord := { type : string; attributeName : option string }.

(** The callback given to [new MutationObserver]. *)
Definition observerCallback (mutations : list MutationRecord) : JS.M DOM.Page unit :=
  JS.forEach mutations
    (fun mutation =>
       if bool_decide (type mutation = "attributes")
          && bool_decide (attributeName mutation = Some "class")
       then updateImagesForTheme
       else JS.ret tt).

(** Allocates an observer, stores it in [this.observer] and makes it observe
    the root's class attribute. *)
Definition setupThemeObserver : JS.M state unit :=
  JS.modify
    (fun st : state =>
       let o := DOM.nextObserver (snd st) in
       ({| observer := Some o |},
        DOM.set_observers (fun os => o :: os) (S o) (snd st))).

Definition destroy (st : state) : state :=
  match observer (fst st) with
  | Some o =>
      ({| observer := None |},
       DOM.set_observers (filter (fun o' => o' ≠ o)) (DOM.nextObserver (snd st))
         (snd st))
  | None => st
  end.

Definition init : JS.M state unit :=
  do _ <- JS.onSnd updateImagesForTheme;
  do _ <- bindEvents;
  setupThemeObserver.

(** What the browser does after the root's class attribute was mutated: each
    observer of the attribute has its callback called with the records; an
    exception ends the callback that raised it, not the notification of the
    other observers. *)
Definition classMutated (mutations : list MutationRecord) (p : DOM.Page) : DOM.Page :=
  fold_left (fun p' _ => JS.exec (observerCallback mutations) p') (DOM.observers p) p.

End ThemeManager.

(** ** The theme selector popover *)

Module ThemeToggleModal.

(** The fields of the object, once [bindElements] has found every control of
    the popover in the document. *)
Record Modal := mkModal {
  modal : DOM.node;
  toggleBtn : DOM.node;
  optionsPanel : DOM.node;
  themeOptions : list DOM.node;
  sunIcon : DOM.node;
  moonIcon : DOM.node;
  autoIcon : DOM.node;
  isOpen : bool;
  currentTheme : JS.value
}.

Definition state : Type := Modal * DOM.Page.

(** The object literal ([isOpen: false], [currentTheme: 'theme-auto']) with
    the controls bound. *)
Definition create (modal toggleBtn optionsPanel : DOM.node) (themeOptions : list DOM.node)
    (sunIcon moonIcon autoIcon : DOM.node) : Modal :=
  {| modal := modal; toggleBtn := toggleBtn; optionsPanel := optionsPanel;
     themeOptions := themeOptions; sunIcon := sunIcon; moonIcon := moonIcon;
     autoIcon := autoIcon; isOpen := false; currentTheme := Some "theme-auto" |}.

Definition set_isOpen (b : bool) (this : Modal) : Modal :=
  {| modal := modal this; toggleBtn := toggleBtn this;
     optionsPanel := optionsPanel this; themeOptions := themeOptions this;
     sunIcon := sunIcon this; moonIcon := moonIcon this; autoIcon := autoIcon this;
     isOpen := b; currentTheme := currentTheme this |}.

Definition set_currentTheme (theme : JS.value) (this : Modal) : Modal :=
  {| modal := modal this; toggleBtn := toggleBtn this;
     optionsPanel := optionsPanel this; themeOptions := themeOptions this;
     sunIcon := sunIcon this; moonIcon := moonIcon this; autoIcon := autoIcon this;
     isOpen := isOpen this; currentTheme := theme |}.

Definition STORAGE_KEY : string := "littlelink-theme".

Definition THEME_CLASSES : list string := ["theme-light"; "theme-dark"; "theme-auto"].

(** [window.matchMedia && window.matchMedia('(prefers-color-scheme: dark)').matches],
    read for its truth value: undefined counts as false. *)
Definition prefersDark (p : DOM.Page) : bool :=
  match DOM.matchMedia p with
  | Some matches => matches
  | None => false
  end.

(** [option.dataset.theme] *)
Definition datasetTheme (p : DOM.Page) (option : DOM.node) : JS.value :=
  DOM.nodes p !! option ≫= DOM.dataset_theme.

Definition detectCurrentTheme (st : state) : state :=
  let classList := DOM.documentElement (snd st) in
  if DOMTokenList.contains classList "theme-dark" then
    (set_currentTheme (Some "theme-dark") (fst st), snd st)
  else if DOMTokenList.contains classList "theme-light" then
    (set_currentTheme (Some "theme-light") (fst st), snd st)
  else
    (set_currentTheme (Some "theme-auto") (fst st), snd st).

(** The value of the local variable [activeIcon]; [None] is undefined. *)
Definition activeIcon (st : state) : option DOM.node :=
  let this := fst st in
  if decide (currentTheme this = Some "theme-light") then Some (sunIcon this)
  else if decide (currentTheme this = Some "theme-dark") then Some (moonIcon this)
  else if decide (currentTheme this = Some "theme-auto") then
    Some (if prefersDark (snd st) then moonIcon this else sunIcon this)
  else None.

Definition updateButtonIcon (st : state) : state :=
  let this := fst st in
  let p1 := DOM.update (DOM.set_classList (fun l => DOMTokenList.remove l ["active"]))
              (sunIcon this) (snd st) in
  let p2 := DOM.update (DOM.set_classList (fun l => DOMTokenList.remove l ["active"]))
              (moonIcon this) p1 in
  let p3 := DOM.update (DOM.set_classList (fun l => DOMTokenList.remove l ["active"]))
              (autoIcon this) p2 in
  match activeIcon st with
  | Some icon =>
      (this, DOM.update (DOM.set_classList (fun l => DOMTokenList.add l "active")) icon p3)
  | None => (this, p3)
  end.

(** The body of the [forEach] of [updateActiveOption]. *)
Definition updateOption (this : Modal) (p : DOM.Page) (option : DOM.node) : DOM.Page :=
  let p1 := DOM.update (DOM.set_classList (fun l => DOMTokenList.remove l ["active"]))
              option p in
  if decide (datasetTheme p1 option = currentTheme this) then
    DOM.update (DOM.set_classList (fun l => DOMTokenList.add l "active")) option p1
  else p1.

Definition updateActiveOption (st : state) : state :=
  (fst st, fold_left (updateOption (fst st)) (themeOptions (fst st)) (snd st)).

Definition updateUI (st : state) : state :=
  updateActiveOption (updateButtonIcon st).

Definition setTheme (theme : JS.value) : JS.M state unit :=
  do _ <- JS.modify (fun st : state =>
            (fst st,
             DOM.set_documentElement (fun l => DOMTokenList.remove l THEME_CLASSES)
               (snd st)));
  do _ <- match DOMTokenList.validate (JS.ToString theme) with
          | Some e => JS.throw e
          | None =>
              JS.modify (fun st : state =>
                (fst st,
                 DOM.set_documentElement
                   (fun l => DOMTokenList.add l (JS.ToString theme)) (snd st)))
          end;
  do _ <- JS.modify (fun st : state => (set_currentTheme theme (fst st), snd st));
  do _ <- JS.modify (fun st : state =>
            (fst st,
             DOM.set_localStorage (insert STORAGE_KEY (JS.ToString theme)) (snd st)));
  JS.modify updateUI.

Definition loadSavedTheme : JS.M state unit :=
  do savedTheme <- JS.gets (fun st : state => DOM.localStorage (snd st) !! STORAGE_KEY);
  match savedTheme with
  | Some saved =>
      if negb (bool_decide (saved = "")) && bool_decide (saved ∈ THEME_CLASSES)
      then setTheme (Some saved)
      else JS.ret tt
  | None => JS.ret tt
  end.

(** [firstOption.focus()] is taken to move the focus to the option. *)
Definition openPanel (st : state) : state :=
  let this := fst st in
  let p1 := DOM.update (DOM.set_classList (fun l => DOMTokenList.add l "active"))
              (optionsPanel this) (snd st) in
  let this1 := set_isOpen true this in
  match DOM.querySelectorClass p1 (optionsPanel this1) "theme-option" with
  | Some firstOption => (this1, DOM.set_activeElement (Some firstOption) p1)
  | None => (this1, p1)
  end.

Definition closePanel (st : state) : state :=
  (set_isOpen false (fst st),
   DOM.update (DOM.set_classList (fun l => DOMTokenList.remove l ["active"]))
     (optionsPanel (fst st)) (snd st)).

Definition togglePanel (st : state) : state :=
  if isOpen (fst st) then closePanel st else openPanel st.

Definition getEffectiveTheme (st : state) : JS.value :=
  if decide (currentTheme (fst st) = Some "theme-auto") then
    if prefersDark (snd st) then Some "theme-dark" else Some "theme-light"
  else currentTheme (fst st).

(** *** The listeners registered by [bindEvents] *)

(** Click on the toggle button; [e.stopPropagation()] keeps the click from
    the document's listener. *)
Definition onToggleClick (st : state) : state := togglePanel st.

(** Click on a theme option. *)
Definition onOptionClick (option : DOM.node) : JS.M state unit :=
  do theme <- JS.gets (fun st : state => datasetTheme (snd st) option);
  do _ <- setTheme theme;
  JS.modify closePanel.

(** Click that reaches the document, [target] being the element clicked. *)
Definition onDocumentClick (target : DOM.node) (st : state) : state :=
  if negb (DOM.contains (snd st) (modal (fst st)) target) then closePanel st else st.

Definition onKeydown (key : string) (st : state) : state :=
  if bool_decide (key = "Escape") && isOpen (fst st) then closePanel st else st.

(** Change of the system color scheme (registered when [window.matchMedia]
    is defined). *)
Definition onSchemeChange (st : state) : state :=
  if decide (currentTheme (fst st) = Some "theme-auto") then updateUI st else st.

(** *** The dispatch of a click *)

(** The click listeners on [node], called in the order in which [bindEvents]
    added them: the one of the toggle button, then the one of the theme
    option.  The flag tells that [stopPropagation] was called. *)
Definition clickAt (node : DOM.node) (st : state) : state * bool :=
  let onButton := bool_decide (node = toggleBtn (fst st)) in
  let st1 := if onButton then onToggleClick st else st in
  let st2 :=
    if bool_decide (node ∈ themeOptions (fst st1))
    then JS.exec (onOptionClick node) st1
    else st1 in
  (st2, onButton).

(** The click bubbles from the target along [path] and then reaches the
    document, unless a listener stopped it on the way. *)
Fixpoint bubble (target : DOM.node) (path : list DOM.node) (st : state) : state :=
  match path with
  | [] => onDocumentClick target st
  | node :: path' =>
      let (st', stopped) := clickAt node st in
      if stopped then st' else bubble target path' st'
  end.

(** A click of the user on the element [target]. *)
Definition click (target : DOM.node) (st : state) : state :=
  bubble target (DOM.path (snd st) target) st.

(** [init], after [bindElements] and [bindEvents]. *)
Definition init : JS.M state unit :=
  do _ <- JS.modify detectCurrentTheme;
  do _ <- JS.modify updateUI;
  loadSavedTheme.

(** *** The popover as a state machine *)

Inductive event :=
| ToggleClick
| OptionClick (option : DOM.node)
| DocumentClick (target : DOM.node)
| Keydown (key : string).

(** One listener call; an exception ends the listener and the page goes on
    from the state reached. *)
Definition step (st : state) (e : event) : state :=
  match e with
  | ToggleClick => onToggleClick st
  | OptionClick option => JS.exec (onOptionClick option) st
  | DocumentClick target => onDocumentClick target st
  | Keydown key => onKeydown key st
  end.

Definition run (es : list event) (st : state) : state := fold_left step es st.

End ThemeToggleModal.

(** ** A page to run the scripts on *)

Module Sample.

Definition element (i : string) (classes : list string) (theme : JS.value)
    (parent : option DOM.node) : DOM.Element :=
  DOM.mkElement i classes theme "" parent.

(** The controls of the popover, the two themed images and a link outside
    the popover, in tree order. *)
Definition elements : list DOM.Element :=
  [ element "theme-toggle-modal" [] None None;
    element "theme-toggle-btn" [] None (Some 0);
    element "" ["sun-icon"] None (Some 1);
    element "" ["moon-icon"] None (Some 1);
    element "" ["auto-icon"] None (Some 1);
    element "theme-options-panel" [] None (Some 0);
    element "" ["theme-option"] (Some "theme-light") (Some 5);
    element "" ["theme-option"] (Some "theme-dark") (Some 5);
    element "" ["theme-option"] (Some "theme-auto") (Some 5);
    element "signature" [] None None;
    element "rate-icon" [] None None;
    element "" ["button"] None None ].

Definition page (rootClasses : list string) (matches : option bool) : DOM.Page :=
  DOM.mkPage "My Links" rootClasses matches ∅ elements None [] 0.

(** The same document loaded again, with a preference in the storage. *)
Definition reloaded (rootClasses : list string) (matches : option bool)
    (saved : string) : DOM.Page :=
  DOM.mkPage "My Links" rootClasses matches {[ "littlelink-theme" := saved ]}
    elements None [] 0.

Definition popover : ThemeToggleModal.Modal :=
  ThemeToggleModal.create 0 1 5 [6; 7; 8] 2 3 4.

End Sample.

(** ** What is observed of the page and of the popover *)

Module View.

(** Two pages that differ at most in the elements below the root. *)
Definition sameButNodes (p p' : DOM.Page) : Prop :=
  DOM.title p' = DOM.title p
  /\ DOM.documentElement p' = DOM.documentElement p
  /\ DOM.matchMedia p' = DOM.matchMedia p
  /\ DOM.localStorage p' = DOM.localStorage p
  /\ DOM.activeElement p' = DOM.activeElement p
  /\ DOM.observers p' = DOM.observers p
  /\ DOM.nextObserver p' = DOM.nextObserver p.

(** The page after [Utils.updateImageSrc] on [element], where
    [Utils.isDarkMode] returned [isDark]. *)
Definition sourceSet (element : option DOM.node) (paths : CONFIG.imagePaths)
    (isDark : bool) (p : DOM.Page) : DOM.Page :=
  match element with
  | Some el =>
      DOM.update
        (DOM.set_src (if isDark then CONFIG.dark paths else CONFIG.light paths)) el p
  | None => p
  end.

(** No class of the root has a marker as a proper part. *)
Definition plainMarkers (p : DOM.Page) : Prop :=
  forall t marker : string,
    t ∈ DOM.documentElement p ->
    marker ∈ [CONFIG.THEMES_DARK; CONFIG.THEMES_AUTO] ->
    JS.includes t marker = true -> t = marker.

(** The outcome of [Utils.isDarkMode], which leaves the page as it is. *)
Definition darkMode (p : DOM.Page) : JS.completion bool :=
  let themeClass := DOM.className p in
  if JS.includes themeClass CONFIG.THEMES_DARK then JS.Normal true
  else if JS.includes themeClass CONFIG.THEMES_AUTO then
    match DOM.matchMedia p with
    | Some matches => JS.Normal matches
    | None => JS.Throw JS.TypeError
    end
  else JS.Normal false.

(** The icons of the toggle button that carry the active class. *)
Definition activeIcons (st : ThemeToggleModal.state) : list DOM.node :=
  List.filter (fun icon => DOM.hasClass (snd st) icon "active")
    [ThemeToggleModal.sunIcon (fst st); ThemeToggleModal.moonIcon (fst st);
     ThemeToggleModal.autoIcon (fst st)].

(** The theme options that carry the active class. *)
Definition activeOptions (st : ThemeToggleModal.state) : list DOM.node :=
  List.filter (fun option => DOM.hasClass (snd st) option "active")
    (ThemeToggleModal.themeOptions (fst st)).

(** The options panel is shown: it carries the active class. *)
Definition panelShown (st : ThemeToggleModal.state) : bool :=
  DOM.hasClass (snd st) (ThemeToggleModal.optionsPanel (fst st)) "active".

(** The flag [isOpen] tells whether the panel is shown. *)
Definition consistent (st : ThemeToggleModal.state) : Prop :=
  ThemeToggleModal.isOpen (fst st) = panelShown st.

(** The panel reference points into the document. *)
Definition panelBound (st : ThemeToggleModal.state) : Prop :=
  ThemeToggleModal.optionsPanel (fst st) < length (DOM.nodes (snd st)).

(** The three icons are three elements of the document, none of them a
    theme option. *)
Definition iconsApart (st : ThemeToggleModal.state) : Prop :=
  let this := fst st in
  let icons := [ThemeToggleModal.sunIcon this; ThemeToggleModal.moonIcon this;
                ThemeToggleModal.autoIcon this] in
  NoDup icons
  /\ (forall icon, icon ∈ icons ->
        icon < length (DOM.nodes (snd st))
        /\ icon ∉ ThemeToggleModal.themeOptions this).

(** [updateUI] as the sequence of class-list updates it performs. *)
Inductive classOp := RemoveActive | AddActive.

Definition opTokens (o : classOp) (l : list string) : list string :=
  match o with
  | RemoveActive => DOMTokenList.remove l ["active"]
  | AddActive => DOMTokenList.add l "active"
  end.

Definition applyOp (o : classOp) : DOM.Element -> DOM.Element :=
  DOM.set_classList (opTokens o).

Definition applyOps (ops : list (DOM.node * classOp)) (els : list DOM.Element)
    : list DOM.Element :=
  fold_left (fun els no => alter (applyOp (snd no)) (fst no) els) ops els.

Definition optionOps (this : ThemeToggleModal.Modal) (p : DOM.Page) (option : DOM.node)
    : list (DOM.node * classOp) :=
  (option, RemoveActive)
  :: (if decide (ThemeToggleModal.datasetTheme p option
                 = ThemeToggleModal.currentTheme this)
      then [(option, AddActive)] else []).

Definition iconOps (st : ThemeToggleModal.state) : list (DOM.node * classOp) :=
  [(ThemeToggleModal.sunIcon (fst st), RemoveActive);
   (ThemeToggleModal.moonIcon (fst st), RemoveActive);
   (ThemeToggleModal.autoIcon (fst st), RemoveActive)]
  ++ match ThemeToggleModal.activeIcon st with
     | Some icon => [(icon, AddActive)]
     | None => []
     end.

Definition updateUI_ops (st : ThemeToggleModal.state) : list (DOM.node * classOp) :=
  iconOps st
  ++ flat_map (optionOps (fst st) (snd st)) (ThemeToggleModal.themeOptions (fst st)).

(** The updates of a sequence that reach node [k], in order. *)
Definition opsAt (k : DOM.node) (ops : list (DOM.node * classOp)) : list classOp :=
  map snd (List.filter (fun no => bool_decide (fst no = k)) ops).

Definition runOps (os : list classOp) (e : DOM.Element) : DOM.Element :=
  fold_left (fun e o => applyOp o e) os e.

Definition tokensAfter (os : list classOp) (l : list string) : list string :=
  fold_left (fun l o => opTokens o l) os l.

(** The first update, if there is one, removes the active class. *)
Definition startsWithRemove (os : list classOp) : Prop :=
  match os with
  | [] => True
  | o :: _ => o = RemoveActive
  end.

(** The state [setTheme] ends in when the class token is accepted. *)
Definition themeSet (theme : JS.value) (st : ThemeToggleModal.state)
    : ThemeToggleModal.state :=
  ThemeToggleModal.updateUI
    (ThemeToggleModal.set_currentTheme theme (fst st),
     DOM.set_localStorage
       (insert ThemeToggleModal.STORAGE_KEY (JS.ToString theme))
       (DOM.set_documentElement
          (fun l =>
             DOMTokenList.add (DOMTokenList.remove l ThemeToggleModal.THEME_CLASSES)
               (JS.ToString theme))
          (snd st))).

(** What a listener leaves alone: the panel reference and the number of
    elements of the document. *)
Definition sameShape (st st' : ThemeToggleModal.state) : Prop :=
  ThemeToggleModal.optionsPanel (fst st') = ThemeToggleModal.optionsPanel (fst st)
  /\ length (DOM.nodes (snd st')) = length (DOM.nodes (snd st)).

End View.

(** ** Events of the browser and what is seen of the page *)

Module Behaviour.

(** The system color scheme changes to [matches] and the popover's listener
    of the change runs. *)
Definition schemeChanged (matches : bool) (st : ThemeToggleModal.state)
    : ThemeToggleModal.state :=
  ThemeToggleModal.onSchemeChange (fst st, DOM.set_matchMedia (Some matches) (snd st)).

(** The same change, for the listener of the image synchronizer. *)
Definition imagesSchemeChanged (matches : bool) (p : DOM.Page) : DOM.Page :=
  JS.exec ThemeManager.onSchemeChange (DOM.set_matchMedia (Some matches) p).

(** The test of the observer's callback on one record. *)
Definition classRecord (mutation : ThemeManager.MutationRecord) : bool :=
  bool_decide (ThemeManager.type mutation = "attributes")
  && bool_decide (ThemeManager.attributeName mutation = Some "class").

(** The source shown by the element with id [i], if the page has one. *)
Definition shown (p : DOM.Page) (i : string) : option string :=
  DOM.getElementById p i ≫= fun el => DOM.src <$> DOM.nodes p !! el.

(** The page has one of the two themed images. *)
Definition hasImage (p : DOM.Page) : bool :=
  bool_decide (is_Some (DOM.getElementById p CONFIG.SELECTORS_SIGNATURE))
  || bool_decide (is_Some (DOM.getElementById p CONFIG.SELECTORS_RATE_ICON)).

(** Every theme option is an element of the document and none is an icon of
    the toggle button. *)
Definition optionsApart (st : ThemeToggleModal.state) : Prop :=
  forall option,
    option ∈ ThemeToggleModal.themeOptions (fst st) ->
    option < length (DOM.nodes (snd st))
    /\ option ∉ [ThemeToggleModal.sunIcon (fst st); ThemeToggleModal.moonIcon (fst st);
                 ThemeToggleModal.autoIcon (fst st)].

(** What the popover does not write: the id, source, data-theme and parent
    of the elements. *)
Definition attributes (p : DOM.Page)
    : list (string * string * JS.value * option DOM.node) :=
  map (fun e => (DOM.id e, DOM.src e, DOM.dataset_theme e, DOM.parentNode e))
    (DOM.nodes p).

(** What only [setTheme] writes. *)
Definition preference (st : ThemeToggleModal.state)
    : JS.value * list string * gmap string string :=
  (ThemeToggleModal.currentTheme (fst st), DOM.documentElement (snd st),
   DOM.localStorage (snd st)).

(** Two states of the popover with the same controls on documents of the
    same size. *)
Definition sameControls (st st' : ThemeToggleModal.state) : Prop :=
  ThemeToggleModal.sunIcon (fst st') = ThemeToggleModal.sunIcon (fst st)
  /\ ThemeToggleModal.moonIcon (fst st') = ThemeToggleModal.moonIcon (fst st)
  /\ ThemeToggleModal.autoIcon (fst st') = ThemeToggleModal.autoIcon (fst st)
  /\ ThemeToggleModal.themeOptions (fst st') = ThemeToggleModal.themeOptions (fst st)
  /\ length (DOM.nodes (snd st')) = length (DOM.nodes (snd st)).

(** The element [n] has no click listener of the popover. *)
Definition passive (st : ThemeToggleModal.state) (n : DOM.node) : Prop :=
  n <> ThemeToggleModal.toggleBtn (fst st)
  /\ n ∉ ThemeToggleModal.themeOptions (fst st).

End Behaviour.

(** * Properties *)

(** ** Token sets *)

Lemma contains_true tokens token :
  DOMTokenList.contains tokens token = true <-> token ∈ tokens.
Proof. unfold DOMTokenList.contains. apply bool_decide_eq_true. Qed.

Lemma contains_false tokens token :
  DOMTokenList.contains tokens token = false <-> token ∉ tokens.
Proof. unfold DOMTokenList.contains. apply bool_decide_eq_false. Qed.

Lemma elem_of_add tokens token t :
  t ∈ DOMTokenList.add tokens token <-> t ∈ tokens \/ t = token.
Proof.
  unfold DOMTokenList.add.
  destruct (DOMTokenList.contains tokens token) eqn:E.
  - apply contains_true in E. split; [auto | intros [H | ->]; assumption].
  - rewrite elem_of_app, list_elem_of_singleton. reflexivity.
Qed.

Lemma elem_of_remove tokens args t :
  t ∈ DOMTokenList.remove tokens args <-> t ∈ tokens /\ t ∉ args.
Proof. unfold DOMTokenList.remove. rewrite list_elem_of_filter. tauto. Qed.

Lemma contains_add_same tokens token :
  DOMTokenList.contains (DOMTokenList.add tokens token) token = true.
Proof. apply contains_true, elem_of_add. auto. Qed.

Lemma contains_remove_same tokens token :
  DOMTokenList.contains (DOMTokenList.remove tokens [token]) token = false.
Proof.
  apply contains_false. rewrite elem_of_remove. intros [_ H]. apply H.
  apply list_elem_of_singleton. reflexivity.
Qed.

Lemma remove_remove tokens args :
  DOMTokenList.remove (DOMTokenList.remove tokens args) args
  = DOMTokenList.remove tokens args.
Proof.
  unfold DOMTokenList.remove. induction tokens as [|t ts IH]; [reflexivity|].
  rewrite filter_cons. destruct (decide (t ∉ args)) as [H|H].
  - rewrite filter_cons. destruct (decide (t ∉ args)); [|contradiction].
    f_equal. exact IH.
  - exact IH.
Qed.

Lemma remove_add tokens token :
  DOMTokenList.remove (DOMTokenList.add tokens token) [token]
  = DOMTokenList.remove tokens [token].
Proof.
  unfold DOMTokenList.add. destruct (DOMTokenList.contains tokens token); [reflexivity|].
  unfold DOMTokenList.remove. rewrite filter_app. rewrite filter_cons.
  destruct (decide (token ∉ [token])) as [H|H].
  - exfalso. apply H. apply list_elem_of_singleton. reflexivity.
  - rewrite filter_nil. apply app_nil_r.
Qed.

(** ** The title controllers *)

Lemma script_run_snoc docTitle es e p :
  Script.run docTitle (es ++ [e]) p = Script.handle docTitle (Script.run docTitle es p) e.
Proof. unfold Script.run. rewrite fold_left_app. reflexivity. Qed.

Lemma title_manager_run_snoc this es e p :
  PageTitleManager.run this (es ++ [e]) p
  = PageTitleManager.handle this (PageTitleManager.run this es p) e.
Proof. unfold PageTitleManager.run. rewrite fold_left_app. reflexivity. Qed.

(** C6. Both title controllers (the stand-alone script and
    [PageTitleManager]) capture the document title once, when they are
    loaded on page [p].  Whatever blur and focus events [es] the window
    received before, a blur leaves the fixed away message as the title and a
    focus leaves exactly the captured title. *)
Theorem title_restored_on_focus (p : DOM.Page) :
  (forall es : list Script.event,
      DOM.title (Script.run (Script.load p) (es ++ [Script.Blur]) p)
      = "🔙 Ooops, ainda estou aqui!"
      /\ DOM.title (Script.run (Script.load p) (es ++ [Script.Focus]) p)
         = DOM.title p)
  /\ (forall es : list PageTitleManager.event,
      DOM.title (PageTitleManager.run (PageTitleManager.create p)
                   (es ++ [PageTitleManager.Blur]) p)
      = "Ooops, ainda estou aqui!"
      /\ DOM.title (PageTitleManager.run (PageTitleManager.create p)
                      (es ++ [PageTitleManager.Focus]) p)
         = DOM.title p).
Proof.
  split; intros es; split.
  - rewrite script_run_snoc. reflexivity.
  - rewrite script_run_snoc. reflexivity.
  - rewrite title_manager_run_snoc. reflexivity.
  - rewrite title_manager_run_snoc. reflexivity.
Qed.

(** The scenario of the specification: title "My Links", blur, focus. *)
Example title_scenario :
  let p := Sample.page ["theme-auto"] (Some false) in
  let this := PageTitleManager.create p in
  DOM.title p = "My Links"
  /\ DOM.title (PageTitleManager.run this [PageTitleManager.Blur] p)
     = "Ooops, ainda estou aqui!"
  /\ DOM.title (PageTitleManager.run this [PageTitleManager.Blur; PageTitleManager.Focus] p)
     = "My Links".
Proof. repeat split. Qed.

(** ** The popover: seeding and setting the preference *)

Lemma detectCurrentTheme_page st :
  snd (ThemeToggleModal.detectCurrentTheme st) = snd st.
Proof.
  unfold ThemeToggleModal.detectCurrentTheme.
  repeat (destruct (DOMTokenList.contains _ _); [reflexivity|]). reflexivity.
Qed.

(** C10. [detectCurrentTheme] looks for theme-dark first and for theme-light
    second: with theme-dark on the root it seeds theme-dark, also when
    theme-light is there too; it seeds theme-auto exactly when neither of the
    two is on the root, whether theme-auto is there or not.  It changes
    nothing else. *)
Theorem detectCurrentTheme_precedence (st : ThemeToggleModal.state) :
  let classList := DOM.documentElement (snd st) in
  let seeded := ThemeToggleModal.currentTheme (fst (ThemeToggleModal.detectCurrentTheme st)) in
  (("theme-dark" ∈ classList) -> seeded = Some "theme-dark")
  /\ (("theme-dark" ∉ classList) -> ("theme-light" ∈ classList)
      -> seeded = Some "theme-light")
  /\ (seeded = Some "theme-auto"
      <-> ("theme-dark" ∉ classList) /\ ("theme-light" ∉ classList))
  /\ ThemeToggleModal.detectCurrentTheme st
     = (ThemeToggleModal.set_currentTheme seeded (fst st), snd st).
Proof.
  intros classList seeded. subst seeded. unfold ThemeToggleModal.detectCurrentTheme.
  fold classList.
  destruct (DOMTokenList.contains classList "theme-dark") eqn:Hd.
  - apply contains_true in Hd. cbn. repeat split; try done.
    intros [H _]. contradiction.
  - apply contains_false in Hd.
    destruct (DOMTokenList.contains classList "theme-light") eqn:Hl.
    + apply contains_true in Hl. cbn. repeat split; try done.
      intros [_ H]. contradiction.
    + apply contains_false in Hl. cbn. repeat split; done.
Qed.

(** With both markers on the root the seed is theme-dark; with only
    theme-auto, or with no marker at all, it is theme-auto. *)
Lemma detectCurrentTheme_precedence_witness :
  let seed classes :=
    ThemeToggleModal.currentTheme
      (fst (ThemeToggleModal.detectCurrentTheme
              (Sample.popover, Sample.page classes (Some false)))) in
  seed ["theme-light"; "theme-dark"] = Some "theme-dark"
  /\ seed ["theme-auto"] = Some "theme-auto"
  /\ seed [] = Some "theme-auto".
Proof.
  intros seed. split; [|split].
  - apply (detectCurrentTheme_precedence
             (Sample.popover, Sample.page ["theme-light"; "theme-dark"] (Some false))).
    cbn. apply (bool_decide_unpack _). reflexivity.
  - apply (detectCurrentTheme_precedence
             (Sample.popover, Sample.page ["theme-auto"] (Some false))).
    cbn. split; apply (bool_decide_unpack _); reflexivity.
  - apply (detectCurrentTheme_precedence (Sample.popover, Sample.page [] (Some false))).
    cbn. split; apply (bool_decide_unpack _); reflexivity.
Defined.

(** ** [updateUI] as a sequence of class-list updates *)

Lemma applyOps_app ops1 ops2 els :
  View.applyOps (ops1 ++ ops2) els = View.applyOps ops2 (View.applyOps ops1 els).
Proof. unfold View.applyOps. apply fold_left_app. Qed.

Lemma opsAt_app k ops1 ops2 :
  View.opsAt k (ops1 ++ ops2) = View.opsAt k ops1 ++ View.opsAt k ops2.
Proof. unfold View.opsAt. rewrite List.filter_app, map_app. reflexivity. Qed.

Lemma lookup_applyOps ops : forall els k,
  View.applyOps ops els !! k = View.runOps (View.opsAt k ops) <$> els !! k.
Proof.
  induction ops as [|[n o] ops IH]; intros els k.
  - cbn. destruct (els !! k); reflexivity.
  - change (View.applyOps ((n, o) :: ops) els)
      with (View.applyOps ops (alter (View.applyOp o) n els)).
    rewrite IH. unfold View.opsAt. cbn [List.filter fst snd].
    destruct (decide (n = k)) as [->|Hne].
    + rewrite bool_decide_eq_true_2 by reflexivity.
      rewrite list_lookup_alter_eq. destruct (els !! k); reflexivity.
    + rewrite bool_decide_eq_false_2 by assumption.
      rewrite list_lookup_alter_ne by assumption. reflexivity.
Qed.

Lemma length_applyOps ops : forall els, length (View.applyOps ops els) = length els.
Proof.
  induction ops as [|[n o] ops IH]; intros els; [reflexivity|].
  change (View.applyOps ((n, o) :: ops) els)
    with (View.applyOps ops (alter (View.applyOp o) n els)).
  rewrite IH. apply length_alter.
Qed.

Lemma dataset_theme_runOps os : forall e,
  DOM.dataset_theme (View.runOps os e) = DOM.dataset_theme e.
Proof.
  induction os as [|o os IH]; intros e; [reflexivity|].
  change (View.runOps (o :: os) e) with (View.runOps os (View.applyOp o e)).
  rewrite IH. reflexivity.
Qed.

Lemma datasetTheme_applyOps ops p option :
  ThemeToggleModal.datasetTheme (DOM.set_nodes (View.applyOps ops) p) option
  = ThemeToggleModal.datasetTheme p option.
Proof.
  unfold ThemeToggleModal.datasetTheme. cbn [DOM.nodes DOM.set_nodes].
  rewrite lookup_applyOps. destruct (DOM.nodes p !! option); [|reflexivity].
  cbn. apply dataset_theme_runOps.
Qed.

Lemma updateButtonIcon_applyOps st :
  ThemeToggleModal.updateButtonIcon st
  = (fst st, DOM.set_nodes (View.applyOps (View.iconOps st)) (snd st)).
Proof.
  unfold ThemeToggleModal.updateButtonIcon, View.iconOps.
  destruct (ThemeToggleModal.activeIcon st); reflexivity.
Qed.

Lemma updateOption_applyOps this p0 ops option :
  ThemeToggleModal.updateOption this (DOM.set_nodes (View.applyOps ops) p0) option
  = DOM.set_nodes (View.applyOps (ops ++ View.optionOps this p0 option)) p0.
Proof.
  unfold ThemeToggleModal.updateOption, View.optionOps.
  replace (DOM.update (DOM.set_classList (fun l => DOMTokenList.remove l ["active"]))
             option (DOM.set_nodes (View.applyOps ops) p0))
    with (DOM.set_nodes (View.applyOps (ops ++ [(option, View.RemoveActive)])) p0)
    by (unfold DOM.update, DOM.set_nodes; cbn; rewrite applyOps_app; reflexivity).
  rewrite datasetTheme_applyOps.
  destruct (decide (ThemeToggleModal.datasetTheme p0 option
                    = ThemeToggleModal.currentTheme this)).
  - unfold DOM.update, DOM.set_nodes. cbn. rewrite !applyOps_app. reflexivity.
  - reflexivity.
Qed.

Lemma updateOptions_applyOps this p0 options : forall ops,
  fold_left (ThemeToggleModal.updateOption this) options
    (DOM.set_nodes (View.applyOps ops) p0)
  = DOM.set_nodes
      (View.applyOps (ops ++ flat_map (View.optionOps this p0) options)) p0.
Proof.
  induction options as [|option options IH]; intros ops.
  - cbn. rewrite app_nil_r. reflexivity.
  - cbn [fold_left flat_map]. rewrite updateOption_applyOps, IH.
    rewrite <- app_assoc. reflexivity.
Qed.

Lemma updateUI_applyOps st :
  ThemeToggleModal.updateUI st
  = (fst st, DOM.set_nodes (View.applyOps (View.updateUI_ops st)) (snd st)).
Proof.
  unfold ThemeToggleModal.updateUI. rewrite updateButtonIcon_applyOps.
  unfold ThemeToggleModal.updateActiveOption. cbn [fst snd].
  rewrite updateOptions_applyOps. reflexivity.
Qed.

(** ** [setTheme] and [loadSavedTheme] *)

Lemma setTheme_accepted theme st :
  DOMTokenList.validate (JS.ToString theme) = None ->
  ThemeToggleModal.setTheme theme st = (JS.Normal tt, View.themeSet theme st).
Proof.
  intros Hv. unfold ThemeToggleModal.setTheme, JS.bind, JS.modify.
  rewrite Hv. reflexivity.
Qed.

Lemma setTheme_rejected theme e st :
  DOMTokenList.validate (JS.ToString theme) = Some e ->
  ThemeToggleModal.setTheme theme st
  = (JS.Throw e,
     (fst st,
      DOM.set_documentElement
        (fun l => DOMTokenList.remove l ThemeToggleModal.THEME_CLASSES) (snd st))).
Proof.
  intros Hv. unfold ThemeToggleModal.setTheme, JS.bind, JS.modify, JS.throw.
  rewrite Hv. reflexivity.
Qed.

Lemma theme_classes_cases (theme : string) :
  theme ∈ ThemeToggleModal.THEME_CLASSES ->
  theme = "theme-light" \/ theme = "theme-dark" \/ theme = "theme-auto".
Proof.
  unfold ThemeToggleModal.THEME_CLASSES.
  rewrite !elem_of_cons, elem_of_nil. tauto.
Qed.

Lemma light_is_theme : "theme-light" ∈ ThemeToggleModal.THEME_CLASSES.
Proof. apply (bool_decide_unpack _). reflexivity. Qed.

Lemma dark_is_theme : "theme-dark" ∈ ThemeToggleModal.THEME_CLASSES.
Proof. apply (bool_decide_unpack _). reflexivity. Qed.

Lemma auto_is_theme : "theme-auto" ∈ ThemeToggleModal.THEME_CLASSES.
Proof. apply (bool_decide_unpack _). reflexivity. Qed.

Lemma validate_theme_classes (theme : string) :
  theme ∈ ThemeToggleModal.THEME_CLASSES -> DOMTokenList.validate theme = None.
Proof.
  intros H. destruct (theme_classes_cases theme H) as [-> | [-> | ->]]; reflexivity.
Qed.

Lemma themeSet_frame theme st :
  ThemeToggleModal.currentTheme (fst (View.themeSet theme st)) = theme
  /\ ThemeToggleModal.isOpen (fst (View.themeSet theme st)) = ThemeToggleModal.isOpen (fst st)
  /\ DOM.documentElement (snd (View.themeSet theme st))
     = DOMTokenList.add
         (DOMTokenList.remove (DOM.documentElement (snd st))
            ThemeToggleModal.THEME_CLASSES)
         (JS.ToString theme)
  /\ DOM.localStorage (snd (View.themeSet theme st))
     = <[ThemeToggleModal.STORAGE_KEY := JS.ToString theme]> (DOM.localStorage (snd st)).
Proof. unfold View.themeSet. rewrite updateUI_applyOps. repeat split. Qed.

Lemma themeSet_marker (theme marker : string) st :
  marker ∈ ThemeToggleModal.THEME_CLASSES ->
  DOMTokenList.contains
    (DOM.documentElement (snd (View.themeSet (Some theme) st))) marker
  = bool_decide (marker = theme).
Proof.
  intros Hmarker.
  destruct (themeSet_frame (Some theme) st) as (_ & _ & -> & _). cbn [JS.ToString].
  destruct (decide (marker = theme)) as [->|Hne].
  - rewrite bool_decide_eq_true_2 by reflexivity. apply contains_add_same.
  - rewrite bool_decide_eq_false_2 by assumption. apply contains_false.
    rewrite elem_of_add, elem_of_remove. tauto.
Qed.

(** C2. For each of the three preferences, [setTheme] returns normally and
    leaves on the root element, of the three marker classes, the one of the
    preference and no other, whatever classes the root carried before. *)
Theorem setTheme_exactly_one_marker (theme : string) (st : ThemeToggleModal.state) :
  theme ∈ ThemeToggleModal.THEME_CLASSES ->
  fst (ThemeToggleModal.setTheme (Some theme) st) = JS.Normal tt
  /\ forall marker : string,
       marker ∈ ThemeToggleModal.THEME_CLASSES ->
       DOMTokenList.contains
         (DOM.documentElement (snd (snd (ThemeToggleModal.setTheme (Some theme) st))))
         marker
       = bool_decide (marker = theme).
Proof.
  intros Htheme.
  rewrite (setTheme_accepted (Some theme) st (validate_theme_classes theme Htheme)).
  split; [reflexivity|]. intros marker Hmarker. cbn [fst snd].
  apply themeSet_marker, Hmarker.
Qed.

(** After [setTheme('theme-light')] on a root that carried all three markers
    and a class of its own, theme-light is the only marker left. *)
Lemma setTheme_exactly_one_marker_witness :
  let st := (Sample.popover,
             Sample.page ["theme-dark"; "no-js"; "theme-auto"; "theme-light"] (Some true)) in
  let root := DOM.documentElement
                (snd (snd (ThemeToggleModal.setTheme (Some "theme-light") st))) in
  "theme-light" ∈ ThemeToggleModal.THEME_CLASSES
  /\ DOMTokenList.contains root "theme-light" = true
  /\ DOMTokenList.contains root "theme-dark" = false
  /\ DOMTokenList.contains root "theme-auto" = false.
Proof.
  intros st root.
  pose proof (setTheme_exactly_one_marker "theme-light" st light_is_theme) as [_ H].
  split; [exact light_is_theme|].
  split; [exact (H "theme-light" light_is_theme)|].
  split; [exact (H "theme-dark" dark_is_theme) | exact (H "theme-auto" auto_is_theme)].
Defined.

Lemma loadSavedTheme_saved (theme : string) st :
  theme ∈ ThemeToggleModal.THEME_CLASSES ->
  DOM.localStorage (snd st) !! ThemeToggleModal.STORAGE_KEY = Some theme ->
  ThemeToggleModal.loadSavedTheme st = (JS.Normal tt, View.themeSet (Some theme) st).
Proof.
  intros Htheme Hsaved. unfold ThemeToggleModal.loadSavedTheme, JS.bind, JS.gets.
  rewrite Hsaved.
  assert (Hcond : negb (bool_decide (theme = ""))
                  && bool_decide (theme ∈ ThemeToggleModal.THEME_CLASSES) = true).
  { rewrite (bool_decide_eq_true_2 _ Htheme).
    destruct (theme_classes_cases theme Htheme) as [-> | [-> | ->]]; reflexivity. }
  rewrite Hcond.
  apply setTheme_accepted, validate_theme_classes, Htheme.
Qed.

(** C3. After [setTheme] of one of the three preferences, a fresh load that
    finds the same storage (whatever its document and its popover object)
    gets the preference back from [loadSavedTheme], which applies the stored
    value by [setTheme], and so from [init], whose [detectCurrentTheme]
    seeded the preference from the classes of the fresh document before. *)
Theorem saved_theme_round_trip (theme : string) (st fresh : ThemeToggleModal.state) :
  theme ∈ ThemeToggleModal.THEME_CLASSES ->
  DOM.localStorage (snd fresh)
  = DOM.localStorage (snd (JS.exec (ThemeToggleModal.setTheme (Some theme)) st)) ->
  (ThemeToggleModal.loadSavedTheme fresh
   = ThemeToggleModal.setTheme (Some theme) fresh
   /\ fst (ThemeToggleModal.loadSavedTheme fresh) = JS.Normal tt
   /\ ThemeToggleModal.currentTheme
        (fst (JS.exec ThemeToggleModal.loadSavedTheme fresh)) = Some theme)
  /\ (fst (ThemeToggleModal.init fresh) = JS.Normal tt
      /\ ThemeToggleModal.currentTheme
           (fst (JS.exec ThemeToggleModal.init fresh)) = Some theme).
Proof.
  intros Htheme Hstorage.
  assert (Hsaved : DOM.localStorage (snd fresh) !! ThemeToggleModal.STORAGE_KEY
                   = Some theme).
  { rewrite Hstorage. unfold JS.exec.
    rewrite (setTheme_accepted (Some theme) st (validate_theme_classes theme Htheme)).
    cbn [snd]. destruct (themeSet_frame (Some theme) st) as (_ & _ & _ & ->).
    apply lookup_insert_eq. }
  split.
  - unfold JS.exec. rewrite (loadSavedTheme_saved theme fresh Htheme Hsaved).
    split; [symmetry; apply setTheme_accepted, validate_theme_classes, Htheme|].
    split; [reflexivity|]. apply themeSet_frame.
  - unfold JS.exec, ThemeToggleModal.init, JS.bind, JS.modify.
    set (seeded := ThemeToggleModal.updateUI (ThemeToggleModal.detectCurrentTheme fresh)).
    assert (Hseeded : DOM.localStorage (snd seeded) !! ThemeToggleModal.STORAGE_KEY
                      = Some theme).
    { subst seeded. rewrite updateUI_applyOps. cbn [snd DOM.localStorage DOM.set_nodes].
      rewrite detectCurrentTheme_page. exact Hsaved. }
    rewrite (loadSavedTheme_saved theme seeded Htheme Hseeded).
    split; [reflexivity|]. apply themeSet_frame.
Qed.

(** The storage written by [setTheme('theme-dark')] makes a fresh load of a
    document marked theme-light end with the preference theme-dark. *)
Lemma saved_theme_round_trip_witness :
  let st := (Sample.popover, Sample.page ["theme-auto"] (Some false)) in
  let fresh := (Sample.popover, Sample.reloaded ["theme-light"] (Some false) "theme-dark") in
  "theme-dark" ∈ ThemeToggleModal.THEME_CLASSES
  /\ DOM.localStorage (snd fresh)
     = DOM.localStorage (snd (JS.exec (ThemeToggleModal.setTheme (Some "theme-dark")) st))
  /\ ThemeToggleModal.currentTheme (fst (ThemeToggleModal.detectCurrentTheme fresh))
     = Some "theme-light"
  /\ ThemeToggleModal.currentTheme (fst (JS.exec ThemeToggleModal.init fresh))
     = Some "theme-dark".
Proof.
  intros st fresh.
  assert (Hstorage :
            DOM.localStorage (snd fresh)
            = DOM.localStorage
                (snd (JS.exec (ThemeToggleModal.setTheme (Some "theme-dark")) st)))
    by reflexivity.
  split; [exact dark_is_theme|]. split; [exact Hstorage|]. split; [reflexivity|].
  exact (proj2 (proj2 (saved_theme_round_trip "theme-dark" st fresh
                         dark_is_theme Hstorage))).
Defined.

(** ** The popover as a state machine *)

Lemma onOptionClick_accepted option st :
  DOMTokenList.validate
    (JS.ToString (ThemeToggleModal.datasetTheme (snd st) option)) = None ->
  ThemeToggleModal.onOptionClick option st
  = (JS.Normal tt,
     ThemeToggleModal.closePanel
       (View.themeSet (ThemeToggleModal.datasetTheme (snd st) option) st)).
Proof.
  intros Hv. unfold ThemeToggleModal.onOptionClick, JS.bind, JS.gets.
  rewrite (setTheme_accepted _ st Hv). reflexivity.
Qed.

Lemma onOptionClick_rejected option e st :
  DOMTokenList.validate
    (JS.ToString (ThemeToggleModal.datasetTheme (snd st) option)) = Some e ->
  ThemeToggleModal.onOptionClick option st
  = (JS.Throw e,
     (fst st,
      DOM.set_documentElement
        (fun l => DOMTokenList.remove l ThemeToggleModal.THEME_CLASSES) (snd st))).
Proof.
  intros Hv. unfold ThemeToggleModal.onOptionClick, JS.bind, JS.gets.
  rewrite (setTheme_rejected _ e st Hv). reflexivity.
Qed.

Lemma isOpen_openPanel st :
  ThemeToggleModal.isOpen (fst (ThemeToggleModal.openPanel st)) = true.
Proof.
  unfold ThemeToggleModal.openPanel.
  destruct (DOM.querySelectorClass _ _ _); reflexivity.
Qed.

(** C4. The popover object starts closed.  A click on the toggle button
    opens a closed popover and closes an open one.  The escape key, a click
    whose target is outside the popover root, and a click on a theme option
    whose data-theme is a class token (as each of the three preferences is)
    leave the popover closed, from the open state as from any other; the
    click on the option also makes the option's theme the current
    preference. *)
Theorem popover_transitions (st : ThemeToggleModal.state) :
  (forall modal toggleBtn optionsPanel themeOptions sunIcon moonIcon autoIcon,
      ThemeToggleModal.isOpen
        (ThemeToggleModal.create modal toggleBtn optionsPanel themeOptions
           sunIcon moonIcon autoIcon) = false)
  /\ ThemeToggleModal.isOpen
       (fst (ThemeToggleModal.step st ThemeToggleModal.ToggleClick))
     = negb (ThemeToggleModal.isOpen (fst st))
  /\ ThemeToggleModal.isOpen
       (fst (ThemeToggleModal.step st (ThemeToggleModal.Keydown "Escape"))) = false
  /\ (forall target,
        DOM.contains (snd st) (ThemeToggleModal.modal (fst st)) target = false ->
        ThemeToggleModal.isOpen
          (fst (ThemeToggleModal.step st (ThemeToggleModal.DocumentClick target)))
        = false)
  /\ (forall option,
        DOMTokenList.validate
          (JS.ToString (ThemeToggleModal.datasetTheme (snd st) option)) = None ->
        let st' := ThemeToggleModal.step st (ThemeToggleModal.OptionClick option) in
        ThemeToggleModal.isOpen (fst st') = false
        /\ ThemeToggleModal.currentTheme (fst st')
           = ThemeToggleModal.datasetTheme (snd st) option).
Proof.
  split; [reflexivity|]. split; [|split; [|split]].
  - cbn [ThemeToggleModal.step]. unfold ThemeToggleModal.onToggleClick,
      ThemeToggleModal.togglePanel.
    destruct (ThemeToggleModal.isOpen (fst st)); [reflexivity|].
    apply isOpen_openPanel.
  - cbn [ThemeToggleModal.step]. unfold ThemeToggleModal.onKeydown.
    rewrite bool_decide_eq_true_2 by reflexivity. cbn [andb].
    destruct (ThemeToggleModal.isOpen (fst st)) eqn:E; [reflexivity | exact E].
  - intros target Houtside. cbn [ThemeToggleModal.step].
    unfold ThemeToggleModal.onDocumentClick. rewrite Houtside. reflexivity.
  - intros option Hv st'. subst st'. cbn [ThemeToggleModal.step]. unfold JS.exec.
    rewrite (onOptionClick_accepted option st Hv). split; [reflexivity|].
    cbn [fst snd ThemeToggleModal.closePanel ThemeToggleModal.currentTheme
           ThemeToggleModal.set_isOpen].
    apply themeSet_frame.
Qed.

(** The walk of the specification on the sample page: closed, toggled open,
    then closed again by the toggle button, by the escape key, by a click on
    the link outside the popover, and by the click on the dark option. *)
Lemma popover_transitions_witness :
  let closed := (Sample.popover, Sample.page ["theme-auto"] (Some false)) in
  let opened := ThemeToggleModal.step closed ThemeToggleModal.ToggleClick in
  ThemeToggleModal.isOpen (fst closed) = false
  /\ ThemeToggleModal.isOpen (fst opened) = true
  /\ ThemeToggleModal.isOpen
       (fst (ThemeToggleModal.step opened ThemeToggleModal.ToggleClick)) = false
  /\ ThemeToggleModal.isOpen
       (fst (ThemeToggleModal.step opened (ThemeToggleModal.Keydown "Escape"))) = false
  /\ ThemeToggleModal.isOpen
       (fst (ThemeToggleModal.step opened (ThemeToggleModal.DocumentClick 11))) = false
  /\ ThemeToggleModal.isOpen
       (fst (ThemeToggleModal.step opened (ThemeToggleModal.OptionClick 7))) = false
  /\ ThemeToggleModal.currentTheme
       (fst (ThemeToggleModal.step opened (ThemeToggleModal.OptionClick 7)))
     = Some "theme-dark".
Proof.
  intros closed opened.
  destruct (popover_transitions closed) as (Hinit & Htoggle & _).
  destruct (popover_transitions opened) as (_ & Htoggle' & Hescape & Houtside & Hoption).
  assert (Hopened : ThemeToggleModal.isOpen (fst opened) = true) by exact Htoggle.
  split; [exact (Hinit 0 1 5 [6; 7; 8] 2 3 4)|].
  split; [exact Hopened|].
  split; [rewrite Htoggle', Hopened; reflexivity|].
  split; [exact Hescape|].
  split; [exact (Houtside 11 eq_refl)|].
  exact (Hoption 7 eq_refl).
Defined.

(** The same walk with clicks of the user: on the sun icon inside the
    toggle button (the click bubbles to the button and stops there), on the
    dark option, on the button, and on the link outside the popover. *)
Example popover_click_walk :
  let closed := (Sample.popover, Sample.page ["theme-auto"] (Some false)) in
  let opened := ThemeToggleModal.click 2 closed in
  let chosen := ThemeToggleModal.click 7 opened in
  let reopened := ThemeToggleModal.click 1 chosen in
  let left := ThemeToggleModal.click 11 reopened in
  DOM.path (snd closed) 2 = [2; 1; 0]
  /\ ThemeToggleModal.isOpen (fst opened) = true
  /\ DOM.activeElement (snd opened) = Some 6
  /\ ThemeToggleModal.isOpen (fst chosen) = false
  /\ ThemeToggleModal.currentTheme (fst chosen) = Some "theme-dark"
  /\ DOM.documentElement (snd chosen) = ["theme-dark"]
  /\ View.activeIcons chosen = [3]
  /\ View.activeOptions chosen = [7]
  /\ ThemeToggleModal.isOpen (fst reopened) = true
  /\ ThemeToggleModal.isOpen (fst left) = false.
Proof. repeat split. Qed.

(** ** The flag [isOpen] and the panel's active class *)

Lemma panelShown_closePanel st :
  View.panelShown (ThemeToggleModal.closePanel st) = false.
Proof.
  unfold View.panelShown, ThemeToggleModal.closePanel, DOM.hasClass, DOM.update.
  cbn [fst snd ThemeToggleModal.optionsPanel ThemeToggleModal.set_isOpen
         DOM.nodes DOM.set_nodes].
  rewrite list_lookup_alter_eq.
  destruct (DOM.nodes (snd st) !! ThemeToggleModal.optionsPanel (fst st)); [|reflexivity].
  apply contains_remove_same.
Qed.

Lemma consistent_closePanel st : View.consistent (ThemeToggleModal.closePanel st).
Proof. unfold View.consistent. rewrite panelShown_closePanel. reflexivity. Qed.

Lemma panelShown_openPanel st :
  View.panelBound st -> View.panelShown (ThemeToggleModal.openPanel st) = true.
Proof.
  unfold View.panelBound. intros Hbound.
  destruct (lookup_lt_is_Some_2 _ _ Hbound) as [e He].
  unfold View.panelShown, ThemeToggleModal.openPanel.
  destruct (DOM.querySelectorClass _ _ _);
    unfold DOM.hasClass, DOM.update;
    cbn [fst snd ThemeToggleModal.optionsPanel ThemeToggleModal.set_isOpen
           DOM.nodes DOM.set_nodes DOM.set_activeElement];
    rewrite list_lookup_alter_eq, He; apply contains_add_same.
Qed.

Lemma consistent_openPanel st :
  View.panelBound st -> View.consistent (ThemeToggleModal.openPanel st).
Proof.
  intros Hbound. unfold View.consistent.
  rewrite isOpen_openPanel, panelShown_openPanel by assumption. reflexivity.
Qed.

Lemma consistent_togglePanel st :
  View.panelBound st -> View.consistent (ThemeToggleModal.togglePanel st).
Proof.
  intros Hbound. unfold ThemeToggleModal.togglePanel.
  destruct (ThemeToggleModal.isOpen (fst st));
    [apply consistent_closePanel | apply consistent_openPanel, Hbound].
Qed.

(** A listener of the popover keeps or re-establishes the agreement. *)
Lemma consistent_step st e :
  View.panelBound st -> View.consistent st ->
  View.consistent (ThemeToggleModal.step st e).
Proof.
  intros Hbound Hcons. destruct e as [|option|target|key]; cbn [ThemeToggleModal.step].
  - apply consistent_togglePanel, Hbound.
  - unfold JS.exec.
    destruct (DOMTokenList.validate
                (JS.ToString (ThemeToggleModal.datasetTheme (snd st) option)))
      as [e|] eqn:Hv.
    + rewrite (onOptionClick_rejected option e st Hv). exact Hcons.
    + rewrite (onOptionClick_accepted option st Hv). apply consistent_closePanel.
  - unfold ThemeToggleModal.onDocumentClick.
    destruct (negb _); [apply consistent_closePanel | exact Hcons].
  - unfold ThemeToggleModal.onKeydown.
    destruct (_ && _); [apply consistent_closePanel | exact Hcons].
Qed.

Lemma sameShape_closePanel st : View.sameShape st (ThemeToggleModal.closePanel st).
Proof.
  split; [reflexivity|]. unfold ThemeToggleModal.closePanel, DOM.update.
  cbn [snd DOM.nodes DOM.set_nodes]. apply length_alter.
Qed.

Lemma sameShape_openPanel st : View.sameShape st (ThemeToggleModal.openPanel st).
Proof.
  unfold ThemeToggleModal.openPanel.
  destruct (DOM.querySelectorClass _ _ _); (split; [reflexivity|]);
    unfold DOM.update; cbn [snd DOM.nodes DOM.set_nodes DOM.set_activeElement];
    apply length_alter.
Qed.

Lemma sameShape_themeSet theme st : View.sameShape st (View.themeSet theme st).
Proof.
  unfold View.themeSet. rewrite updateUI_applyOps. split; [reflexivity|].
  cbn [snd DOM.nodes DOM.set_nodes DOM.set_localStorage DOM.set_documentElement].
  apply length_applyOps.
Qed.

Lemma sameShape_trans st1 st2 st3 :
  View.sameShape st1 st2 -> View.sameShape st2 st3 -> View.sameShape st1 st3.
Proof. intros [H1 H2] [H3 H4]. split; congruence. Qed.

Lemma sameShape_step st e : View.sameShape st (ThemeToggleModal.step st e).
Proof.
  destruct e as [|option|target|key]; cbn [ThemeToggleModal.step].
  - unfold ThemeToggleModal.onToggleClick, ThemeToggleModal.togglePanel.
    destruct (ThemeToggleModal.isOpen (fst st));
      [apply sameShape_closePanel | apply sameShape_openPanel].
  - unfold JS.exec.
    destruct (DOMTokenList.validate
                (JS.ToString (ThemeToggleModal.datasetTheme (snd st) option)))
      as [e|] eqn:Hv.
    + rewrite (onOptionClick_rejected option e st Hv). split; reflexivity.
    + rewrite (onOptionClick_accepted option st Hv).
      eapply sameShape_trans; [apply sameShape_themeSet | apply sameShape_closePanel].
  - unfold ThemeToggleModal.onDocumentClick.
    destruct (negb _); [apply sameShape_closePanel | split; reflexivity].
  - unfold ThemeToggleModal.onKeydown.
    destruct (_ && _); [apply sameShape_closePanel | split; reflexivity].
Qed.

Lemma panelBound_step st e :
  View.panelBound st -> View.panelBound (ThemeToggleModal.step st e).
Proof.
  unfold View.panelBound. intros H. destruct (sameShape_step st e) as [-> ->]. exact H.
Qed.

Lemma consistent_run es : forall st,
  View.panelBound st -> View.consistent st ->
  View.consistent (ThemeToggleModal.run es st).
Proof.
  induction es as [|e es IH]; intros st Hbound Hcons; [exact Hcons|].
  change (ThemeToggleModal.run (e :: es) st)
    with (ThemeToggleModal.run es (ThemeToggleModal.step st e)).
  apply IH; [apply panelBound_step, Hbound | apply consistent_step; assumption].
Qed.

(** A click of the user amounts to a sequence of listener calls. *)
Lemma run_app es1 es2 st :
  ThemeToggleModal.run (es1 ++ es2) st
  = ThemeToggleModal.run es2 (ThemeToggleModal.run es1 st).
Proof. unfold ThemeToggleModal.run. apply fold_left_app. Qed.

Lemma clickAt_run node st :
  exists es, fst (ThemeToggleModal.clickAt node st) = ThemeToggleModal.run es st.
Proof.
  unfold ThemeToggleModal.clickAt. cbn [fst].
  destruct (bool_decide (node = ThemeToggleModal.toggleBtn (fst st)));
    match goal with
    | |- context [bool_decide (node ∈ ?l)] => destruct (bool_decide (node ∈ l))
    end.
  - exists [ThemeToggleModal.ToggleClick; ThemeToggleModal.OptionClick node]. reflexivity.
  - exists [ThemeToggleModal.ToggleClick]. reflexivity.
  - exists [ThemeToggleModal.OptionClick node]. reflexivity.
  - exists []. reflexivity.
Qed.

Lemma bubble_run target path : forall st,
  exists es, ThemeToggleModal.bubble target path st = ThemeToggleModal.run es st.
Proof.
  induction path as [|node path IH]; intros st.
  - exists [ThemeToggleModal.DocumentClick target]. reflexivity.
  - cbn [ThemeToggleModal.bubble]. destruct (clickAt_run node st) as [es Hes].
    destruct (ThemeToggleModal.clickAt node st) as [st' stopped]. cbn [fst] in Hes.
    destruct stopped; [exists es; exact Hes|].
    destruct (IH st') as [es' Hes']. exists (es ++ es').
    rewrite run_app, <- Hes. exact Hes'.
Qed.

Lemma click_run target st :
  exists es, ThemeToggleModal.click target st = ThemeToggleModal.run es st.
Proof. apply bubble_run. Qed.

(** C9. On a popover whose panel is an element of the document, [isOpen]
    is true exactly when the options panel carries the active class: the
    agreement holds for the initial flag and a panel without the class, each
    of [openPanel], [closePanel], [togglePanel] and of the four listeners that
    call them keeps it, and so it holds after every sequence of their
    events and after every click, wherever in the document it lands. *)
Theorem isOpen_iff_panel_active (st : ThemeToggleModal.state) :
  View.panelBound st ->
  (ThemeToggleModal.isOpen (fst st) = false -> View.panelShown st = false ->
   View.consistent st)
  /\ (View.consistent st ->
      View.consistent (ThemeToggleModal.openPanel st)
      /\ View.consistent (ThemeToggleModal.closePanel st)
      /\ View.consistent (ThemeToggleModal.togglePanel st)
      /\ (forall e, View.consistent (ThemeToggleModal.step st e))
      /\ (forall es, View.consistent (ThemeToggleModal.run es st))
      /\ (forall target, View.consistent (ThemeToggleModal.click target st))).
Proof.
  intros Hbound. split.
  - intros Hflag Hclass. unfold View.consistent. congruence.
  - intros Hcons. split; [apply consistent_openPanel, Hbound|].
    split; [apply consistent_closePanel|].
    split; [apply consistent_togglePanel, Hbound|].
    split; [intros e; apply consistent_step; assumption|].
    split; [intros es; apply consistent_run; assumption|].
    intros target. destruct (click_run target st) as [es ->].
    apply consistent_run; assumption.
Qed.

(** On the sample page the panel is element 5 of 12 and starts without the
    class; after the toggle button was clicked the flag and the class are
    both set, and they agree after five more events. *)
Lemma isOpen_iff_panel_active_witness :
  let st := (Sample.popover, Sample.page ["theme-auto"] (Some false)) in
  let es := [ThemeToggleModal.ToggleClick; ThemeToggleModal.OptionClick 7;
             ThemeToggleModal.DocumentClick 7; ThemeToggleModal.ToggleClick;
             ThemeToggleModal.Keydown "Enter"; ThemeToggleModal.DocumentClick 6] in
  View.panelBound st
  /\ View.consistent st
  /\ ThemeToggleModal.isOpen (fst (ThemeToggleModal.run [ThemeToggleModal.ToggleClick] st))
     = true
  /\ View.panelShown (ThemeToggleModal.run [ThemeToggleModal.ToggleClick] st) = true
  /\ View.consistent (ThemeToggleModal.run es st).
Proof.
  intros st es.
  assert (Hbound : View.panelBound st) by (unfold View.panelBound; cbn; lia).
  destruct (isOpen_iff_panel_active st Hbound) as [Hinit Hkeep].
  assert (Hcons : View.consistent st) by (apply Hinit; reflexivity).
  split; [exact Hbound|]. split; [exact Hcons|].
  split; [reflexivity|]. split; [reflexivity|].
  exact (proj1 (proj2 (proj2 (proj2 (proj2 (Hkeep Hcons))))) es).
Defined.

(** ** [updateUI] is idempotent *)

Lemma runOps_tokens os : forall e,
  View.runOps os e = DOM.set_classList (View.tokensAfter os) e.
Proof.
  induction os as [|o os IH]; intros e.
  - destruct e; reflexivity.
  - change (View.runOps (o :: os) e) with (View.runOps os (View.applyOp o e)).
    rewrite IH. reflexivity.
Qed.

Lemma remove_opTokens o l :
  DOMTokenList.remove (View.opTokens o l) ["active"] = DOMTokenList.remove l ["active"].
Proof. destruct o; [apply remove_remove | apply remove_add]. Qed.

Lemma remove_tokensAfter os : forall l,
  DOMTokenList.remove (View.tokensAfter os l) ["active"]
  = DOMTokenList.remove l ["active"].
Proof.
  induction os as [|o os IH]; intros l; [reflexivity|].
  change (View.tokensAfter (o :: os) l) with (View.tokensAfter os (View.opTokens o l)).
  rewrite IH. apply remove_opTokens.
Qed.

Lemma tokensAfter_twice os l :
  View.startsWithRemove os ->
  View.tokensAfter os (View.tokensAfter os l) = View.tokensAfter os l.
Proof.
  destruct os as [|o os]; [reflexivity|]. cbn [View.startsWithRemove]. intros ->.
  change (View.tokensAfter (View.RemoveActive :: os) ?x)
    with (View.tokensAfter os (DOMTokenList.remove x ["active"])).
  rewrite remove_tokensAfter, ?remove_remove. reflexivity.
Qed.

Lemma applyOps_twice ops els :
  (forall k, View.startsWithRemove (View.opsAt k ops)) ->
  View.applyOps ops (View.applyOps ops els) = View.applyOps ops els.
Proof.
  intros Hfirst. apply list_eq. intros k. rewrite !lookup_applyOps.
  destruct (els !! k) as [e|]; [|reflexivity]. cbn. f_equal.
  rewrite !runOps_tokens. unfold DOM.set_classList. cbn.
  rewrite (tokensAfter_twice _ _ (Hfirst k)). reflexivity.
Qed.

Lemma startsWithRemove_app os1 os2 :
  View.startsWithRemove os1 -> View.startsWithRemove os2 ->
  View.startsWithRemove (os1 ++ os2).
Proof. destruct os1; [intros _ H; exact H | intros H _; exact H]. Qed.

Lemma opsAt_optionOps k this p option :
  View.opsAt k (View.optionOps this p option)
  = if decide (option = k) then map snd (View.optionOps this p option) else [].
Proof.
  unfold View.opsAt, View.optionOps.
  destruct (decide (ThemeToggleModal.datasetTheme p option
                    = ThemeToggleModal.currentTheme this));
    cbn [List.filter fst snd]; destruct (decide (option = k)) as [->|Hne];
    rewrite ?bool_decide_eq_true_2 by reflexivity;
    rewrite ?bool_decide_eq_false_2 by assumption; reflexivity.
Qed.

Lemma startsWithRemove_options k this p options :
  View.startsWithRemove (View.opsAt k (flat_map (View.optionOps this p) options)).
Proof.
  induction options as [|option options IH]; [exact I|].
  cbn [flat_map]. rewrite opsAt_app. apply startsWithRemove_app; [|exact IH].
  rewrite opsAt_optionOps. destruct (decide (option = k)); [reflexivity | exact I].
Qed.

Lemma activeIcon_cases st :
  ThemeToggleModal.activeIcon st = None
  \/ ThemeToggleModal.activeIcon st = Some (ThemeToggleModal.sunIcon (fst st))
  \/ ThemeToggleModal.activeIcon st = Some (ThemeToggleModal.moonIcon (fst st)).
Proof.
  unfold ThemeToggleModal.activeIcon.
  repeat (case_decide; [auto|]); [destruct (ThemeToggleModal.prefersDark _)|]; auto.
Qed.

Lemma startsWithRemove_icons k st :
  View.startsWithRemove (View.opsAt k (View.iconOps st)).
Proof.
  unfold View.iconOps. rewrite opsAt_app. unfold View.opsAt at 1.
  cbn [List.filter fst snd].
  destruct (decide (ThemeToggleModal.sunIcon (fst st) = k)) as [Hs|Hs];
    [rewrite (bool_decide_eq_true_2 _ Hs); reflexivity
    |rewrite (bool_decide_eq_false_2 _ Hs)].
  destruct (decide (ThemeToggleModal.moonIcon (fst st) = k)) as [Hm|Hm];
    [rewrite (bool_decide_eq_true_2 _ Hm); reflexivity
    |rewrite (bool_decide_eq_false_2 _ Hm)].
  destruct (decide (ThemeToggleModal.autoIcon (fst st) = k)) as [Ha|Ha];
    [rewrite (bool_decide_eq_true_2 _ Ha); reflexivity
    |rewrite (bool_decide_eq_false_2 _ Ha)].
  cbn [map app]. unfold View.opsAt.
  destruct (activeIcon_cases st) as [-> | [-> | ->]]; cbn [List.filter fst snd].
  - exact I.
  - rewrite (bool_decide_eq_false_2 _ Hs). exact I.
  - rewrite (bool_decide_eq_false_2 _ Hm). exact I.
Qed.

Lemma startsWithRemove_updateUI k st :
  View.startsWithRemove (View.opsAt k (View.updateUI_ops st)).
Proof.
  unfold View.updateUI_ops. rewrite opsAt_app.
  apply startsWithRemove_app;
    [apply startsWithRemove_icons | apply startsWithRemove_options].
Qed.

Lemma updateUI_ops_updateUI st :
  View.updateUI_ops (ThemeToggleModal.updateUI st) = View.updateUI_ops st.
Proof.
  rewrite updateUI_applyOps. unfold View.updateUI_ops. cbn [fst snd]. f_equal.
  apply flat_map_ext. intros option. unfold View.optionOps.
  rewrite datasetTheme_applyOps. reflexivity.
Qed.

Lemma set_nodes_twice f p :
  (forall els, f (f els) = f els) ->
  DOM.set_nodes f (DOM.set_nodes f p) = DOM.set_nodes f p.
Proof.
  intros Hf. destruct p. unfold DOM.set_nodes.
  cbn [DOM.title DOM.documentElement DOM.matchMedia DOM.localStorage DOM.nodes
         DOM.activeElement DOM.observers DOM.nextObserver].
  rewrite Hf. reflexivity.
Qed.

Lemma updateUI_twice st :
  ThemeToggleModal.updateUI (ThemeToggleModal.updateUI st) = ThemeToggleModal.updateUI st.
Proof.
  rewrite (updateUI_applyOps (ThemeToggleModal.updateUI st)), updateUI_ops_updateUI.
  rewrite updateUI_applyOps. cbn [fst snd]. f_equal.
  apply set_nodes_twice. intros els.
  apply applyOps_twice. intros k. apply startsWithRemove_updateUI.
Qed.

(** *** The icon that ends up active *)

Lemma opsAt_options_apart k this p options :
  k ∉ options -> View.opsAt k (flat_map (View.optionOps this p) options) = [].
Proof.
  induction options as [|option options IH]; intros Hk; [reflexivity|].
  cbn [flat_map]. rewrite opsAt_app, opsAt_optionOps.
  apply not_elem_of_cons in Hk as [Hne Hk].
  destruct (decide (option = k)); [congruence|]. apply IH, Hk.
Qed.

Lemma icons_distinct st :
  View.iconsApart st ->
  ThemeToggleModal.sunIcon (fst st) <> ThemeToggleModal.moonIcon (fst st)
  /\ ThemeToggleModal.sunIcon (fst st) <> ThemeToggleModal.autoIcon (fst st)
  /\ ThemeToggleModal.moonIcon (fst st) <> ThemeToggleModal.autoIcon (fst st).
Proof.
  intros [Hnodup _]. apply NoDup_cons in Hnodup as [Hs Hnodup].
  apply NoDup_cons in Hnodup as [Hm _].
  rewrite !not_elem_of_cons in Hs. rewrite !not_elem_of_cons in Hm. tauto.
Qed.

Lemma opsAt_iconOps st icon :
  View.iconsApart st ->
  icon ∈ [ThemeToggleModal.sunIcon (fst st); ThemeToggleModal.moonIcon (fst st);
          ThemeToggleModal.autoIcon (fst st)] ->
  View.opsAt icon (View.iconOps st)
  = View.RemoveActive
    :: (if decide (ThemeToggleModal.activeIcon st = Some icon)
        then [View.AddActive] else []).
Proof.
  intros Hapart Hicon. destruct (icons_distinct st Hapart) as (Hsm & Hsa & Hma).
  rewrite !elem_of_cons, elem_of_nil in Hicon.
  unfold View.opsAt, View.iconOps.
  destruct (activeIcon_cases st) as [-> | [-> | ->]];
    cbn [List.filter app fst snd];
    repeat case_bool_decide; repeat case_decide; cbn [map snd];
    try reflexivity; exfalso; simplify_eq; intuition congruence.
Qed.

Lemma hasClass_updateUI_icon st icon :
  View.iconsApart st ->
  icon ∈ [ThemeToggleModal.sunIcon (fst st); ThemeToggleModal.moonIcon (fst st);
          ThemeToggleModal.autoIcon (fst st)] ->
  DOM.hasClass (snd (ThemeToggleModal.updateUI st)) icon "active"
  = bool_decide (ThemeToggleModal.activeIcon st = Some icon).
Proof.
  intros Hapart Hicon. destruct (proj2 Hapart icon Hicon) as [Hbound Hoption].
  destruct (lookup_lt_is_Some_2 _ _ Hbound) as [e He].
  rewrite updateUI_applyOps. unfold DOM.hasClass. cbn [snd DOM.nodes DOM.set_nodes].
  rewrite lookup_applyOps, He. cbn [fmap option_fmap option_map].
  rewrite runOps_tokens. cbn [DOM.classList DOM.set_classList].
  unfold View.updateUI_ops.
  rewrite opsAt_app, (opsAt_options_apart _ _ _ _ Hoption), app_nil_r.
  rewrite (opsAt_iconOps st icon Hapart Hicon).
  destruct (decide (ThemeToggleModal.activeIcon st = Some icon)) as [Ha|Ha].
  - rewrite (bool_decide_eq_true_2 _ Ha). apply contains_add_same.
  - rewrite (bool_decide_eq_false_2 _ Ha). apply contains_remove_same.
Qed.

Lemma activeIcons_updateUI st :
  View.iconsApart st ->
  View.activeIcons (ThemeToggleModal.updateUI st)
  = match ThemeToggleModal.activeIcon st with
    | Some icon => [icon]
    | None => []
    end.
Proof.
  intros Hapart. destruct (icons_distinct st Hapart) as (Hsm & Hsa & Hma).
  unfold View.activeIcons.
  replace (fst (ThemeToggleModal.updateUI st)) with (fst st)
    by (rewrite updateUI_applyOps; reflexivity).
  cbn [List.filter].
  rewrite !(hasClass_updateUI_icon st _ Hapart)
    by (rewrite !elem_of_cons; tauto).
  destruct (activeIcon_cases st) as [-> | [-> | ->]];
    repeat case_bool_decide; try reflexivity; exfalso; simplify_eq; intuition congruence.
Qed.

(** C7. Calling [updateUI] a second time changes nothing, whatever the
    current theme, the system signal and the document: the state after two
    calls is the state after one, and so are the set of active icons and the
    set of active options.  Where the three icons are three elements of
    their own, the active icons after a call are exactly the icon chosen from
    the current theme ([activeIcon]: the sun for theme-light, the moon for
    theme-dark, for theme-auto the moon or the sun as the system signal says,
    none for another value). *)
Theorem updateUI_idempotent (st : ThemeToggleModal.state) :
  ThemeToggleModal.updateUI (ThemeToggleModal.updateUI st)
  = ThemeToggleModal.updateUI st
  /\ View.activeIcons (ThemeToggleModal.updateUI (ThemeToggleModal.updateUI st))
     = View.activeIcons (ThemeToggleModal.updateUI st)
  /\ View.activeOptions (ThemeToggleModal.updateUI (ThemeToggleModal.updateUI st))
     = View.activeOptions (ThemeToggleModal.updateUI st)
  /\ (View.iconsApart st ->
      View.activeIcons (ThemeToggleModal.updateUI st)
      = match ThemeToggleModal.activeIcon st with
        | Some icon => [icon]
        | None => []
        end).
Proof.
  rewrite updateUI_twice. repeat split. apply activeIcons_updateUI.
Qed.

(** The sample popover has its three icons apart; with theme-auto and a dark
    system the moon, element 3, is the one active icon after [updateUI]. *)
Lemma sample_iconsApart rootClasses matches :
  View.iconsApart (Sample.popover, Sample.page rootClasses matches).
Proof.
  split; [apply (bool_decide_unpack _); reflexivity|].
  intros icon Hicon. cbn in Hicon. rewrite !elem_of_cons, elem_of_nil in Hicon.
  cbn. rewrite !not_elem_of_cons. destruct Hicon as [-> | [-> | [-> | []]]];
    (split; [lia|]); repeat split; (discriminate || apply not_elem_of_nil).
Qed.

Lemma updateUI_idempotent_witness :
  let st := (Sample.popover, Sample.page ["theme-auto"] (Some true)) in
  View.iconsApart st
  /\ View.activeIcons (ThemeToggleModal.updateUI st) = [3]
  /\ View.activeIcons (ThemeToggleModal.updateUI (ThemeToggleModal.updateUI st)) = [3].
Proof.
  intros st.
  destruct (updateUI_idempotent st) as (_ & Hicons & _ & Hchosen).
  pose proof (Hchosen (sample_iconsApart _ _)) as Hmoon.
  split; [apply sample_iconsApart|]. split; [exact Hmoon|].
  rewrite Hicons. exact Hmoon.
Defined.

(** ** The image synchronizer *)

Lemma isDarkMode_darkMode p : Utils.isDarkMode p = (View.darkMode p, p).
Proof.
  unfold Utils.isDarkMode, View.darkMode, JS.bind, JS.gets, Utils.prefersDarkMatches.
  destruct (JS.includes (DOM.className p) CONFIG.THEMES_DARK); [reflexivity|].
  destruct (JS.includes (DOM.className p) CONFIG.THEMES_AUTO); [|reflexivity].
  destruct (DOM.matchMedia p); reflexivity.
Qed.

Lemma darkMode_sameButNodes p p' :
  View.sameButNodes p p' -> View.darkMode p' = View.darkMode p.
Proof.
  intros (_ & Hroot & Hmedia & _). unfold View.darkMode, DOM.className.
  rewrite Hroot, Hmedia. reflexivity.
Qed.

Lemma sameButNodes_refl p : View.sameButNodes p p.
Proof. repeat split. Qed.

Lemma sameButNodes_update f n p : View.sameButNodes p (DOM.update f n p).
Proof. repeat split. Qed.

Lemma sameButNodes_trans p1 p2 p3 :
  View.sameButNodes p1 p2 -> View.sameButNodes p2 p3 -> View.sameButNodes p1 p3.
Proof.
  unfold View.sameButNodes. intros H1 H2.
  destruct H1 as (? & ? & ? & ? & ? & ? & ?). destruct H2 as (? & ? & ? & ? & ? & ? & ?).
  repeat split; congruence.
Qed.

Lemma updateImageSrc_dark el paths p isDark :
  View.darkMode p = JS.Normal isDark ->
  Utils.updateImageSrc (Some el) paths p
  = (JS.Normal tt,
     DOM.update
       (DOM.set_src (if isDark then CONFIG.dark paths else CONFIG.light paths)) el p).
Proof.
  intros Hd. unfold Utils.updateImageSrc, JS.bind.
  rewrite isDarkMode_darkMode, Hd. reflexivity.
Qed.

Lemma updateImageSrc_throw el paths p e :
  View.darkMode p = JS.Throw e ->
  Utils.updateImageSrc (Some el) paths p = (JS.Throw e, p).
Proof.
  intros Hd. unfold Utils.updateImageSrc, JS.bind.
  rewrite isDarkMode_darkMode, Hd. reflexivity.
Qed.

Lemma updateImageSrc_sameButNodes element paths p :
  View.sameButNodes p (snd (Utils.updateImageSrc element paths p)).
Proof.
  destruct element as [el|]; [|apply sameButNodes_refl].
  destruct (View.darkMode p) as [isDark|e] eqn:Hd.
  - rewrite (updateImageSrc_dark el paths p isDark Hd). apply sameButNodes_update.
  - rewrite (updateImageSrc_throw el paths p e Hd). apply sameButNodes_refl.
Qed.

Lemma updateImagesForTheme_sameButNodes p :
  View.sameButNodes p (snd (ThemeManager.updateImagesForTheme p)).
Proof.
  unfold ThemeManager.updateImagesForTheme, JS.bind, JS.gets.
  pose proof (updateImageSrc_sameButNodes
                (DOM.getElementById p CONFIG.SELECTORS_SIGNATURE)
                CONFIG.IMAGES_signature p) as H1.
  destruct (Utils.updateImageSrc (DOM.getElementById p CONFIG.SELECTORS_SIGNATURE)
              CONFIG.IMAGES_signature p) as [[[]|e] p1]; cbn [snd] in *; [|exact H1].
  eapply sameButNodes_trans; [exact H1 | apply updateImageSrc_sameButNodes].
Qed.

Lemma getElementById_Some p i el :
  DOM.getElementById p i = Some el ->
  exists e, DOM.nodes p !! el = Some e /\ DOM.id e = i.
Proof.
  unfold DOM.getElementById. intros H. apply fmap_Some in H as [[n e] [Hfind ->]].
  apply list_find_Some in Hfind as (Hlookup & Hid & _). exists e. split; assumption.
Qed.

Lemma getElementById_apart p i j el el' :
  i <> j -> DOM.getElementById p i = Some el -> DOM.getElementById p j = Some el' ->
  el <> el'.
Proof.
  intros Hij Hi Hj ->.
  apply getElementById_Some in Hi as (e & He & <-).
  apply getElementById_Some in Hj as (e' & He' & <-).
  congruence.
Qed.

Lemma updateImageSrc_sourceSet element paths p isDark :
  View.darkMode p = JS.Normal isDark ->
  Utils.updateImageSrc element paths p
  = (JS.Normal tt, View.sourceSet element paths isDark p).
Proof.
  intros Hd. destruct element as [el|]; [|reflexivity].
  apply updateImageSrc_dark, Hd.
Qed.

Lemma sameButNodes_sourceSet element paths isDark p :
  View.sameButNodes p (View.sourceSet element paths isDark p).
Proof. destruct element; [apply sameButNodes_update | apply sameButNodes_refl]. Qed.

Lemma updateImagesForTheme_dark p isDark :
  View.darkMode p = JS.Normal isDark ->
  ThemeManager.updateImagesForTheme p
  = (JS.Normal tt,
     View.sourceSet (DOM.getElementById p CONFIG.SELECTORS_RATE_ICON)
       CONFIG.IMAGES_rateIcon isDark
       (View.sourceSet (DOM.getElementById p CONFIG.SELECTORS_SIGNATURE)
          CONFIG.IMAGES_signature isDark p)).
Proof.
  intros Hd. unfold ThemeManager.updateImagesForTheme, JS.bind, JS.gets.
  rewrite (updateImageSrc_sourceSet _ _ p isDark Hd).
  rewrite (updateImageSrc_sourceSet _ _ _ isDark); [reflexivity|].
  rewrite (darkMode_sameButNodes p); [exact Hd | apply sameButNodes_sourceSet].
Qed.

Lemma lookup_sourceSet_same el paths isDark p e :
  DOM.nodes p !! el = Some e ->
  DOM.src <$> DOM.nodes (View.sourceSet (Some el) paths isDark p) !! el
  = Some (if isDark then CONFIG.dark paths else CONFIG.light paths).
Proof.
  intros He. unfold View.sourceSet, DOM.update. cbn [DOM.nodes DOM.set_nodes].
  rewrite list_lookup_alter_eq, He. reflexivity.
Qed.

Lemma lookup_sourceSet_other element paths isDark p n :
  element <> Some n ->
  DOM.nodes (View.sourceSet element paths isDark p) !! n = DOM.nodes p !! n.
Proof.
  intros Hn. destruct element as [el|]; [|reflexivity].
  unfold View.sourceSet, DOM.update. cbn [DOM.nodes DOM.set_nodes].
  apply list_lookup_alter_ne. congruence.
Qed.

(** C5. [updateImageSrc] on an absent element returns at once, without an
    error and without a change, so [updateImagesForTheme] on a page with
    neither image changes nothing.  Where [isDarkMode] returns [isDark],
    [updateImagesForTheme] returns normally and every bound element that the
    page has (signature, rate-icon) ends with the dark path of its pair as
    source when [isDark] is true and with the light path otherwise; no other
    element and nothing else of the page changes. *)
Theorem updateImagesForTheme_sets_sources (p : DOM.Page) :
  (forall paths, Utils.updateImageSrc None paths p = (JS.Normal tt, p))
  /\ (DOM.getElementById p CONFIG.SELECTORS_SIGNATURE = None ->
      DOM.getElementById p CONFIG.SELECTORS_RATE_ICON = None ->
      ThemeManager.updateImagesForTheme p = (JS.Normal tt, p))
  /\ (forall isDark : bool,
        fst (Utils.isDarkMode p) = JS.Normal isDark ->
        let result := ThemeManager.updateImagesForTheme p in
        fst result = JS.Normal tt
        /\ (forall i paths el,
              (i, paths) ∈ ThemeManager.bindings ->
              DOM.getElementById p i = Some el ->
              DOM.src <$> DOM.nodes (snd result) !! el
              = Some (if isDark then CONFIG.dark paths else CONFIG.light paths))
        /\ (forall n,
              DOM.getElementById p CONFIG.SELECTORS_SIGNATURE <> Some n ->
              DOM.getElementById p CONFIG.SELECTORS_RATE_ICON <> Some n ->
              DOM.nodes (snd result) !! n = DOM.nodes p !! n)
        /\ View.sameButNodes p (snd result)).
Proof.
  split; [reflexivity|]. split.
  - intros Hs Hr. unfold ThemeManager.updateImagesForTheme, JS.bind, JS.gets.
    rewrite Hs, Hr. reflexivity.
  - intros isDark Hdark result. subst result.
    rewrite isDarkMode_darkMode in Hdark. cbn [fst] in Hdark.
    rewrite (updateImagesForTheme_dark p isDark Hdark). cbn [fst snd].
    split; [reflexivity|]. split; [|split].
    + intros i paths el Hin Hel.
      unfold ThemeManager.bindings in Hin.
      rewrite !elem_of_cons, elem_of_nil in Hin.
      destruct (getElementById_Some p i el Hel) as (e & He & _).
      destruct Hin as [Hin | [Hin | []]]; injection Hin as -> ->.
      * rewrite lookup_sourceSet_other.
        -- rewrite Hel. apply (lookup_sourceSet_same el _ isDark p e He).
        -- intros Hr.
           apply (getElementById_apart p CONFIG.SELECTORS_SIGNATURE
                    CONFIG.SELECTORS_RATE_ICON el el ltac:(discriminate) Hel Hr eq_refl).
      * rewrite Hel.
        destruct (DOM.nodes
                    (View.sourceSet (DOM.getElementById p CONFIG.SELECTORS_SIGNATURE)
                       CONFIG.IMAGES_signature isDark p) !! el) as [e'|] eqn:He'.
        -- apply (lookup_sourceSet_same el _ isDark _ e' He').
        -- exfalso. rewrite lookup_sourceSet_other in He'; [congruence|].
           intros Hs.
           apply (getElementById_apart p CONFIG.SELECTORS_SIGNATURE
                    CONFIG.SELECTORS_RATE_ICON el el ltac:(discriminate) Hs Hel eq_refl).
    + intros n Hs Hr. rewrite !lookup_sourceSet_other by assumption. reflexivity.
    + eapply sameButNodes_trans; apply sameButNodes_sourceSet.
Qed.

(** On the sample page with a dark root both images get their dark path; on
    a page with neither image nothing happens. *)
Lemma updateImagesForTheme_sets_sources_witness :
  let p := Sample.page ["theme-dark"] (Some false) in
  let result := ThemeManager.updateImagesForTheme p in
  fst (Utils.isDarkMode p) = JS.Normal true
  /\ DOM.getElementById p "signature" = Some 9
  /\ DOM.getElementById p "rate-icon" = Some 10
  /\ DOM.src <$> DOM.nodes (snd result) !! 9 = Some "./images/signature.gif"
  /\ DOM.src <$> DOM.nodes (snd result) !! 10 = Some "./images/rate1_w.png".
Proof.
  intros p result.
  destruct (updateImagesForTheme_sets_sources p) as (_ & _ & H).
  destruct (H true eq_refl) as (_ & Hsrc & _).
  split; [reflexivity|]. split; [reflexivity|]. split; [reflexivity|].
  split.
  - apply (Hsrc "signature" CONFIG.IMAGES_signature 9); [|reflexivity].
    unfold ThemeManager.bindings. rewrite elem_of_cons. left. reflexivity.
  - apply (Hsrc "rate-icon" CONFIG.IMAGES_rateIcon 10); [|reflexivity].
    unfold ThemeManager.bindings. rewrite !elem_of_cons. right. left. reflexivity.
Defined.

(** ** Stopping the class observer *)

Lemma destroy_stopped st :
  ThemeManager.observer (fst st) = None -> ThemeManager.destroy st = st.
Proof. intros H. unfold ThemeManager.destroy. rewrite H. reflexivity. Qed.

Lemma observer_destroy st :
  ThemeManager.observer (fst (ThemeManager.destroy st)) = None.
Proof.
  unfold ThemeManager.destroy.
  destruct (ThemeManager.observer (fst st)) eqn:E; [reflexivity | exact E].
Qed.

Lemma destroy_disconnects st o :
  ThemeManager.observer (fst st) = Some o ->
  o ∉ DOM.observers (snd (ThemeManager.destroy st)).
Proof.
  intros H. unfold ThemeManager.destroy. rewrite H.
  cbn [snd DOM.observers DOM.set_observers].
  rewrite list_elem_of_filter. intros [Hne _]. apply Hne. reflexivity.
Qed.

Lemma classMutated_unobserved mutations p :
  DOM.observers p = [] -> ThemeManager.classMutated mutations p = p.
Proof. intros H. unfold ThemeManager.classMutated. rewrite H. reflexivity. Qed.

Lemma observers_init_destroy p :
  DOM.observers p = [] ->
  DOM.observers
    (snd (ThemeManager.destroy (JS.exec ThemeManager.init (ThemeManager.create, p))))
  = [].
Proof.
  intros Hnone. unfold JS.exec, ThemeManager.init, JS.bind, JS.onSnd.
  cbn [fst snd].
  pose proof (updateImagesForTheme_sameButNodes p) as Hframe.
  destruct (ThemeManager.updateImagesForTheme p) as [[[]|e] p'];
    cbn [snd] in Hframe; destruct Hframe as (_ & _ & _ & _ & _ & Hobs & _).
  - unfold ThemeManager.bindEvents, JS.ret, ThemeManager.setupThemeObserver, JS.modify.
    cbn [fst snd]. unfold ThemeManager.destroy.
    cbn [fst snd ThemeManager.observer DOM.observers DOM.set_observers].
    rewrite Hobs, Hnone. rewrite filter_cons.
    destruct (decide (DOM.nextObserver p' <> DOM.nextObserver p')); [congruence|].
    reflexivity.
  - cbn [snd]. rewrite destroy_stopped by reflexivity. cbn [snd]. congruence.
Qed.

(** C8. [destroy] stops the observer held in [this.observer]: the field is
    null afterwards and that observer no longer observes the root.  On a
    stopped synchronizer [destroy] does nothing, so two calls leave the state
    of one.  After [init] on a page that no observer watched yet, followed by
    [destroy], no observer is left: mutations of the root's class attribute
    call no callback and leave the page, its image sources included, as it
    is, whatever the change of the classes was. *)
Theorem destroy_idempotent (st : ThemeManager.state) :
  ThemeManager.destroy (ThemeManager.destroy st) = ThemeManager.destroy st
  /\ ThemeManager.observer (fst (ThemeManager.destroy st)) = None
  /\ (ThemeManager.observer (fst st) = None -> ThemeManager.destroy st = st)
  /\ (forall o, ThemeManager.observer (fst st) = Some o ->
                o ∉ DOM.observers (snd (ThemeManager.destroy st)))
  /\ (forall p, DOM.observers p = [] ->
        let stopped :=
          ThemeManager.destroy (JS.exec ThemeManager.init (ThemeManager.create, p)) in
        DOM.observers (snd stopped) = []
        /\ forall (change : list string -> list string) mutations,
             ThemeManager.classMutated mutations
               (DOM.set_documentElement change (snd stopped))
             = DOM.set_documentElement change (snd stopped)).
Proof.
  split; [apply destroy_stopped, observer_destroy|].
  split; [apply observer_destroy|].
  split; [apply destroy_stopped|].
  split; [intros o; apply destroy_disconnects|].
  intros p Hnone stopped. subst stopped.
  pose proof (observers_init_destroy p Hnone) as Hobs.
  split; [exact Hobs|]. intros change mutations.
  apply classMutated_unobserved, Hobs.
Qed.

(** On the sample page: after [init] a change of the root class to
    theme-light makes the observer switch the signature to its light path;
    after [destroy] the same change leaves the sources alone, and a second
    [destroy] changes nothing. *)
Lemma destroy_idempotent_witness :
  let p := Sample.page ["theme-dark"] (Some false) in
  let started := JS.exec ThemeManager.init (ThemeManager.create, p) in
  let stopped := ThemeManager.destroy started in
  let toLight := DOM.set_documentElement (fun _ => ["theme-light"]) in
  let records := [{| ThemeManager.type := "attributes";
                     ThemeManager.attributeName := Some "class" |}] in
  DOM.observers p = []
  /\ ThemeManager.observer (fst started) = Some 0
  /\ DOM.src <$> DOM.nodes (snd started) !! 9 = Some "./images/signature.gif"
  /\ DOM.src <$> DOM.nodes
                   (ThemeManager.classMutated records (toLight (snd started))) !! 9
     = Some "./images/signature_alt.gif"
  /\ ThemeManager.observer (fst stopped) = None
  /\ DOM.observers (snd stopped) = []
  /\ ThemeManager.classMutated records (toLight (snd stopped))
     = toLight (snd stopped)
  /\ ThemeManager.destroy stopped = stopped.
Proof.
  intros p started stopped toLight records.
  destruct (destroy_idempotent started) as (Htwice & Hnull & _ & _ & Hinit).
  destruct (Hinit p eq_refl) as [Hobs Hquiet].
  split; [reflexivity|]. split; [reflexivity|]. split; [reflexivity|].
  split; [reflexivity|]. split; [exact Hnull|]. split; [exact Hobs|].
  split; [exact (Hquiet (fun _ => ["theme-light"]) records) | exact Htwice].
Defined.

(** ** The effective theme *)

(** *** Substrings of a serialized token set *)

Lemma prefix_empty (s : string) : String.prefix "" s = true.
Proof. destruct s; reflexivity. Qed.

Lemma prefix_refl (s : string) : String.prefix s s = true.
Proof.
  induction s as [|c s IH]; [reflexivity|]. cbn.
  destruct (ascii_dec c c); [exact IH | congruence].
Qed.

Lemma includes_unfold (s search : string) :
  JS.includes s search
  = String.prefix search s
    || match s with
       | EmptyString => false
       | String _ s' => JS.includes s' search
       end.
Proof. destruct s; reflexivity. Qed.

Lemma includes_refl (s : string) : JS.includes s s = true.
Proof. rewrite includes_unfold, prefix_refl. reflexivity. Qed.

Lemma includes_nonempty (search : string) :
  search <> "" -> JS.includes "" search = false.
Proof. destruct search; [congruence | reflexivity]. Qed.

Lemma append_cons c (a b : string) : String c a +:+ b = String c (a +:+ b).
Proof. reflexivity. Qed.

(** A search without whitespace cannot reach over a separating space. *)
Lemma prefix_separator (a : string) : forall search b : string,
  search <> "" -> DOMTokenList.has_whitespace search = false ->
  String.prefix search (a +:+ String " " b) = String.prefix search a.
Proof.
  induction a as [|d a IH]; intros [|c search] b Hne Hws; try congruence.
  - change ("" +:+ String " " b) with (String " " b). cbn.
    destruct (ascii_dec c " ") as [->|_]; [discriminate Hws | reflexivity].
  - rewrite append_cons. cbn. destruct (ascii_dec c d); [|reflexivity].
    destruct search as [|c' search'].
    + rewrite !prefix_empty. reflexivity.
    + apply IH; [discriminate|]. cbn in Hws. apply orb_false_iff in Hws. apply Hws.
Qed.

Lemma includes_separator (a : string) : forall search b : string,
  search <> "" -> DOMTokenList.has_whitespace search = false ->
  JS.includes (a +:+ String " " b) search = JS.includes a search || JS.includes b search.
Proof.
  induction a as [|d a IH]; intros search b Hne Hws.
  - rewrite (includes_nonempty search Hne). cbn [orb].
    change ("" +:+ String " " b) with (String " " b).
    rewrite (includes_unfold (String " " b)).
    change (String " " b) with ("" +:+ String " " b) at 1.
    rewrite (prefix_separator "" search b Hne Hws).
    destruct search; [congruence | reflexivity].
  - rewrite (includes_unfold (String d a +:+ String " " b)).
    rewrite (prefix_separator (String d a) search b Hne Hws).
    rewrite append_cons, IH by assumption.
    rewrite (includes_unfold (String d a)). rewrite orb_assoc. reflexivity.
Qed.

Lemma includes_value (tokens : list string) (search : string) :
  search <> "" -> DOMTokenList.has_whitespace search = false ->
  JS.includes (DOMTokenList.value tokens) search
  = existsb (fun t => JS.includes t search) tokens.
Proof.
  intros Hne Hws. unfold DOMTokenList.value.
  induction tokens as [|t [|t' tokens] IH].
  - apply includes_nonempty, Hne.
  - cbn. rewrite orb_false_r. reflexivity.
  - change (String.concat " " (t :: t' :: tokens))
      with (t +:+ String " " (String.concat " " (t' :: tokens))).
    rewrite includes_separator by assumption. rewrite IH. reflexivity.
Qed.

(** Where no class of the set has [marker] as a proper part, the substring
    test on the serialization is the membership test on the set. *)
Lemma includes_value_contains (tokens : list string) (marker : string) :
  marker <> "" -> DOMTokenList.has_whitespace marker = false ->
  (forall t, t ∈ tokens -> JS.includes t marker = true -> t = marker) ->
  JS.includes (DOMTokenList.value tokens) marker = DOMTokenList.contains tokens marker.
Proof.
  intros Hne Hws Hplain. rewrite includes_value by assumption.
  destruct (DOMTokenList.contains tokens marker) eqn:Hc.
  - apply contains_true in Hc. apply existsb_exists. exists marker.
    split; [apply list_elem_of_In, Hc | apply includes_refl].
  - apply contains_false in Hc. apply not_true_is_false. intros Hex.
    apply existsb_exists in Hex as (t & Hin & Hinc). apply list_elem_of_In in Hin.
    apply Hc. rewrite <- (Hplain t Hin Hinc). exact Hin.
Qed.

(** *** [isDarkMode] and [getEffectiveTheme] *)

(** The outcome of [isDarkMode] is decided by the root's classes and the
    system signal alone. *)
Lemma darkMode_determined p q :
  DOM.documentElement p = DOM.documentElement q ->
  DOM.matchMedia p = DOM.matchMedia q ->
  View.darkMode p = View.darkMode q.
Proof.
  intros Hroot Hmedia. unfold View.darkMode, DOM.className.
  rewrite Hroot, Hmedia. reflexivity.
Qed.

(** On a root with plain markers, with the system query available, [isDarkMode] returns
    true exactly when the root carries theme-dark, or carries theme-auto
    while the query matches. *)
Lemma isDarkMode_plain_markers p matches :
  View.plainMarkers p ->
  DOM.matchMedia p = Some matches ->
  fst (Utils.isDarkMode p)
  = JS.Normal
      (DOMTokenList.contains (DOM.documentElement p) "theme-dark"
       || DOMTokenList.contains (DOM.documentElement p) "theme-auto" && matches).
Proof.
  intros Hplain Hmedia. rewrite isDarkMode_darkMode. cbn [fst].
  unfold View.darkMode, DOM.className.
  rewrite !includes_value_contains; try discriminate; try reflexivity.
  - rewrite Hmedia. unfold CONFIG.THEMES_DARK, CONFIG.THEMES_AUTO.
    destruct (DOMTokenList.contains (DOM.documentElement p) "theme-dark");
      [reflexivity|].
    destruct (DOMTokenList.contains (DOM.documentElement p) "theme-auto");
      reflexivity.
  - intros t Ht. apply Hplain; [exact Ht|]. rewrite !elem_of_cons. auto.
  - intros t Ht. apply Hplain; [exact Ht|]. rewrite !elem_of_cons. auto.
Qed.

(** Whatever else the root carries and whatever the system signal, one
    class that contains the name of the dark marker makes [isDarkMode] return
    true. *)
Lemma isDarkMode_class_containing_dark p (t : string) :
  t ∈ DOM.documentElement p ->
  JS.includes t "theme-dark" = true ->
  fst (Utils.isDarkMode p) = JS.Normal true.
Proof.
  intros Ht Hinc. rewrite isDarkMode_darkMode. cbn [fst].
  unfold View.darkMode, DOM.className.
  rewrite includes_value by (discriminate || reflexivity).
  replace (existsb (fun t' => JS.includes t' CONFIG.THEMES_DARK) (DOM.documentElement p))
    with true; [reflexivity|].
  symmetry. apply existsb_exists. exists t. split; [apply list_elem_of_In, Ht | exact Hinc].
Qed.

(** With the preference theme-auto the popover resolves the effective theme
    by the system signal alone. *)
Lemma getEffectiveTheme_auto st :
  ThemeToggleModal.currentTheme (fst st) = Some "theme-auto" ->
  ThemeToggleModal.getEffectiveTheme st
  = Some (if ThemeToggleModal.prefersDark (snd st) then "theme-dark" else "theme-light").
Proof.
  intros H. unfold ThemeToggleModal.getEffectiveTheme.
  destruct (decide (ThemeToggleModal.currentTheme (fst st) = Some "theme-auto"));
    [|contradiction].
  destruct (ThemeToggleModal.prefersDark (snd st)); reflexivity.
Qed.

(** C1. [isDarkMode] searches the class string of the root for the marker
    names, so a class that only contains the name of the dark marker counts
    as the marker.  On a root with the classes theme-light and no-theme-dark
    and a light system, the root carries neither theme-dark nor theme-auto
    and [isDarkMode] returns true.  On a root with theme-auto and
    no-theme-dark and a light system, the preference is theme-auto, the
    system signal is false, the popover resolves the effective theme to
    theme-light, and [isDarkMode] returns true. *)
Theorem isDarkMode_counts_class_containing_marker :
  let light := Sample.page ["theme-light"; "no-theme-dark"] (Some false) in
  let auto := Sample.page ["theme-auto"; "no-theme-dark"] (Some false) in
  (DOMTokenList.contains (DOM.documentElement light) "theme-dark" = false
   /\ DOMTokenList.contains (DOM.documentElement light) "theme-auto" = false
   /\ DOM.className light = "theme-light no-theme-dark"
   /\ fst (Utils.isDarkMode light) = JS.Normal true)
  /\ (DOMTokenList.contains (DOM.documentElement auto) "theme-dark" = false
      /\ DOMTokenList.contains (DOM.documentElement auto) "theme-auto" = true
      /\ DOM.matchMedia auto = Some false
      /\ ThemeToggleModal.getEffectiveTheme
           (ThemeToggleModal.detectCurrentTheme (Sample.popover, auto))
         = Some "theme-light"
      /\ fst (Utils.isDarkMode auto) = JS.Normal true).
Proof. repeat split. Qed.

(** Where [window.matchMedia] is undefined and the root carries theme-auto,
    [isDarkMode] raises, while the popover resolves the theme to
    theme-light. *)
Remark isDarkMode_without_matchMedia :
  let p := Sample.page ["theme-auto"] None in
  fst (Utils.isDarkMode p) = JS.Throw JS.TypeError
  /\ ThemeToggleModal.getEffectiveTheme
       (ThemeToggleModal.detectCurrentTheme (Sample.popover, p))
     = Some "theme-light".
Proof. split; reflexivity. Qed.

(** *** The synchronizer follows the popover *)

Lemma plainMarkers_themeSet (theme : string) st :
  theme ∈ ThemeToggleModal.THEME_CLASSES ->
  View.plainMarkers (snd st) ->
  View.plainMarkers (snd (View.themeSet (Some theme) st)).
Proof.
  intros Htheme Hplain t marker Ht Hmarker Hinc.
  destruct (themeSet_frame (Some theme) st) as (_ & _ & Hroot & _).
  rewrite Hroot in Ht. cbn [JS.ToString] in Ht.
  apply elem_of_add in Ht as [Ht | ->].
  - apply elem_of_remove in Ht as [Ht _]. apply (Hplain t marker Ht Hmarker Hinc).
  - unfold CONFIG.THEMES_DARK, CONFIG.THEMES_AUTO in Hmarker.
    rewrite !elem_of_cons, elem_of_nil in Hmarker.
    destruct (theme_classes_cases theme Htheme) as [-> | [-> | ->]];
      destruct Hmarker as [-> | [-> | []]];
      first [reflexivity | discriminate Hinc].
Qed.

(** X17. After [setTheme] of one of the three preferences on a root with
    plain markers, with the system query available, [isDarkMode] returns true
    exactly when the popover's effective theme is theme-dark: the two scripts
    resolve the theme alike. *)
Proposition isDarkMode_follows_setTheme (theme : string) st matches :
  theme ∈ ThemeToggleModal.THEME_CLASSES ->
  View.plainMarkers (snd st) ->
  DOM.matchMedia (snd st) = Some matches ->
  let st' := JS.exec (ThemeToggleModal.setTheme (Some theme)) st in
  fst (Utils.isDarkMode (snd st'))
  = JS.Normal (bool_decide (ThemeToggleModal.getEffectiveTheme st' = Some "theme-dark")).
Proof.
  intros Htheme Hplain Hmedia st'. subst st'. unfold JS.exec.
  rewrite (setTheme_accepted (Some theme) st (validate_theme_classes theme Htheme)).
  cbn [snd].
  assert (Hmedia' : DOM.matchMedia (snd (View.themeSet (Some theme) st)) = Some matches).
  { unfold View.themeSet. rewrite updateUI_applyOps. exact Hmedia. }
  rewrite (isDarkMode_plain_markers _ matches
             (plainMarkers_themeSet theme st Htheme Hplain) Hmedia').
  f_equal.
  rewrite (themeSet_marker theme "theme-dark" st dark_is_theme).
  rewrite (themeSet_marker theme "theme-auto" st auto_is_theme).
  unfold ThemeToggleModal.getEffectiveTheme, ThemeToggleModal.prefersDark.
  destruct (themeSet_frame (Some theme) st) as (-> & _). rewrite Hmedia'.
  destruct (theme_classes_cases theme Htheme) as [-> | [-> | ->]];
    destruct matches; reflexivity.
Qed.

(** The scenario of the specification: nothing stored, the root marked
    theme-auto, a dark system.  [init] selects the dark paths; the popover
    sets theme-light, the root's class changes, and the observer's callback
    switches both images to their light paths. *)
Example synchronizer_scenario :
  let p := Sample.page ["theme-auto"] (Some true) in
  let started := JS.exec ThemeManager.init (ThemeManager.create, p) in
  let chosen :=
    JS.exec (ThemeToggleModal.setTheme (Some "theme-light")) (Sample.popover, snd started) in
  let records := [{| ThemeManager.type := "attributes";
                     ThemeManager.attributeName := Some "class" |}] in
  let notified := ThemeManager.classMutated records (snd chosen) in
  DOM.src <$> DOM.nodes (snd started) !! 9 = Some "./images/signature.gif"
  /\ DOM.src <$> DOM.nodes (snd started) !! 10 = Some "./images/rate1_w.png"
  /\ DOM.documentElement (snd chosen) = ["theme-light"]
  /\ DOM.src <$> DOM.nodes notified !! 9 = Some "./images/signature_alt.gif"
  /\ DOM.src <$> DOM.nodes notified !! 10 = Some "./images/rate1.png".
Proof. repeat split. Qed.

(** * Further properties of the scripts *)

(** ** Loading the popover *)

Lemma loadSavedTheme_cases st :
  (exists theme : string,
      theme ∈ ThemeToggleModal.THEME_CLASSES
      /\ DOM.localStorage (snd st) !! ThemeToggleModal.STORAGE_KEY = Some theme
      /\ ThemeToggleModal.loadSavedTheme st = (JS.Normal tt, View.themeSet (Some theme) st))
  \/ ((forall theme : string,
         DOM.localStorage (snd st) !! ThemeToggleModal.STORAGE_KEY = Some theme ->
         theme ∉ ThemeToggleModal.THEME_CLASSES)
      /\ ThemeToggleModal.loadSavedTheme st = (JS.Normal tt, st)).
Proof.
  destruct (DOM.localStorage (snd st) !! ThemeToggleModal.STORAGE_KEY)
    as [saved|] eqn:Hsaved.
  - destruct (decide (saved ∈ ThemeToggleModal.THEME_CLASSES)) as [Hin|Hout].
    + left. exists saved. split; [exact Hin|]. split; [reflexivity|].
      apply loadSavedTheme_saved; assumption.
    + right. split; [intros theme [= <-]; exact Hout|].
      unfold ThemeToggleModal.loadSavedTheme, JS.bind, JS.gets. rewrite Hsaved.
      rewrite (bool_decide_eq_false_2 _ Hout), andb_false_r. reflexivity.
  - right. split; [intros theme [=]|].
    unfold ThemeToggleModal.loadSavedTheme, JS.bind, JS.gets. rewrite Hsaved.
    reflexivity.
Qed.


(** X1. A stored value that is none of the three preferences (no value, the
    empty string, any other string) is ignored: [loadSavedTheme] returns
    normally and changes nothing, and [init] ends in the state that
    [detectCurrentTheme] and [updateUI] left, with the root's classes and the
    storage as they were. *)
Theorem loadSavedTheme_ignores_other_values (st : ThemeToggleModal.state) :
  (forall saved : string,
      DOM.localStorage (snd st) !! ThemeToggleModal.STORAGE_KEY = Some saved ->
      saved ∉ ThemeToggleModal.THEME_CLASSES) ->
  ThemeToggleModal.loadSavedTheme st = (JS.Normal tt, st)
  /\ ThemeToggleModal.init st
     = (JS.Normal tt,
        ThemeToggleModal.updateUI (ThemeToggleModal.detectCurrentTheme st))
  /\ DOM.documentElement (snd (JS.exec ThemeToggleModal.init st))
     = DOM.documentElement (snd st)
  /\ DOM.localStorage (snd (JS.exec ThemeToggleModal.init st))
     = DOM.localStorage (snd st).
Proof.
  intros Hother.
  assert (Hload : forall st' : ThemeToggleModal.state,
             DOM.localStorage (snd st') = DOM.localStorage (snd st) ->
             ThemeToggleModal.loadSavedTheme st' = (JS.Normal tt, st')).
  { intros st' Hsame. destruct (loadSavedTheme_cases st') as [(theme & Hin & Hs & _)|[_ H]];
      [|exact H].
    rewrite Hsame in Hs. destruct (Hother theme Hs Hin). }
  assert (Hinit : ThemeToggleModal.init st
                  = (JS.Normal tt,
                     ThemeToggleModal.updateUI (ThemeToggleModal.detectCurrentTheme st))).
  { unfold ThemeToggleModal.init, JS.bind, JS.modify. apply Hload.
    rewrite updateUI_applyOps. cbn [snd DOM.localStorage DOM.set_nodes].
    rewrite detectCurrentTheme_page. reflexivity. }
  split; [apply Hload; reflexivity|]. split; [exact Hinit|].
  unfold JS.exec. rewrite Hinit. cbn [snd]. rewrite updateUI_applyOps.
  cbn [snd DOM.documentElement DOM.localStorage DOM.set_nodes].
  rewrite detectCurrentTheme_page. split; reflexivity.
Qed.

(** A reload that finds the value dark in the storage, which is no
    preference: the popover keeps theme-light, read from the root. *)
Lemma loadSavedTheme_ignores_other_values_witness :
  let st := (Sample.popover, Sample.reloaded ["theme-light"] (Some true) "dark") in
  (forall saved : string,
      DOM.localStorage (snd st) !! ThemeToggleModal.STORAGE_KEY = Some saved ->
      saved ∉ ThemeToggleModal.THEME_CLASSES)
  /\ ThemeToggleModal.loadSavedTheme st = (JS.Normal tt, st)
  /\ ThemeToggleModal.currentTheme (fst (JS.exec ThemeToggleModal.init st))
     = Some "theme-light".
Proof.
  intros st.
  assert (Hother : forall saved : string,
             DOM.localStorage (snd st) !! ThemeToggleModal.STORAGE_KEY = Some saved ->
             saved ∉ ThemeToggleModal.THEME_CLASSES).
  { intros saved Hs. change (Some "dark" = Some saved) in Hs. injection Hs as <-.
    apply (bool_decide_unpack _). reflexivity. }
  destruct (loadSavedTheme_ignores_other_values st Hother) as (Hload & Hinit & _).
  split; [exact Hother|]. split; [exact Hload|].
  unfold JS.exec. rewrite Hinit. reflexivity.
Defined.


(** ** [setTheme]: rejected tokens, repeated calls, reading the root back *)



Lemma remove_add_in (tokens args : list string) (token : string) :
  token ∈ args ->
  DOMTokenList.remove (DOMTokenList.add tokens token) args
  = DOMTokenList.remove tokens args.
Proof.
  intros Hin. unfold DOMTokenList.add.
  destruct (DOMTokenList.contains tokens token); [reflexivity|].
  unfold DOMTokenList.remove. rewrite filter_app, filter_cons.
  destruct (decide (token ∉ args)); [contradiction|].
  rewrite filter_nil. apply app_nil_r.
Qed.

(** The elements that [updateUI] updates are the icons and the options,
    whatever the theme. *)
Lemma opsAt_updateUI_untouched k st :
  k ∉ [ThemeToggleModal.sunIcon (fst st); ThemeToggleModal.moonIcon (fst st);
       ThemeToggleModal.autoIcon (fst st)] ->
  k ∉ ThemeToggleModal.themeOptions (fst st) ->
  View.opsAt k (View.updateUI_ops st) = [].
Proof.
  intros Hicon Hoption. unfold View.updateUI_ops.
  rewrite opsAt_app, (opsAt_options_apart _ _ _ _ Hoption), app_nil_r.
  rewrite !not_elem_of_cons in Hicon. destruct Hicon as (Hs & Hm & Ha & _).
  unfold View.iconOps, View.opsAt.
  destruct (activeIcon_cases st) as [-> | [-> | ->]];
    cbn [List.filter app fst snd];
    repeat case_bool_decide; try reflexivity; exfalso; simplify_eq; intuition congruence.
Qed.

Lemma opsAt_options_touched k this p options :
  k ∈ options -> View.opsAt k (flat_map (View.optionOps this p) options) <> [].
Proof.
  induction options as [|option options IH]; intros Hk; [inversion Hk|].
  cbn [flat_map]. rewrite opsAt_app, opsAt_optionOps.
  destruct (decide (option = k)) as [->|Hne].
  - unfold View.optionOps. discriminate.
  - apply elem_of_cons in Hk as [->|Hk]; [congruence|].
    cbn [app]. apply IH, Hk.
Qed.

Lemma opsAt_updateUI_touched k st :
  View.opsAt k (View.updateUI_ops st) = [] ->
  (k ∉ [ThemeToggleModal.sunIcon (fst st); ThemeToggleModal.moonIcon (fst st);
        ThemeToggleModal.autoIcon (fst st)])
  /\ (k ∉ ThemeToggleModal.themeOptions (fst st)).
Proof.
  unfold View.updateUI_ops. rewrite opsAt_app. intros H.
  apply app_eq_nil in H as [Hicons Hoptions]. split.
  - rewrite !not_elem_of_cons. unfold View.iconOps in Hicons.
    rewrite opsAt_app in Hicons. apply app_eq_nil in Hicons as [Hicons _].
    unfold View.opsAt in Hicons. cbn [List.filter fst snd] in Hicons.
    repeat case_bool_decide; try discriminate Hicons.
    repeat split; try congruence. apply not_elem_of_nil.
  - intros Hk. exact (opsAt_options_touched _ _ _ _ Hk Hoptions).
Qed.

Lemma applyOps_after ops2 ops1 els :
  (forall k, View.startsWithRemove (View.opsAt k ops2)) ->
  (forall k, View.opsAt k ops2 = [] -> View.opsAt k ops1 = []) ->
  View.applyOps ops2 (View.applyOps ops1 els) = View.applyOps ops2 els.
Proof.
  intros Hfirst Hcover. apply list_eq. intros k. rewrite !lookup_applyOps.
  destruct (els !! k) as [e|]; [|reflexivity]. cbn. f_equal.
  rewrite !runOps_tokens. unfold DOM.set_classList. cbn. f_equal.
  specialize (Hfirst k). specialize (Hcover k).
  destruct (View.opsAt k ops2) as [|o os].
  - rewrite (Hcover eq_refl). reflexivity.
  - cbn [View.startsWithRemove] in Hfirst. subst o.
    change (View.tokensAfter (View.RemoveActive :: os) ?x)
      with (View.tokensAfter os (DOMTokenList.remove x ["active"])).
    rewrite remove_tokensAfter. reflexivity.
Qed.

(** A call of [updateUI] wipes out what an earlier call, for whatever theme
    and system signal, did to the classes of the same controls. *)
Lemma updateUI_absorbs this this0 p p0 :
  ThemeToggleModal.sunIcon this0 = ThemeToggleModal.sunIcon this ->
  ThemeToggleModal.moonIcon this0 = ThemeToggleModal.moonIcon this ->
  ThemeToggleModal.autoIcon this0 = ThemeToggleModal.autoIcon this ->
  ThemeToggleModal.themeOptions this0 = ThemeToggleModal.themeOptions this ->
  ThemeToggleModal.updateUI
    (this, DOM.set_nodes (View.applyOps (View.updateUI_ops (this0, p0))) p)
  = ThemeToggleModal.updateUI (this, p).
Proof.
  intros Hs Hm Ha Ho. rewrite !updateUI_applyOps. cbn [fst snd]. f_equal.
  assert (Hops : View.updateUI_ops
                   (this, DOM.set_nodes (View.applyOps (View.updateUI_ops (this0, p0))) p)
                 = View.updateUI_ops (this, p)).
  { unfold View.updateUI_ops. cbn [fst snd]. f_equal.
    apply flat_map_ext. intros option. unfold View.optionOps.
    rewrite datasetTheme_applyOps. reflexivity. }
  rewrite Hops. destruct p. unfold DOM.set_nodes.
  cbn [DOM.title DOM.documentElement DOM.matchMedia DOM.localStorage DOM.nodes
         DOM.activeElement DOM.observers DOM.nextObserver].
  f_equal. apply applyOps_after; [intros k; apply startsWithRemove_updateUI|].
  intros k Hk. apply opsAt_updateUI_touched in Hk as [Hicon Hoption].
  apply opsAt_updateUI_untouched; cbn [fst]; [rewrite Hs, Hm, Ha | rewrite Ho]; assumption.
Qed.

Lemma themeSet_themeSet (first : string) (second : JS.value) st :
  first ∈ ThemeToggleModal.THEME_CLASSES ->
  View.themeSet second (View.themeSet (Some first) st) = View.themeSet second st.
Proof.
  intros Hfirst. unfold View.themeSet at 2. rewrite updateUI_applyOps.
  unfold View.themeSet. cbn [fst snd JS.ToString].
  set (this0 := ThemeToggleModal.set_currentTheme (Some first) (fst st)).
  set (p0 := DOM.set_localStorage _ (DOM.set_documentElement _ (snd st))).
  change (DOM.set_localStorage ?f (DOM.set_documentElement ?g (DOM.set_nodes ?h p0)))
    with (DOM.set_nodes h (DOM.set_localStorage f (DOM.set_documentElement g p0))).
  change (ThemeToggleModal.set_currentTheme second this0)
    with (ThemeToggleModal.set_currentTheme second (fst st)).
  rewrite (updateUI_absorbs _ this0) by reflexivity.
  f_equal. f_equal. subst p0. destruct (snd st) as [t root mm ls ns ae os no].
  unfold DOM.set_localStorage, DOM.set_documentElement.
  cbn [DOM.title DOM.documentElement DOM.matchMedia DOM.localStorage DOM.nodes
         DOM.activeElement DOM.observers DOM.nextObserver].
  rewrite (remove_add_in _ _ first Hfirst), remove_remove, insert_insert_eq.
  reflexivity.
Qed.

(** X4. The last call of [setTheme] decides the whole state: after
    [setTheme] of one of the three preferences, a second [setTheme] with an
    accepted token ends in the state it would have reached without the first
    (root classes, current theme, storage, icons and options).  In
    particular [setTheme] with the same preference twice is [setTheme]
    once. *)
Theorem setTheme_last_call_wins (first : string) (second : JS.value)
    (st : ThemeToggleModal.state) :
  first ∈ ThemeToggleModal.THEME_CLASSES ->
  DOMTokenList.validate (JS.ToString second) = None ->
  JS.exec (ThemeToggleModal.setTheme second)
    (JS.exec (ThemeToggleModal.setTheme (Some first)) st)
  = JS.exec (ThemeToggleModal.setTheme second) st.
Proof.
  intros Hfirst Hsecond. unfold JS.exec.
  rewrite (setTheme_accepted (Some first) st (validate_theme_classes first Hfirst)).
  rewrite !(setTheme_accepted second _ Hsecond). cbn [snd].
  apply themeSet_themeSet, Hfirst.
Qed.

(** Dark after light on the sample page is dark alone, and dark twice is
    dark once. *)
Lemma setTheme_last_call_wins_witness :
  let st := (Sample.popover, Sample.page ["theme-auto"; "no-js"] (Some false)) in
  let dark := JS.exec (ThemeToggleModal.setTheme (Some "theme-dark")) in
  let light := JS.exec (ThemeToggleModal.setTheme (Some "theme-light")) in
  "theme-light" ∈ ThemeToggleModal.THEME_CLASSES
  /\ DOMTokenList.validate (JS.ToString (Some "theme-dark")) = None
  /\ dark (light st) = dark st
  /\ dark (dark st) = dark st
  /\ DOM.documentElement (snd (dark (light st))) = ["no-js"; "theme-dark"].
Proof.
  intros st dark light.
  split; [exact light_is_theme|]. split; [reflexivity|].
  assert (H1 : dark (light st) = dark st)
    by exact (setTheme_last_call_wins "theme-light" (Some "theme-dark") st
                light_is_theme eq_refl).
  split; [exact H1|].
  split; [exact (setTheme_last_call_wins "theme-dark" (Some "theme-dark") st
                   dark_is_theme eq_refl)|].
  rewrite H1. reflexivity.
Defined.

Lemma set_currentTheme_same this :
  ThemeToggleModal.set_currentTheme (ThemeToggleModal.currentTheme this) this = this.
Proof. destruct this. reflexivity. Qed.

(** X5. The root can be read back: after [setTheme] of one of the three
    preferences, [detectCurrentTheme] finds the preference that was set and
    changes nothing. *)
Theorem detectCurrentTheme_after_setTheme (theme : string)
    (st : ThemeToggleModal.state) :
  theme ∈ ThemeToggleModal.THEME_CLASSES ->
  let st' := JS.exec (ThemeToggleModal.setTheme (Some theme)) st in
  ThemeToggleModal.currentTheme (fst (ThemeToggleModal.detectCurrentTheme st'))
  = Some theme
  /\ ThemeToggleModal.detectCurrentTheme st' = st'.
Proof.
  intros Htheme st'. subst st'. unfold JS.exec.
  rewrite (setTheme_accepted (Some theme) st (validate_theme_classes theme Htheme)).
  cbn [snd]. set (st' := View.themeSet (Some theme) st).
  assert (Hcurrent : ThemeToggleModal.currentTheme (fst st') = Some theme)
    by apply themeSet_frame.
  assert (Hdetect : ThemeToggleModal.detectCurrentTheme st'
                    = (ThemeToggleModal.set_currentTheme (Some theme) (fst st'), snd st')).
  { unfold ThemeToggleModal.detectCurrentTheme. subst st'.
    rewrite (themeSet_marker theme "theme-dark" st dark_is_theme).
    rewrite (themeSet_marker theme "theme-light" st light_is_theme).
    destruct (theme_classes_cases theme Htheme) as [-> | [-> | ->]]; reflexivity. }
  rewrite Hdetect. cbn [fst]. split; [reflexivity|].
  rewrite <- Hcurrent at 1. rewrite set_currentTheme_same. destruct st'; reflexivity.
Qed.

(** After [setTheme('theme-auto')] on a root that carried theme-dark and
    theme-light, the root reads as theme-auto. *)
Lemma detectCurrentTheme_after_setTheme_witness :
  let st := (Sample.popover, Sample.page ["theme-dark"; "theme-light"] (Some false)) in
  let st' := JS.exec (ThemeToggleModal.setTheme (Some "theme-auto")) st in
  "theme-auto" ∈ ThemeToggleModal.THEME_CLASSES
  /\ ThemeToggleModal.currentTheme (fst (ThemeToggleModal.detectCurrentTheme st))
     = Some "theme-dark"
  /\ ThemeToggleModal.currentTheme (fst (ThemeToggleModal.detectCurrentTheme st'))
     = Some "theme-auto".
Proof.
  intros st st'. split; [exact auto_is_theme|]. split; [reflexivity|].
  exact (proj1 (detectCurrentTheme_after_setTheme "theme-auto" st auto_is_theme)).
Defined.

(** ** What [updateUI] shows *)

Lemma tokensAfter_app os1 os2 l :
  View.tokensAfter (os1 ++ os2) l = View.tokensAfter os2 (View.tokensAfter os1 l).
Proof. unfold View.tokensAfter. apply fold_left_app. Qed.

Lemma contains_tokensAfter_options option this p options : forall l,
  DOMTokenList.contains
    (View.tokensAfter (View.opsAt option (flat_map (View.optionOps this p) options)) l)
    "active"
  = if bool_decide (option ∈ options)
    then bool_decide (ThemeToggleModal.datasetTheme p option
                      = ThemeToggleModal.currentTheme this)
    else DOMTokenList.contains l "active".
Proof.
  induction options as [|x xs IH]; intros l.
  - rewrite bool_decide_eq_false_2 by apply not_elem_of_nil. reflexivity.
  - cbn [flat_map]. rewrite opsAt_app, tokensAfter_app, IH, opsAt_optionOps.
    destruct (decide (x = option)) as [->|Hne].
    + rewrite (bool_decide_eq_true_2 (option ∈ option :: xs))
        by (apply elem_of_cons; left; reflexivity).
      assert (Hhere : DOMTokenList.contains
                        (View.tokensAfter
                           (map snd (View.optionOps this p option)) l) "active"
                      = bool_decide (ThemeToggleModal.datasetTheme p option
                                     = ThemeToggleModal.currentTheme this)).
      { unfold View.optionOps.
        destruct (decide (ThemeToggleModal.datasetTheme p option
                          = ThemeToggleModal.currentTheme this)) as [Heq|Hneq].
        - rewrite (bool_decide_eq_true_2 _ Heq). apply contains_add_same.
        - rewrite (bool_decide_eq_false_2 _ Hneq). apply contains_remove_same. }
      rewrite Hhere. destruct (bool_decide (option ∈ xs)); reflexivity.
    + cbn [View.tokensAfter fold_left].
      destruct (decide (option ∈ xs)) as [Hin|Hout].
      * rewrite (bool_decide_eq_true_2 (option ∈ x :: xs))
          by (apply elem_of_cons; right; exact Hin).
        rewrite (bool_decide_eq_true_2 _ Hin). reflexivity.
      * rewrite (bool_decide_eq_false_2 (option ∈ x :: xs))
          by (rewrite not_elem_of_cons; split; [congruence | exact Hout]).
        rewrite (bool_decide_eq_false_2 _ Hout). reflexivity.
Qed.

Lemma opsAt_iconOps_apart k st :
  k ∉ [ThemeToggleModal.sunIcon (fst st); ThemeToggleModal.moonIcon (fst st);
       ThemeToggleModal.autoIcon (fst st)] ->
  View.opsAt k (View.iconOps st) = [].
Proof.
  intros Hicon. rewrite !not_elem_of_cons in Hicon. destruct Hicon as (Hs & Hm & Ha & _).
  unfold View.iconOps, View.opsAt.
  destruct (activeIcon_cases st) as [-> | [-> | ->]];
    cbn [List.filter app fst snd];
    repeat case_bool_decide; try reflexivity; exfalso; simplify_eq; intuition congruence.
Qed.

Lemma hasClass_updateUI_option st option :
  Behaviour.optionsApart st ->
  option ∈ ThemeToggleModal.themeOptions (fst st) ->
  DOM.hasClass (snd (ThemeToggleModal.updateUI st)) option "active"
  = bool_decide (ThemeToggleModal.datasetTheme (snd st) option
                 = ThemeToggleModal.currentTheme (fst st)).
Proof.
  intros Hapart Hoption. destruct (Hapart option Hoption) as [Hbound Hicon].
  destruct (lookup_lt_is_Some_2 _ _ Hbound) as [e He].
  rewrite updateUI_applyOps. unfold DOM.hasClass. cbn [snd DOM.nodes DOM.set_nodes].
  rewrite lookup_applyOps, He. cbn [fmap option_fmap option_map].
  rewrite runOps_tokens. cbn [DOM.classList DOM.set_classList].
  unfold View.updateUI_ops.
  rewrite opsAt_app, (opsAt_iconOps_apart _ _ Hicon). cbn [app].
  rewrite contains_tokensAfter_options.
  rewrite (bool_decide_eq_true_2 _ Hoption). reflexivity.
Qed.

Lemma activeOptions_updateUI st :
  Behaviour.optionsApart st ->
  View.activeOptions (ThemeToggleModal.updateUI st)
  = List.filter
      (fun option => bool_decide (ThemeToggleModal.datasetTheme (snd st) option
                                  = ThemeToggleModal.currentTheme (fst st)))
      (ThemeToggleModal.themeOptions (fst st)).
Proof.
  intros Hapart. unfold View.activeOptions.
  replace (fst (ThemeToggleModal.updateUI st)) with (fst st)
    by (rewrite updateUI_applyOps; reflexivity).
  apply List.filter_ext_in. intros option Hin.
  apply hasClass_updateUI_option; [exact Hapart | apply list_elem_of_In, Hin].
Qed.

(** X6. Where the theme options are elements of the document and none is an
    icon of the button, the options that carry the active class after
    [updateUI] are exactly those whose data-theme equals the current theme:
    none when no option has that theme, several when several have it.  After
    [setTheme] with an accepted token they are the options of the theme that
    was set. *)
Theorem active_options_match_theme (st : ThemeToggleModal.state) :
  Behaviour.optionsApart st ->
  View.activeOptions (ThemeToggleModal.updateUI st)
  = List.filter
      (fun option => bool_decide (ThemeToggleModal.datasetTheme (snd st) option
                                  = ThemeToggleModal.currentTheme (fst st)))
      (ThemeToggleModal.themeOptions (fst st))
  /\ forall theme,
       DOMTokenList.validate (JS.ToString theme) = None ->
       View.activeOptions (JS.exec (ThemeToggleModal.setTheme theme) st)
       = List.filter
           (fun option => bool_decide (ThemeToggleModal.datasetTheme (snd st) option = theme))
           (ThemeToggleModal.themeOptions (fst st)).
Proof.
  intros Hapart. split; [apply activeOptions_updateUI, Hapart|].
  intros theme Hv. unfold JS.exec. rewrite (setTheme_accepted theme st Hv). cbn [snd].
  unfold View.themeSet. rewrite activeOptions_updateUI; [reflexivity|].
  exact Hapart.
Qed.

(** On the sample page the option of theme-dark is element 7, and no option
    has the theme sepia. *)
Lemma active_options_match_theme_witness :
  let st := (Sample.popover, Sample.page ["theme-auto"] (Some false)) in
  Behaviour.optionsApart st
  /\ View.activeOptions (JS.exec (ThemeToggleModal.setTheme (Some "theme-dark")) st) = [7]
  /\ View.activeOptions (JS.exec (ThemeToggleModal.setTheme (Some "sepia")) st) = [].
Proof.
  intros st.
  assert (Hapart : Behaviour.optionsApart st).
  { intros option Hin. cbn in Hin. rewrite !elem_of_cons, elem_of_nil in Hin.
    cbn. rewrite !not_elem_of_cons.
    destruct Hin as [-> | [-> | [-> | []]]];
      (split; [lia|]); repeat split; (discriminate || apply not_elem_of_nil). }
  destruct (active_options_match_theme st Hapart) as [_ Hset].
  split; [exact Hapart|].
  split; [exact (Hset (Some "theme-dark") eq_refl) | exact (Hset (Some "sepia") eq_refl)].
Defined.

Lemma iconsApart_sameControls st st' :
  Behaviour.sameControls st st' -> View.iconsApart st -> View.iconsApart st'.
Proof.
  intros (Hs & Hm & Ha & Ho & Hlen). unfold View.iconsApart. cbn zeta.
  rewrite Hs, Hm, Ha, Ho, Hlen. auto.
Qed.

Lemma sameControls_updateUI st : Behaviour.sameControls st (ThemeToggleModal.updateUI st).
Proof.
  rewrite updateUI_applyOps. repeat split.
  cbn [snd DOM.nodes DOM.set_nodes]. apply length_applyOps.
Qed.

Lemma sameControls_themeSet theme st : Behaviour.sameControls st (View.themeSet theme st).
Proof.
  unfold View.themeSet. rewrite updateUI_applyOps. repeat split.
  cbn [snd DOM.nodes DOM.set_nodes DOM.set_localStorage DOM.set_documentElement].
  apply length_applyOps.
Qed.

Lemma sameControls_detectCurrentTheme st :
  Behaviour.sameControls st (ThemeToggleModal.detectCurrentTheme st).
Proof.
  unfold ThemeToggleModal.detectCurrentTheme.
  repeat (destruct (DOMTokenList.contains _ _)); repeat split.
Qed.

Lemma sameControls_trans st1 st2 st3 :
  Behaviour.sameControls st1 st2 -> Behaviour.sameControls st2 st3 ->
  Behaviour.sameControls st1 st3.
Proof.
  intros (? & ? & ? & ? & ?) (? & ? & ? & ? & ?). repeat split; congruence.
Qed.

Lemma autoIcon_updateUI st :
  View.iconsApart st ->
  DOM.hasClass (snd (ThemeToggleModal.updateUI st))
    (ThemeToggleModal.autoIcon (fst st)) "active" = false.
Proof.
  intros Hapart. destruct (icons_distinct st Hapart) as (_ & Hsa & Hma).
  rewrite (hasClass_updateUI_icon st _ Hapart) by (rewrite !elem_of_cons; auto).
  apply bool_decide_eq_false_2.
  destruct (activeIcon_cases st) as [-> | [-> | ->]]; congruence.
Qed.

(** X7. Where the three icons are three elements of their own, the auto
    icon never carries the active class once the popover has drawn itself:
    not after [updateUI], whatever the current theme and the system signal,
    not after [setTheme] with an accepted token, theme-auto included, and not
    after [init]. *)
Theorem auto_icon_never_active (st : ThemeToggleModal.state) :
  View.iconsApart st ->
  let auto := ThemeToggleModal.autoIcon (fst st) in
  DOM.hasClass (snd (ThemeToggleModal.updateUI st)) auto "active" = false
  /\ (forall theme,
        DOMTokenList.validate (JS.ToString theme) = None ->
        DOM.hasClass (snd (JS.exec (ThemeToggleModal.setTheme theme) st)) auto "active"
        = false)
  /\ DOM.hasClass (snd (JS.exec ThemeToggleModal.init st)) auto "active" = false.
Proof.
  intros Hapart auto. subst auto.
  assert (Hset : forall theme st0,
             Behaviour.sameControls st st0 ->
             DOM.hasClass (snd (View.themeSet theme st0))
               (ThemeToggleModal.autoIcon (fst st)) "active" = false).
  { intros theme st0 Hsame. unfold View.themeSet.
    set (inner := (ThemeToggleModal.set_currentTheme theme (fst st0), _)).
    assert (Hinner : Behaviour.sameControls st inner).
    { destruct Hsame as (? & ? & ? & ? & ?). repeat split; assumption. }
    replace (ThemeToggleModal.autoIcon (fst st))
      with (ThemeToggleModal.autoIcon (fst inner)) by apply Hinner.
    apply autoIcon_updateUI. exact (iconsApart_sameControls _ _ Hinner Hapart). }
  split; [apply autoIcon_updateUI, Hapart|]. split.
  - intros theme Hv. unfold JS.exec. rewrite (setTheme_accepted theme st Hv).
    apply Hset. repeat split.
  - unfold JS.exec, ThemeToggleModal.init, JS.bind, JS.modify.
    set (seeded := ThemeToggleModal.detectCurrentTheme st).
    assert (Hseeded : Behaviour.sameControls st seeded)
      by apply sameControls_detectCurrentTheme.
    destruct (loadSavedTheme_cases (ThemeToggleModal.updateUI seeded))
      as [(theme & _ & _ & ->)|[_ ->]]; cbn [snd].
    + apply Hset. eapply sameControls_trans; [exact Hseeded | apply sameControls_updateUI].
    + replace (ThemeToggleModal.autoIcon (fst st))
        with (ThemeToggleModal.autoIcon (fst seeded)) by apply Hseeded.
      apply autoIcon_updateUI. exact (iconsApart_sameControls _ _ Hseeded Hapart).
Qed.

(** On the sample page with the auto icon marked active in the document,
    [setTheme('theme-auto')] leaves the moon active and the auto icon
    (element 4) not. *)
Lemma auto_icon_never_active_witness :
  let marked :=
    DOM.set_nodes (alter (DOM.set_classList (fun l => l ++ ["active"])) 4)
      (Sample.page ["theme-auto"] (Some true)) in
  let st := (Sample.popover, marked) in
  let st' := JS.exec (ThemeToggleModal.setTheme (Some "theme-auto")) st in
  View.iconsApart st
  /\ DOM.hasClass marked 4 "active" = true
  /\ DOM.hasClass (snd st') 4 "active" = false
  /\ View.activeIcons st' = [3].
Proof.
  intros marked st st'.
  assert (Hapart : View.iconsApart st).
  { apply (iconsApart_sameControls (Sample.popover, Sample.page ["theme-auto"] (Some true)));
      [repeat split | apply sample_iconsApart]. }
  destruct (auto_icon_never_active st Hapart) as (_ & Hset & _).
  split; [exact Hapart|]. split; [reflexivity|].
  split; [exact (Hset (Some "theme-auto") eq_refl) | reflexivity].
Defined.

Lemma getEffectiveTheme_cases st :
  ThemeToggleModal.currentTheme (fst st) ∈ (Some <$> ThemeToggleModal.THEME_CLASSES) ->
  (ThemeToggleModal.getEffectiveTheme st = Some "theme-dark"
   /\ ThemeToggleModal.activeIcon st = Some (ThemeToggleModal.moonIcon (fst st)))
  \/ (ThemeToggleModal.getEffectiveTheme st = Some "theme-light"
      /\ ThemeToggleModal.activeIcon st = Some (ThemeToggleModal.sunIcon (fst st))).
Proof.
  intros Hvalid. cbn in Hvalid. rewrite !elem_of_cons, elem_of_nil in Hvalid.
  unfold ThemeToggleModal.getEffectiveTheme, ThemeToggleModal.activeIcon.
  destruct Hvalid as [-> | [-> | [-> | []]]]; cbn;
    try destruct (ThemeToggleModal.prefersDark (snd st)); auto.
Qed.

(** X8. The icon shows the effective theme.  Where the current theme is
    one of the three preferences, [getEffectiveTheme] returns theme-dark or
    theme-light, never theme-auto, and with the icons being three elements of
    their own the one active icon after [updateUI] is the moon in the first
    case and the sun in the second. *)
Theorem icon_shows_effective_theme (st : ThemeToggleModal.state) :
  ThemeToggleModal.currentTheme (fst st) ∈ (Some <$> ThemeToggleModal.THEME_CLASSES) ->
  View.iconsApart st ->
  (ThemeToggleModal.getEffectiveTheme st = Some "theme-dark"
   /\ View.activeIcons (ThemeToggleModal.updateUI st)
      = [ThemeToggleModal.moonIcon (fst st)])
  \/ (ThemeToggleModal.getEffectiveTheme st = Some "theme-light"
      /\ View.activeIcons (ThemeToggleModal.updateUI st)
         = [ThemeToggleModal.sunIcon (fst st)]).
Proof.
  intros Hvalid Hapart. rewrite (activeIcons_updateUI st Hapart).
  destruct (getEffectiveTheme_cases st Hvalid) as [[He ->]|[He ->]]; auto.
Qed.

(** With theme-auto on a dark system the effective theme is theme-dark and
    the moon (element 3) is shown. *)
Lemma icon_shows_effective_theme_witness :
  let st := (Sample.popover, Sample.page ["theme-auto"] (Some true)) in
  ThemeToggleModal.currentTheme (fst st) ∈ (Some <$> ThemeToggleModal.THEME_CLASSES)
  /\ View.iconsApart st
  /\ ThemeToggleModal.getEffectiveTheme st = Some "theme-dark"
  /\ View.activeIcons (ThemeToggleModal.updateUI st) = [3].
Proof.
  intros st.
  assert (Hvalid : ThemeToggleModal.currentTheme (fst st)
                   ∈ (Some <$> ThemeToggleModal.THEME_CLASSES))
    by (apply (bool_decide_unpack _); reflexivity).
  split; [exact Hvalid|]. split; [apply sample_iconsApart|].
  destruct (icon_shows_effective_theme st Hvalid (sample_iconsApart _ _))
    as [[He Hi]|[He _]]; [split; assumption | discriminate He].
Defined.

(** ** The listeners of the popover *)

(** X9. A change of the system color scheme redraws the popover only under
    theme-auto.  With theme-auto as the current theme the effective theme
    follows the new signal and, the icons being three elements of their own,
    the moon is the active icon for a dark system and the sun for a light one.
    With another current theme the listener changes nothing: the page differs
    from before by the new signal alone. *)
Theorem scheme_change_redraws_auto (matches : bool) (st : ThemeToggleModal.state) :
  (ThemeToggleModal.currentTheme (fst st) = Some "theme-auto" ->
   ThemeToggleModal.getEffectiveTheme (Behaviour.schemeChanged matches st)
   = Some (if matches then "theme-dark" else "theme-light")
   /\ (View.iconsApart st ->
       View.activeIcons (Behaviour.schemeChanged matches st)
       = [if matches then ThemeToggleModal.moonIcon (fst st)
          else ThemeToggleModal.sunIcon (fst st)]))
  /\ (ThemeToggleModal.currentTheme (fst st) <> Some "theme-auto" ->
      Behaviour.schemeChanged matches st
      = (fst st, DOM.set_matchMedia (Some matches) (snd st))).
Proof.
  unfold Behaviour.schemeChanged, ThemeToggleModal.onSchemeChange. cbn [fst snd].
  split; intros Hauto.
  - destruct (decide (ThemeToggleModal.currentTheme (fst st) = Some "theme-auto"));
      [|contradiction].
    set (st2 := (fst st, DOM.set_matchMedia (Some matches) (snd st))).
    split.
    + rewrite getEffectiveTheme_auto by (rewrite updateUI_applyOps; exact Hauto).
      rewrite updateUI_applyOps. destruct matches; reflexivity.
    + intros Hapart.
      assert (Hapart2 : View.iconsApart st2)
        by (apply (iconsApart_sameControls st); [repeat split | exact Hapart]).
      rewrite (activeIcons_updateUI st2 Hapart2).
      unfold ThemeToggleModal.activeIcon. subst st2. cbn [fst snd]. rewrite Hauto.
      unfold ThemeToggleModal.prefersDark. cbn. destruct matches; reflexivity.
  - destruct (decide (ThemeToggleModal.currentTheme (fst st) = Some "theme-auto"));
      [contradiction | reflexivity].
Qed.

(** On the sample page under theme-auto the system turns dark: the moon
    (element 3) replaces the sun (element 2).  Under theme-light the same
    change leaves the sun. *)
Lemma scheme_change_redraws_auto_witness :
  let auto := ThemeToggleModal.updateUI
                (Sample.popover, Sample.page ["theme-auto"] (Some false)) in
  let light := JS.exec (ThemeToggleModal.setTheme (Some "theme-light"))
                 (Sample.popover, Sample.page ["theme-auto"] (Some false)) in
  ThemeToggleModal.currentTheme (fst auto) = Some "theme-auto"
  /\ View.iconsApart auto
  /\ View.activeIcons auto = [2]
  /\ View.activeIcons (Behaviour.schemeChanged true auto) = [3]
  /\ ThemeToggleModal.currentTheme (fst light) <> Some "theme-auto"
  /\ View.activeIcons (Behaviour.schemeChanged true light) = [2].
Proof.
  intros auto light.
  assert (Hauto : ThemeToggleModal.currentTheme (fst auto) = Some "theme-auto")
    by reflexivity.
  assert (Hapart : View.iconsApart auto).
  { apply (iconsApart_sameControls (Sample.popover, Sample.page ["theme-auto"] (Some false)));
      [apply sameControls_updateUI | apply sample_iconsApart]. }
  assert (Hlight : ThemeToggleModal.currentTheme (fst light) <> Some "theme-auto")
    by discriminate.
  destruct (scheme_change_redraws_auto true auto) as [Hredraw _].
  destruct (scheme_change_redraws_auto true light) as [_ Hkeep].
  split; [exact Hauto|]. split; [exact Hapart|]. split; [reflexivity|].
  split; [exact (proj2 (Hredraw Hauto) Hapart)|]. split; [exact Hlight|].
  rewrite (Hkeep Hlight). reflexivity.
Defined.

Lemma map_alter_same {A B} (g : A -> B) (h : A -> A) (n : nat) (l : list A) :
  (forall x, g (h x) = g x) -> map g (alter h n l) = map g l.
Proof.
  intros Hg. revert n. induction l as [|x l IH]; intros [|n]; cbn;
    rewrite ?Hg, ?IH; reflexivity.
Qed.

Lemma attributes_update f n p :
  Behaviour.attributes (DOM.update (DOM.set_classList f) n p) = Behaviour.attributes p.
Proof.
  unfold Behaviour.attributes, DOM.update. cbn [DOM.nodes DOM.set_nodes].
  apply map_alter_same. reflexivity.
Qed.

Lemma attributes_applyOps ops : forall p,
  Behaviour.attributes (DOM.set_nodes (View.applyOps ops) p) = Behaviour.attributes p.
Proof.
  unfold Behaviour.attributes. cbn [DOM.nodes DOM.set_nodes].
  induction ops as [|[n o] ops IH]; intros p; [reflexivity|].
  change (View.applyOps ((n, o) :: ops) (DOM.nodes p))
    with (View.applyOps ops (DOM.nodes (DOM.update (View.applyOp o) n p))).
  rewrite IH. apply (attributes_update _ n p).
Qed.

Lemma attributes_closePanel st :
  Behaviour.attributes (snd (ThemeToggleModal.closePanel st))
  = Behaviour.attributes (snd st).
Proof. apply attributes_update. Qed.

Lemma attributes_openPanel st :
  Behaviour.attributes (snd (ThemeToggleModal.openPanel st))
  = Behaviour.attributes (snd st).
Proof.
  unfold ThemeToggleModal.openPanel.
  destruct (DOM.querySelectorClass _ _ _); apply (attributes_update _ _ (snd st)).
Qed.

Lemma attributes_themeSet theme st :
  Behaviour.attributes (snd (View.themeSet theme st)) = Behaviour.attributes (snd st).
Proof.
  unfold View.themeSet. rewrite updateUI_applyOps. cbn [snd].
  rewrite attributes_applyOps. reflexivity.
Qed.

Lemma preference_closePanel st :
  Behaviour.preference (ThemeToggleModal.closePanel st) = Behaviour.preference st.
Proof. reflexivity. Qed.

Lemma preference_openPanel st :
  Behaviour.preference (ThemeToggleModal.openPanel st) = Behaviour.preference st.
Proof.
  unfold ThemeToggleModal.openPanel. destruct (DOM.querySelectorClass _ _ _); reflexivity.
Qed.

(** X10. Only the click on a theme option touches the preference: the
    listeners of the toggle button, of the keyboard and of the document leave
    the current theme, the root's classes and the storage as they are.  No
    listener of the popover, the option's included, writes the document
    title, or the id, source, data-theme or parent of an element. *)
Theorem only_option_click_sets_preference (st : ThemeToggleModal.state)
    (e : ThemeToggleModal.event) :
  match e with
  | ThemeToggleModal.OptionClick _ => True
  | _ => Behaviour.preference (ThemeToggleModal.step st e) = Behaviour.preference st
  end
  /\ Behaviour.attributes (snd (ThemeToggleModal.step st e))
     = Behaviour.attributes (snd st)
  /\ DOM.title (snd (ThemeToggleModal.step st e)) = DOM.title (snd st).
Proof.
  destruct e as [|option|target|key]; cbn [ThemeToggleModal.step].
  - unfold ThemeToggleModal.onToggleClick, ThemeToggleModal.togglePanel.
    destruct (ThemeToggleModal.isOpen (fst st)).
    + split; [apply preference_closePanel|]. split; [apply attributes_closePanel|].
      reflexivity.
    + split; [apply preference_openPanel|]. split; [apply attributes_openPanel|].
      unfold ThemeToggleModal.openPanel.
      destruct (DOM.querySelectorClass _ _ _); reflexivity.
  - split; [exact I|]. unfold JS.exec.
    destruct (DOMTokenList.validate
                (JS.ToString (ThemeToggleModal.datasetTheme (snd st) option)))
      as [e|] eqn:Hv.
    + rewrite (onOptionClick_rejected option e st Hv). split; reflexivity.
    + rewrite (onOptionClick_accepted option st Hv). cbn [snd].
      split.
      * rewrite attributes_closePanel. apply attributes_themeSet.
      * unfold View.themeSet. rewrite updateUI_applyOps. reflexivity.
  - unfold ThemeToggleModal.onDocumentClick. destruct (negb _).
    + split; [apply preference_closePanel|]. split; [apply attributes_closePanel|].
      reflexivity.
    + repeat split.
  - unfold ThemeToggleModal.onKeydown. destruct (_ && _).
    + split; [apply preference_closePanel|]. split; [apply attributes_closePanel|].
      reflexivity.
    + repeat split.
Qed.

(** ** Clicks of the user *)

Lemma path_head p b : exists rest, DOM.path p b = b :: rest.
Proof. unfold DOM.path. destruct (length (DOM.nodes p)); eexists; reflexivity. Qed.

Lemma clickAt_passive st n :
  Behaviour.passive st n -> ThemeToggleModal.clickAt n st = (st, false).
Proof.
  intros [Hbutton Hoption]. unfold ThemeToggleModal.clickAt.
  rewrite (bool_decide_eq_false_2 _ Hbutton). cbn zeta.
  rewrite (bool_decide_eq_false_2 _ Hoption). reflexivity.
Qed.

Lemma bubble_passive target path st :
  Forall (Behaviour.passive st) path ->
  ThemeToggleModal.bubble target path st = ThemeToggleModal.onDocumentClick target st.
Proof.
  induction 1 as [|n path Hn _ IH]; [reflexivity|].
  cbn [ThemeToggleModal.bubble]. rewrite (clickAt_passive st n Hn). exact IH.
Qed.

Lemma togglePanel_controls st :
  ThemeToggleModal.toggleBtn (fst (ThemeToggleModal.togglePanel st))
  = ThemeToggleModal.toggleBtn (fst st)
  /\ ThemeToggleModal.themeOptions (fst (ThemeToggleModal.togglePanel st))
     = ThemeToggleModal.themeOptions (fst st).
Proof.
  unfold ThemeToggleModal.togglePanel, ThemeToggleModal.openPanel.
  destruct (ThemeToggleModal.isOpen (fst st)); [split; reflexivity|].
  destruct (DOM.querySelectorClass _ _ _); split; reflexivity.
Qed.

(** X11. A click on the toggle button, or on an element inside it from
    which the click bubbles to the button past no other control, toggles the
    panel and does nothing else: [stopPropagation] keeps it from the
    document's listener, so the click opens a closed popover also where the
    button lies outside the popover root. *)
Theorem click_on_toggle_button (st : ThemeToggleModal.state) (target : DOM.node)
    (inner outer : list DOM.node) :
  DOM.path (snd st) target = inner ++ ThemeToggleModal.toggleBtn (fst st) :: outer ->
  Forall (Behaviour.passive st) inner ->
  ThemeToggleModal.toggleBtn (fst st) ∉ ThemeToggleModal.themeOptions (fst st) ->
  ThemeToggleModal.click target st = ThemeToggleModal.togglePanel st
  /\ ThemeToggleModal.isOpen (fst (ThemeToggleModal.click target st))
     = negb (ThemeToggleModal.isOpen (fst st)).
Proof.
  intros Hpath Hinner Hbutton.
  assert (Hclick : ThemeToggleModal.click target st = ThemeToggleModal.togglePanel st).
  { unfold ThemeToggleModal.click. rewrite Hpath. clear Hpath.
    induction Hinner as [|n inner Hn _ IH].
    - cbn [app ThemeToggleModal.bubble]. unfold ThemeToggleModal.clickAt.
      rewrite bool_decide_eq_true_2 by reflexivity. cbn zeta.
      unfold ThemeToggleModal.onToggleClick.
      destruct (togglePanel_controls st) as [_ ->].
      rewrite (bool_decide_eq_false_2 _ Hbutton). reflexivity.
    - cbn [app ThemeToggleModal.bubble]. rewrite (clickAt_passive st n Hn). exact IH. }
  split; [exact Hclick|]. rewrite Hclick.
  unfold ThemeToggleModal.togglePanel.
  destruct (ThemeToggleModal.isOpen (fst st)); [reflexivity | apply isOpen_openPanel].
Qed.

(** The sample page with the toggle button moved out of the popover root: a
    click on the sun icon inside the button opens the popover, although the
    document's listener would close it for a target outside the root. *)
Lemma click_on_toggle_button_witness :
  let moved :=
    DOM.set_nodes (alter (fun e => DOM.mkElement (DOM.id e) (DOM.classList e)
                                     (DOM.dataset_theme e) (DOM.src e) None) 1)
      (Sample.page ["theme-auto"] (Some false)) in
  let st := (Sample.popover, moved) in
  DOM.path (snd st) 2 = [2] ++ ThemeToggleModal.toggleBtn (fst st) :: []
  /\ Forall (Behaviour.passive st) [2]
  /\ (ThemeToggleModal.toggleBtn (fst st) ∉ ThemeToggleModal.themeOptions (fst st))
  /\ DOM.contains (snd st) (ThemeToggleModal.modal (fst st)) 2 = false
  /\ ThemeToggleModal.isOpen (fst (ThemeToggleModal.click 2 st)) = true
  /\ ThemeToggleModal.isOpen
       (fst (ThemeToggleModal.onDocumentClick 2 (ThemeToggleModal.togglePanel st)))
     = false.
Proof.
  intros moved st.
  assert (Hpath : DOM.path (snd st) 2 = [2] ++ ThemeToggleModal.toggleBtn (fst st) :: [])
    by reflexivity.
  assert (Hinner : Forall (Behaviour.passive st) [2]).
  { repeat constructor; [discriminate|]. apply (bool_decide_unpack _). reflexivity. }
  assert (Hbutton : ThemeToggleModal.toggleBtn (fst st)
                    ∉ ThemeToggleModal.themeOptions (fst st))
    by (apply (bool_decide_unpack _); reflexivity).
  split; [exact Hpath|]. split; [exact Hinner|]. split; [exact Hbutton|].
  split; [reflexivity|].
  split; [exact (proj2 (click_on_toggle_button st 2 [2] [] Hpath Hinner Hbutton))|].
  reflexivity.
Defined.

Lemma closePanel_closePanel st :
  ThemeToggleModal.closePanel (ThemeToggleModal.closePanel st)
  = ThemeToggleModal.closePanel st.
Proof.
  unfold ThemeToggleModal.closePanel. cbn [fst snd]. f_equal.
  destruct (snd st) as [t root mm ls ns ae os no]. unfold DOM.update, DOM.set_nodes.
  cbn [DOM.title DOM.documentElement DOM.matchMedia DOM.localStorage DOM.nodes
         DOM.activeElement DOM.observers DOM.nextObserver
         ThemeToggleModal.optionsPanel ThemeToggleModal.set_isOpen].
  f_equal. rewrite list_alter_alter_eq. apply list_alter_ext; [|reflexivity..].
  intros e _. destruct e. unfold DOM.set_classList.
  cbn [DOM.id DOM.classList DOM.dataset_theme DOM.src DOM.parentNode compose].
  rewrite remove_remove. reflexivity.
Qed.

Lemma onDocumentClick_closePanel target st :
  ThemeToggleModal.onDocumentClick target (ThemeToggleModal.closePanel st)
  = ThemeToggleModal.closePanel st.
Proof.
  unfold ThemeToggleModal.onDocumentClick.
  destruct (negb _); [apply closePanel_closePanel | reflexivity].
Qed.

(** X12. A click on a theme option that is not the toggle button, with an
    accepted data-theme and no other control among its ancestors, ends as
    [setTheme] of the option's theme followed by [closePanel]: the popover is
    closed and the option's theme is the current theme.  The document's
    listener, which the click reaches afterwards, changes nothing more,
    wherever the option lies. *)
Theorem click_on_theme_option (st : ThemeToggleModal.state) (option : DOM.node)
    (ancestors : list DOM.node) :
  DOM.path (snd st) option = option :: ancestors ->
  option ∈ ThemeToggleModal.themeOptions (fst st) ->
  option <> ThemeToggleModal.toggleBtn (fst st) ->
  Forall (Behaviour.passive st) ancestors ->
  DOMTokenList.validate
    (JS.ToString (ThemeToggleModal.datasetTheme (snd st) option)) = None ->
  let st' := ThemeToggleModal.click option st in
  st' = ThemeToggleModal.closePanel
          (JS.exec (ThemeToggleModal.setTheme
                      (ThemeToggleModal.datasetTheme (snd st) option)) st)
  /\ ThemeToggleModal.isOpen (fst st') = false
  /\ ThemeToggleModal.currentTheme (fst st')
     = ThemeToggleModal.datasetTheme (snd st) option.
Proof.
  intros Hpath Hoption Hbutton Hancestors Hv st'. subst st'.
  set (theme := ThemeToggleModal.datasetTheme (snd st) option) in *.
  assert (Hclick : ThemeToggleModal.click option st
                   = ThemeToggleModal.closePanel (View.themeSet theme st)).
  { unfold ThemeToggleModal.click. rewrite Hpath. cbn [ThemeToggleModal.bubble].
    unfold ThemeToggleModal.clickAt. rewrite (bool_decide_eq_false_2 _ Hbutton).
    cbn zeta. rewrite (bool_decide_eq_true_2 _ Hoption). unfold JS.exec.
    rewrite (onOptionClick_accepted option st Hv). cbn [snd]. fold theme.
    rewrite bubble_passive; [apply onDocumentClick_closePanel|].
    eapply Forall_impl; [exact Hancestors|]. intros n Hn.
    unfold Behaviour.passive, View.themeSet. rewrite updateUI_applyOps. exact Hn. }
  unfold JS.exec. rewrite (setTheme_accepted theme st Hv). cbn [snd].
  split; [exact Hclick|]. rewrite Hclick. split; [reflexivity|].
  cbn [fst ThemeToggleModal.closePanel ThemeToggleModal.currentTheme
         ThemeToggleModal.set_isOpen].
  apply themeSet_frame.
Qed.

(** The click on the light option (element 6, inside the panel inside the
    root of the popover) of the open sample popover. *)
Lemma click_on_theme_option_witness :
  let st := ThemeToggleModal.openPanel
              (Sample.popover, Sample.page ["theme-dark"] (Some false)) in
  let st' := ThemeToggleModal.click 6 st in
  DOM.path (snd st) 6 = [6; 5; 0]
  /\ Forall (Behaviour.passive st) [5; 0]
  /\ ThemeToggleModal.isOpen (fst st) = true
  /\ ThemeToggleModal.isOpen (fst st') = false
  /\ ThemeToggleModal.currentTheme (fst st') = Some "theme-light"
  /\ DOM.documentElement (snd st') = ["theme-light"].
Proof.
  intros st st'.
  assert (Hpath : DOM.path (snd st) 6 = [6; 5; 0]) by reflexivity.
  assert (Hpassive : Forall (Behaviour.passive st) [5; 0]).
  { repeat constructor; try discriminate; apply (bool_decide_unpack _); reflexivity. }
  assert (Hoption : 6 ∈ ThemeToggleModal.themeOptions (fst st))
    by (apply (bool_decide_unpack _); reflexivity).
  assert (Hbutton : 6 <> ThemeToggleModal.toggleBtn (fst st)) by discriminate.
  destruct (click_on_theme_option st 6 [5; 0] Hpath Hoption Hbutton Hpassive eq_refl)
    as (Hst' & Hclosed & Htheme).
  split; [exact Hpath|]. split; [exact Hpassive|]. split; [reflexivity|].
  split; [exact Hclosed|]. split; [exact Htheme|].
  subst st'. rewrite Hst'. reflexivity.
Defined.

(** X13. A click whose way up the document passes no control of the popover
    only reaches the document's listener: outside the popover root it closes
    the panel, inside the root it changes nothing at all. *)
Theorem click_past_the_controls (st : ThemeToggleModal.state) (target : DOM.node) :
  Forall (Behaviour.passive st) (DOM.path (snd st) target) ->
  ThemeToggleModal.click target st
  = if DOM.contains (snd st) (ThemeToggleModal.modal (fst st)) target
    then st else ThemeToggleModal.closePanel st.
Proof.
  intros Hpassive. unfold ThemeToggleModal.click. rewrite (bubble_passive _ _ _ Hpassive).
  unfold ThemeToggleModal.onDocumentClick.
  destruct (DOM.contains _ _ _); reflexivity.
Qed.

(** In the open sample popover a click on the panel itself (element 5)
    changes nothing, a click on the link outside (element 11) closes it. *)
Lemma click_past_the_controls_witness :
  let st := ThemeToggleModal.openPanel
              (Sample.popover, Sample.page ["theme-dark"] (Some false)) in
  Forall (Behaviour.passive st) (DOM.path (snd st) 5)
  /\ Forall (Behaviour.passive st) (DOM.path (snd st) 11)
  /\ ThemeToggleModal.click 5 st = st
  /\ ThemeToggleModal.isOpen (fst (ThemeToggleModal.click 11 st)) = false.
Proof.
  intros st.
  assert (Hinside : Forall (Behaviour.passive st) (DOM.path (snd st) 5)).
  { repeat constructor; try discriminate; apply (bool_decide_unpack _); reflexivity. }
  assert (Houtside : Forall (Behaviour.passive st) (DOM.path (snd st) 11)).
  { repeat constructor; try discriminate; apply (bool_decide_unpack _); reflexivity. }
  split; [exact Hinside|]. split; [exact Houtside|].
  split.
  - rewrite (click_past_the_controls st 5 Hinside). reflexivity.
  - rewrite (click_past_the_controls st 11 Houtside). reflexivity.
Defined.

(** ** The image synchronizer: repeated updates, errors, observers *)

Lemma find_id_alter (i : string) (h : DOM.Element -> DOM.Element) (l : list DOM.Element) :
  (forall e, DOM.id (h e) = DOM.id e) ->
  forall n,
    fst <$> list_find (fun e => DOM.id e = i) (alter h n l)
    = fst <$> list_find (fun e => DOM.id e = i) l.
Proof.
  intros Hid. induction l as [|x l IH]; intros n; [reflexivity|].
  destruct n as [|n].
  - cbn. rewrite Hid. destruct (decide (DOM.id x = i)); reflexivity.
  - cbn. destruct (decide (DOM.id x = i)); [reflexivity|].
    specialize (IH n).
    destruct (list_find (fun e => DOM.id e = i) (alter h n l)) as [[j y]|];
      destruct (list_find (fun e => DOM.id e = i) l) as [[j' y']|];
      cbn in *; congruence.
Qed.

Lemma getElementById_sourceSet element paths isDark p i :
  DOM.getElementById (View.sourceSet element paths isDark p) i = DOM.getElementById p i.
Proof.
  destruct element as [el|]; [|reflexivity].
  unfold DOM.getElementById, View.sourceSet, DOM.update. cbn [DOM.nodes DOM.set_nodes].
  apply find_id_alter. reflexivity.
Qed.

(** The page [updateImagesForTheme] ends in: both sources set where
    [isDarkMode] returns, nothing changed where it raises. *)
Lemma exec_updateImagesForTheme p :
  JS.exec ThemeManager.updateImagesForTheme p
  = match View.darkMode p with
    | JS.Normal isDark =>
        View.sourceSet (DOM.getElementById p CONFIG.SELECTORS_RATE_ICON)
          CONFIG.IMAGES_rateIcon isDark
          (View.sourceSet (DOM.getElementById p CONFIG.SELECTORS_SIGNATURE)
             CONFIG.IMAGES_signature isDark p)
    | JS.Throw _ => p
    end.
Proof.
  unfold JS.exec. destruct (View.darkMode p) as [isDark|e] eqn:Hd.
  - rewrite (updateImagesForTheme_dark p isDark Hd). reflexivity.
  - unfold ThemeManager.updateImagesForTheme, JS.bind, JS.gets.
    destruct (DOM.getElementById p CONFIG.SELECTORS_SIGNATURE) as [s|].
    + rewrite (updateImageSrc_throw s _ p e Hd). reflexivity.
    + cbn [Utils.updateImageSrc JS.ret].
      destruct (DOM.getElementById p CONFIG.SELECTORS_RATE_ICON) as [r|].
      * rewrite (updateImageSrc_throw r _ p e Hd). reflexivity.
      * reflexivity.
Qed.

Lemma fst_updateImagesForTheme p :
  fst (ThemeManager.updateImagesForTheme p)
  = match View.darkMode p with
    | JS.Normal _ => JS.Normal tt
    | JS.Throw e => if Behaviour.hasImage p then JS.Throw e else JS.Normal tt
    end.
Proof.
  destruct (View.darkMode p) as [isDark|e] eqn:Hd.
  - rewrite (updateImagesForTheme_dark p isDark Hd). reflexivity.
  - unfold ThemeManager.updateImagesForTheme, JS.bind, JS.gets, Behaviour.hasImage.
    destruct (DOM.getElementById p CONFIG.SELECTORS_SIGNATURE) as [s|].
    + rewrite (updateImageSrc_throw s _ p e Hd). reflexivity.
    + cbn [Utils.updateImageSrc JS.ret].
      destruct (DOM.getElementById p CONFIG.SELECTORS_RATE_ICON) as [r|].
      * rewrite (updateImageSrc_throw r _ p e Hd). reflexivity.
      * reflexivity.
Qed.

Lemma set_src_set_src s e : DOM.set_src s (DOM.set_src s e) = DOM.set_src s e.
Proof. reflexivity. Qed.

Lemma sourceSet_twice element element' paths paths' isDark p :
  View.sourceSet element' paths' isDark
    (View.sourceSet element paths isDark
       (View.sourceSet element' paths' isDark (View.sourceSet element paths isDark p)))
  = View.sourceSet element' paths' isDark (View.sourceSet element paths isDark p).
Proof.
  destruct p as [t root mm ls ns ae os no].
  destruct element as [a|], element' as [b|]; unfold View.sourceSet, DOM.update, DOM.set_nodes;
    cbn [DOM.title DOM.documentElement DOM.matchMedia DOM.localStorage DOM.nodes
           DOM.activeElement DOM.observers DOM.nextObserver];
    try reflexivity; f_equal; apply list_eq; intros k;
    repeat (rewrite list_lookup_alter; case_decide); simplify_eq;
    match goal with |- context [ns !! ?x] => destruct (ns !! x) as [e|] end;
    reflexivity.
Qed.

Lemma updateImagesForTheme_twice p :
  JS.exec ThemeManager.updateImagesForTheme
    (JS.exec ThemeManager.updateImagesForTheme p)
  = JS.exec ThemeManager.updateImagesForTheme p.
Proof.
  rewrite (exec_updateImagesForTheme p).
  destruct (View.darkMode p) as [isDark|e] eqn:Hd.
  - rewrite exec_updateImagesForTheme.
    rewrite (darkMode_sameButNodes p), Hd
      by (eapply sameButNodes_trans; apply sameButNodes_sourceSet).
    rewrite !getElementById_sourceSet. apply sourceSet_twice.
  - rewrite exec_updateImagesForTheme, Hd. reflexivity.
Qed.

Lemma exec_observerCallback mutations : forall p,
  JS.exec (ThemeManager.observerCallback mutations) p
  = if existsb Behaviour.classRecord mutations
    then JS.exec ThemeManager.updateImagesForTheme p else p.
Proof.
  unfold ThemeManager.observerCallback.
  induction mutations as [|m ms IH]; intros p; [reflexivity|].
  cbn [JS.forEach existsb]. unfold JS.exec, JS.bind in *.
  change (bool_decide (ThemeManager.type m = "attributes")
          && bool_decide (ThemeManager.attributeName m = Some "class"))
    with (Behaviour.classRecord m).
  destruct (Behaviour.classRecord m); cbn [orb].
  - pose proof (exec_updateImagesForTheme p) as Hexec.
    pose proof (fst_updateImagesForTheme p) as Hfst. unfold JS.exec in Hexec.
    destruct (ThemeManager.updateImagesForTheme p) as [[[]|e] p'] eqn:Hu;
      cbn [fst snd] in *.
    + rewrite IH. destruct (existsb Behaviour.classRecord ms); [|reflexivity].
      pose proof (updateImagesForTheme_twice p) as Htwice. unfold JS.exec in Htwice.
      rewrite Hu in Htwice. exact Htwice.
    + reflexivity.
  - cbn [JS.ret]. apply IH.
Qed.

Lemma notify_observers mutations (os : list nat) : forall p,
  fold_left (fun p' _ => JS.exec (ThemeManager.observerCallback mutations) p') os p
  = if negb (bool_decide (os = [])) && existsb Behaviour.classRecord mutations
    then JS.exec ThemeManager.updateImagesForTheme p else p.
Proof.
  induction os as [|o os IH]; intros p; [reflexivity|].
  cbn [fold_left]. rewrite IH, exec_observerCallback.
  rewrite (bool_decide_eq_false_2 (o :: os = [])) by discriminate. cbn [negb andb].
  destruct (existsb Behaviour.classRecord mutations); [|rewrite andb_false_r; reflexivity].
  rewrite andb_true_r. destruct (negb _); [apply updateImagesForTheme_twice | reflexivity].
Qed.

(** X14. A notification of class mutations amounts to at most one update of
    the images.  The callback of the observer leaves the page as one call of
    [updateImagesForTheme] does when the records hold a mutation of the class
    attribute, however many, and changes nothing when they hold none; with
    several observers of the root the outcome is the same, and with none the
    page stays as it is.  A second [updateImagesForTheme] changes nothing. *)
Theorem class_notification_updates_once (mutations : list ThemeManager.MutationRecord)
    (p : DOM.Page) :
  JS.exec (ThemeManager.observerCallback mutations) p
  = (if existsb Behaviour.classRecord mutations
     then JS.exec ThemeManager.updateImagesForTheme p else p)
  /\ ThemeManager.classMutated mutations p
     = (if negb (bool_decide (DOM.observers p = []))
           && existsb Behaviour.classRecord mutations
        then JS.exec ThemeManager.updateImagesForTheme p else p)
  /\ JS.exec ThemeManager.updateImagesForTheme
       (JS.exec ThemeManager.updateImagesForTheme p)
     = JS.exec ThemeManager.updateImagesForTheme p.
Proof.
  split; [apply exec_observerCallback|].
  split; [apply notify_observers | apply updateImagesForTheme_twice].
Qed.

Lemma darkMode_throws p e :
  View.darkMode p = JS.Throw e <->
  e = JS.TypeError
  /\ DOM.matchMedia p = None
  /\ JS.includes (DOM.className p) "theme-auto" = true
  /\ JS.includes (DOM.className p) "theme-dark" = false.
Proof.
  unfold View.darkMode, CONFIG.THEMES_DARK, CONFIG.THEMES_AUTO.
  destruct (JS.includes (DOM.className p) "theme-dark");
    [split; [discriminate | intros (_ & _ & _ & [=])]|].
  destruct (JS.includes (DOM.className p) "theme-auto");
    [|split; [discriminate | intros (_ & _ & [=] & _)]].
  destruct (DOM.matchMedia p); [split; [discriminate | intros (_ & [=] & _)]|].
  split; [intros [= <-]; auto | intros (-> & _); reflexivity].
Qed.

Lemma init_cases this p :
  (exists e, View.darkMode p = JS.Throw e /\ Behaviour.hasImage p = true
             /\ ThemeManager.init (this, p) = (JS.Throw e, (this, p)))
  \/ ((forall e, View.darkMode p = JS.Throw e -> Behaviour.hasImage p = false)
      /\ ThemeManager.init (this, p)
         = (JS.Normal tt,
            ({| ThemeManager.observer := Some (DOM.nextObserver p) |},
             DOM.set_observers (fun os => DOM.nextObserver p :: os)
               (S (DOM.nextObserver p))
               (JS.exec ThemeManager.updateImagesForTheme p)))).
Proof.
  pose proof (fst_updateImagesForTheme p) as Hfst.
  pose proof (exec_updateImagesForTheme p) as Hexec.
  pose proof (updateImagesForTheme_sameButNodes p) as Hframe.
  unfold JS.exec in Hexec. unfold ThemeManager.init, JS.bind, JS.onSnd.
  cbn [fst snd]. unfold JS.exec.
  destruct (ThemeManager.updateImagesForTheme p) as [c p'] eqn:Hu. cbn [fst snd] in *.
  destruct (View.darkMode p) as [isDark|e] eqn:Hd.
  - right. split; [intros e [=]|]. subst c.
    destruct Hframe as (_ & _ & _ & _ & _ & _ & Hnext).
    unfold ThemeManager.bindEvents, ThemeManager.setupThemeObserver, JS.ret, JS.modify.
    cbn [fst snd]. rewrite Hnext. reflexivity.
  - destruct (Behaviour.hasImage p) eqn:Himage; subst c p'.
    + left. exists e. auto.
    + right. split; [intros e' _; reflexivity|].
      unfold ThemeManager.bindEvents, ThemeManager.setupThemeObserver, JS.ret, JS.modify.
      reflexivity.
Qed.

(** X15. [ThemeManager.init] raises exactly where [window.matchMedia] is
    undefined, the class string of the root contains theme-auto and not
    theme-dark, and the page has one of the two images; the exception is a
    TypeError and [init] then leaves everything as it was, with no observer
    set up.  In every other case [init] returns normally with a fresh
    observer stored in [this.observer] and observing the root, after one
    update of the images. *)
Theorem init_raises_without_matchMedia (this : ThemeManager.ThemeManager)
    (p : DOM.Page) :
  let result := ThemeManager.init (this, p) in
  (fst result = JS.Throw JS.TypeError <->
   DOM.matchMedia p = None
   /\ JS.includes (DOM.className p) "theme-auto" = true
   /\ JS.includes (DOM.className p) "theme-dark" = false
   /\ Behaviour.hasImage p = true)
  /\ (fst result = JS.Throw JS.TypeError -> snd result = (this, p))
  /\ (fst result <> JS.Throw JS.TypeError ->
      fst result = JS.Normal tt
      /\ ThemeManager.observer (fst (snd result)) = Some (DOM.nextObserver p)
      /\ DOM.observers (snd (snd result)) = DOM.nextObserver p :: DOM.observers p
      /\ DOM.nodes (snd (snd result))
         = DOM.nodes (JS.exec ThemeManager.updateImagesForTheme p)).
Proof.
  intros result. subst result.
  destruct (init_cases this p) as [(e & Hd & Himage & ->)|[Hnone ->]]; cbn [fst snd].
  - apply darkMode_throws in Hd as (-> & Hmm & Hauto & Hdark).
    split; [split; auto|]. split; [reflexivity|]. intros H. contradiction.
  - split; [|split].
    + split; [discriminate|]. intros (Hmm & Hauto & Hdark & Himage).
      rewrite (Hnone JS.TypeError) in Himage; [discriminate|].
      apply darkMode_throws. auto.
    + discriminate.
    + intros _. split; [reflexivity|]. split; [reflexivity|]. split; [|reflexivity].
      cbn [DOM.observers DOM.set_observers]. f_equal.
      apply (updateImagesForTheme_sameButNodes p).
Qed.

(** The sample page under theme-auto in a browser without [matchMedia]:
    [init] raises and no observer is set up.  The same browser with the root
    marked theme-dark: [init] sets up observer 0. *)
Lemma init_raises_without_matchMedia_witness :
  let auto := Sample.page ["theme-auto"] None in
  let dark := Sample.page ["theme-dark"] None in
  fst (ThemeManager.init (ThemeManager.create, auto)) = JS.Throw JS.TypeError
  /\ snd (ThemeManager.init (ThemeManager.create, auto)) = (ThemeManager.create, auto)
  /\ fst (ThemeManager.init (ThemeManager.create, dark)) <> JS.Throw JS.TypeError
  /\ ThemeManager.observer (fst (snd (ThemeManager.init (ThemeManager.create, dark))))
     = Some 0.
Proof.
  intros auto dark.
  destruct (init_raises_without_matchMedia ThemeManager.create auto) as (_ & Hkeep & _).
  destruct (init_raises_without_matchMedia ThemeManager.create dark) as (_ & _ & Hok).
  assert (Hraise : fst (ThemeManager.init (ThemeManager.create, auto))
                   = JS.Throw JS.TypeError) by reflexivity.
  assert (Hfine : fst (ThemeManager.init (ThemeManager.create, dark))
                  <> JS.Throw JS.TypeError) by discriminate.
  split; [exact Hraise|]. split; [exact (Hkeep Hraise)|]. split; [exact Hfine|].
  exact (proj1 (proj2 (Hok Hfine))).
Defined.

(** X16. [destroy] stops only the observer held in [this.observer].  After
    two calls of [setupThemeObserver] the first observer is no longer held:
    [destroy] then clears the field and disconnects the second, while the
    first goes on observing the root, so a mutation of the class attribute
    still updates the images. *)
Theorem destroy_keeps_earlier_observer (st : ThemeManager.state) :
  let twice :=
    JS.exec ThemeManager.setupThemeObserver (JS.exec ThemeManager.setupThemeObserver st) in
  let stopped := ThemeManager.destroy twice in
  ThemeManager.observer (fst twice) = Some (S (DOM.nextObserver (snd st)))
  /\ ThemeManager.observer (fst stopped) = None
  /\ (S (DOM.nextObserver (snd st)) ∉ DOM.observers (snd stopped))
  /\ (DOM.nextObserver (snd st) ∈ DOM.observers (snd stopped))
  /\ forall mutations,
       existsb Behaviour.classRecord mutations = true ->
       ThemeManager.classMutated mutations (snd stopped)
       = JS.exec ThemeManager.updateImagesForTheme (snd stopped).
Proof.
  intros twice stopped.
  assert (Hobs : DOM.observers (snd stopped)
                 = filter (fun o' => o' <> S (DOM.nextObserver (snd st)))
                     (S (DOM.nextObserver (snd st))
                      :: DOM.nextObserver (snd st) :: DOM.observers (snd st)))
    by reflexivity.
  assert (Hfirst : DOM.nextObserver (snd st) ∈ DOM.observers (snd stopped)).
  { rewrite Hobs. apply list_elem_of_filter. split; [lia|]. rewrite !elem_of_cons. auto. }
  split; [reflexivity|]. split; [reflexivity|]. split.
  { rewrite Hobs, list_elem_of_filter. intros [Hne _]. apply Hne. reflexivity. }
  split; [exact Hfirst|].
  intros mutations Hclass. unfold ThemeManager.classMutated.
  rewrite notify_observers, Hclass, andb_true_r.
  rewrite bool_decide_eq_false_2; [reflexivity|].
  intros Hnil. rewrite Hnil in Hfirst. inversion Hfirst.
Qed.

(** After two set-ups on the sample page and [destroy], a change of the root
    to theme-light still switches the signature to its light path. *)
Lemma destroy_keeps_earlier_observer_witness :
  let st := (ThemeManager.create, Sample.page ["theme-dark"] (Some false)) in
  let stopped :=
    ThemeManager.destroy
      (JS.exec ThemeManager.setupThemeObserver
         (JS.exec ThemeManager.setupThemeObserver st)) in
  let records := [{| ThemeManager.type := "attributes";
                     ThemeManager.attributeName := Some "class" |}] in
  existsb Behaviour.classRecord records = true
  /\ DOM.observers (snd stopped) = [0]
  /\ ThemeManager.classMutated records (snd stopped)
     = JS.exec ThemeManager.updateImagesForTheme (snd stopped)
  /\ Behaviour.shown
       (ThemeManager.classMutated records
          (DOM.set_documentElement (fun _ => ["theme-light"]) (snd stopped)))
       "signature"
     = Some "./images/signature_alt.gif".
Proof.
  intros st stopped records.
  assert (Hclass : existsb Behaviour.classRecord records = true) by reflexivity.
  destruct (destroy_keeps_earlier_observer st) as (_ & _ & _ & _ & Hupdate).
  split; [exact Hclass|]. split; [reflexivity|].
  split; [exact (Hupdate records Hclass) | reflexivity].
Defined.

(** ** The images follow the theme *)

Lemma getElementById_applyOps ops : forall p i,
  DOM.getElementById (DOM.set_nodes (View.applyOps ops) p) i = DOM.getElementById p i.
Proof.
  unfold DOM.getElementById. cbn [DOM.nodes DOM.set_nodes].
  induction ops as [|[n o] ops IH]; intros p i; [reflexivity|].
  change (View.applyOps ((n, o) :: ops) (DOM.nodes p))
    with (View.applyOps ops (DOM.nodes (DOM.update (View.applyOp o) n p))).
  rewrite IH. unfold DOM.update. cbn [DOM.nodes DOM.set_nodes].
  apply find_id_alter. reflexivity.
Qed.

(** What the two images show after an update in which [isDarkMode] returned
    [isDark]. *)
Lemma shown_updated p isDark i paths :
  View.darkMode p = JS.Normal isDark ->
  (i, paths) ∈ ThemeManager.bindings ->
  is_Some (DOM.getElementById p i) ->
  Behaviour.shown (JS.exec ThemeManager.updateImagesForTheme p) i
  = Some (if isDark then CONFIG.dark paths else CONFIG.light paths).
Proof.
  intros Hd Hin [el Hel]. rewrite exec_updateImagesForTheme, Hd.
  unfold Behaviour.shown. rewrite !getElementById_sourceSet, Hel. cbn [mbind option_bind].
  destruct (getElementById_Some p i el Hel) as (e & He & _).
  unfold ThemeManager.bindings in Hin. rewrite !elem_of_cons, elem_of_nil in Hin.
  destruct Hin as [Hin | [Hin | []]]; injection Hin as -> ->.
  - rewrite lookup_sourceSet_other.
    + rewrite Hel. apply (lookup_sourceSet_same el _ isDark p e He).
    + intros Hr.
      apply (getElementById_apart p CONFIG.SELECTORS_SIGNATURE
               CONFIG.SELECTORS_RATE_ICON el el ltac:(discriminate) Hel Hr eq_refl).
  - rewrite Hel.
    destruct (DOM.nodes
                (View.sourceSet (DOM.getElementById p CONFIG.SELECTORS_SIGNATURE)
                   CONFIG.IMAGES_signature isDark p) !! el) as [e'|] eqn:He'.
    + apply (lookup_sourceSet_same el _ isDark _ e' He').
    + exfalso. rewrite lookup_sourceSet_other in He'; [congruence|].
      intros Hs.
      apply (getElementById_apart p CONFIG.SELECTORS_SIGNATURE
               CONFIG.SELECTORS_RATE_ICON el el ltac:(discriminate) Hs Hel eq_refl).
Qed.

Lemma darkMode_themeSet (theme : string) st matches :
  theme ∈ ThemeToggleModal.THEME_CLASSES ->
  View.plainMarkers (snd st) ->
  DOM.matchMedia (snd st) = Some matches ->
  View.darkMode (snd (View.themeSet (Some theme) st))
  = JS.Normal
      (bool_decide
         (ThemeToggleModal.getEffectiveTheme (View.themeSet (Some theme) st)
          = Some "theme-dark")).
Proof.
  intros Htheme Hplain Hmedia.
  assert (Hmedia' : DOM.matchMedia (snd (View.themeSet (Some theme) st)) = Some matches).
  { unfold View.themeSet. rewrite updateUI_applyOps. exact Hmedia. }
  pose proof (isDarkMode_plain_markers _ matches
                (plainMarkers_themeSet theme st Htheme Hplain) Hmedia') as Hdark.
  rewrite isDarkMode_darkMode in Hdark. cbn [fst] in Hdark. rewrite Hdark. f_equal.
  rewrite (themeSet_marker theme "theme-dark" st dark_is_theme).
  rewrite (themeSet_marker theme "theme-auto" st auto_is_theme).
  unfold ThemeToggleModal.getEffectiveTheme, ThemeToggleModal.prefersDark.
  destruct (themeSet_frame (Some theme) st) as (-> & _). rewrite Hmedia'.
  destruct (theme_classes_cases theme Htheme) as [-> | [-> | ->]];
    destruct matches; reflexivity.
Qed.

(** Under theme-auto on a dark system [isDarkMode] and the popover agree on
    dark. *)
Lemma isDarkMode_follows_setTheme_witness :
  let st := (Sample.popover, Sample.page ["theme-light"; "no-js"] (Some true)) in
  let st' := JS.exec (ThemeToggleModal.setTheme (Some "theme-auto")) st in
  "theme-auto" ∈ ThemeToggleModal.THEME_CLASSES
  /\ View.plainMarkers (snd st)
  /\ DOM.matchMedia (snd st) = Some true
  /\ ThemeToggleModal.getEffectiveTheme st' = Some "theme-dark"
  /\ fst (Utils.isDarkMode (snd st')) = JS.Normal true.
Proof.
  intros st st'.
  assert (Hplain : View.plainMarkers (snd st)).
  { intros t marker Ht Hm Hinc. cbn in Ht, Hm.
    rewrite !elem_of_cons, elem_of_nil in Ht. rewrite !elem_of_cons, elem_of_nil in Hm.
    destruct Ht as [-> | [-> | []]]; destruct Hm as [-> | [-> | []]];
      discriminate Hinc. }
  split; [exact auto_is_theme|]. split; [exact Hplain|]. split; [reflexivity|].
  split; [reflexivity|].
  etransitivity;
    [exact (isDarkMode_follows_setTheme "theme-auto" st true auto_is_theme Hplain eq_refl)
    |vm_compute; reflexivity].
Defined.

(** X18. The images follow the popover through the root's classes alone.
    On a root with plain markers, with the system query available and an
    observer on the root: after [setTheme] of one of the three preferences
    and the notification of the class mutation, each of the two images that
    the page has shows the dark path of its pair when the popover's effective
    theme is theme-dark, and the light path otherwise. *)
Theorem images_follow_setTheme (theme : string) (st : ThemeToggleModal.state)
    (matches : bool) (mutations : list ThemeManager.MutationRecord) :
  theme ∈ ThemeToggleModal.THEME_CLASSES ->
  View.plainMarkers (snd st) ->
  DOM.matchMedia (snd st) = Some matches ->
  DOM.observers (snd st) <> [] ->
  existsb Behaviour.classRecord mutations = true ->
  let st' := JS.exec (ThemeToggleModal.setTheme (Some theme)) st in
  let notified := ThemeManager.classMutated mutations (snd st') in
  forall i paths,
    (i, paths) ∈ ThemeManager.bindings ->
    is_Some (DOM.getElementById (snd st) i) ->
    Behaviour.shown notified i
    = Some (if bool_decide (ThemeToggleModal.getEffectiveTheme st' = Some "theme-dark")
            then CONFIG.dark paths else CONFIG.light paths).
Proof.
  intros Htheme Hplain Hmedia Hobs Hclass st' notified i paths Hin Hel.
  subst notified st'. unfold JS.exec.
  rewrite (setTheme_accepted (Some theme) st (validate_theme_classes theme Htheme)).
  cbn [snd]. unfold ThemeManager.classMutated.
  rewrite notify_observers, Hclass, andb_true_r.
  assert (Hobs' : DOM.observers (snd (View.themeSet (Some theme) st))
                  = DOM.observers (snd st))
    by (unfold View.themeSet; rewrite updateUI_applyOps; reflexivity).
  rewrite Hobs', (bool_decide_eq_false_2 _ Hobs). cbn [negb].
  apply shown_updated; [apply (darkMode_themeSet theme st matches); assumption | exact Hin|].
  unfold View.themeSet. rewrite updateUI_applyOps. cbn [snd].
  rewrite getElementById_applyOps. exact Hel.
Qed.

(** The sample page after the synchronizer has started, under a light
    system: the popover sets theme-dark and both images turn to their dark
    paths; it sets theme-auto and they turn to their light paths. *)
Lemma images_follow_setTheme_witness :
  let started :=
    snd (JS.exec ThemeManager.init
           (ThemeManager.create, Sample.page ["theme-auto"] (Some false))) in
  let st := (Sample.popover, started) in
  let records := [{| ThemeManager.type := "attributes";
                     ThemeManager.attributeName := Some "class" |}] in
  let after theme :=
    ThemeManager.classMutated records
      (snd (JS.exec (ThemeToggleModal.setTheme (Some theme)) st)) in
  View.plainMarkers (snd st)
  /\ DOM.observers (snd st) <> []
  /\ Behaviour.shown started "signature" = Some "./images/signature_alt.gif"
  /\ Behaviour.shown (after "theme-dark") "signature" = Some "./images/signature.gif"
  /\ Behaviour.shown (after "theme-dark") "rate-icon" = Some "./images/rate1_w.png"
  /\ Behaviour.shown (after "theme-auto") "signature" = Some "./images/signature_alt.gif".
Proof.
  intros started st records after.
  assert (Hroot : DOM.documentElement (snd st) = ["theme-auto"])
    by (vm_compute; reflexivity).
  assert (Hplain : View.plainMarkers (snd st)).
  { intros t marker Ht Hm Hinc. rewrite Hroot in Ht. cbn in Hm.
    rewrite !elem_of_cons, elem_of_nil in Ht. rewrite !elem_of_cons, elem_of_nil in Hm.
    destruct Ht as [-> | []]; destruct Hm as [-> | [-> | []]];
      first [reflexivity | discriminate Hinc]. }
  assert (Hobs : DOM.observers (snd st) <> [])
    by (intros Hnil; apply (f_equal length) in Hnil; vm_compute in Hnil; discriminate Hnil).
  assert (Hsig : ("signature", CONFIG.IMAGES_signature) ∈ ThemeManager.bindings)
    by (unfold ThemeManager.bindings; rewrite elem_of_cons; left; reflexivity).
  assert (Hrate : ("rate-icon", CONFIG.IMAGES_rateIcon) ∈ ThemeManager.bindings)
    by (unfold ThemeManager.bindings; rewrite !elem_of_cons; right; left; reflexivity).
  pose proof (images_follow_setTheme "theme-dark" st false records
                dark_is_theme Hplain eq_refl Hobs eq_refl) as Hdark.
  pose proof (images_follow_setTheme "theme-auto" st false records
                auto_is_theme Hplain eq_refl Hobs eq_refl) as Hauto.
  split; [exact Hplain|]. split; [exact Hobs|]. split; [vm_compute; reflexivity|].
  split; [etransitivity; [exact (Hdark _ _ Hsig (mk_is_Some _ 9 eq_refl))
                         |vm_compute; reflexivity]|].
  split; [etransitivity; [exact (Hdark _ _ Hrate (mk_is_Some _ 10 eq_refl))
                         |vm_compute; reflexivity]|].
  etransitivity; [exact (Hauto _ _ Hsig (mk_is_Some _ 9 eq_refl))
                 |vm_compute; reflexivity].
Defined.

Lemma sourceSet_set_matchMedia element paths isDark m p :
  DOM.nodes (View.sourceSet element paths isDark (DOM.set_matchMedia m p))
  = DOM.nodes (View.sourceSet element paths isDark p).
Proof. destruct element; reflexivity. Qed.

Lemma darkMode_without_auto p :
  JS.includes (DOM.className p) "theme-dark" = true
  \/ JS.includes (DOM.className p) "theme-auto" = false ->
  forall m,
    View.darkMode (DOM.set_matchMedia m p)
    = JS.Normal (JS.includes (DOM.className p) "theme-dark").
Proof.
  intros H m. unfold View.darkMode, CONFIG.THEMES_DARK, CONFIG.THEMES_AUTO.
  change (DOM.className (DOM.set_matchMedia m p)) with (DOM.className p).
  destruct (JS.includes (DOM.className p) "theme-dark"); [reflexivity|].
  destruct H as [H|H]; [discriminate H|]. rewrite H. reflexivity.
Qed.

Lemma set_matchMedia_same p : DOM.set_matchMedia (DOM.matchMedia p) p = p.
Proof. destruct p. reflexivity. Qed.

(** X19. The system color scheme decides the images under theme-auto only.
    Where the class string of the root contains theme-dark, or does not
    contain theme-auto, the listener of the scheme change leaves the sources
    of the images as an update before the change left them, whatever the new
    signal.  Where it contains theme-auto and not theme-dark, each of the two
    images that the page has shows its dark path after a change to dark and
    its light path after a change to light. *)
Theorem scheme_decides_images_under_auto (p : DOM.Page) :
  (JS.includes (DOM.className p) "theme-dark" = true
   \/ JS.includes (DOM.className p) "theme-auto" = false ->
   forall matches,
     DOM.nodes (Behaviour.imagesSchemeChanged matches p)
     = DOM.nodes (JS.exec ThemeManager.updateImagesForTheme p))
  /\ (JS.includes (DOM.className p) "theme-dark" = false ->
      JS.includes (DOM.className p) "theme-auto" = true ->
      forall (matches : bool) i paths,
        (i, paths) ∈ ThemeManager.bindings ->
        is_Some (DOM.getElementById p i) ->
        Behaviour.shown (Behaviour.imagesSchemeChanged matches p) i
        = Some (if matches then CONFIG.dark paths else CONFIG.light paths)).
Proof.
  unfold Behaviour.imagesSchemeChanged, ThemeManager.onSchemeChange. split.
  - intros H matches. rewrite !exec_updateImagesForTheme.
    pose proof (darkMode_without_auto p H (DOM.matchMedia p)) as Hp.
    rewrite set_matchMedia_same in Hp.
    rewrite (darkMode_without_auto p H (Some matches)), Hp.
    change (DOM.getElementById (DOM.set_matchMedia (Some matches) p))
      with (DOM.getElementById p).
    destruct (DOM.getElementById p CONFIG.SELECTORS_RATE_ICON),
      (DOM.getElementById p CONFIG.SELECTORS_SIGNATURE); reflexivity.
  - intros Hdark Hauto matches i paths Hin Hel.
    apply shown_updated; [|exact Hin | exact Hel].
    unfold View.darkMode, CONFIG.THEMES_DARK, CONFIG.THEMES_AUTO.
    change (DOM.className (DOM.set_matchMedia (Some matches) p)) with (DOM.className p).
    rewrite Hdark, Hauto. reflexivity.
Qed.

(** The sample page: under theme-auto a change to dark gives the signature
    its dark path; under theme-light the same change leaves the light
    path. *)
Lemma scheme_decides_images_under_auto_witness :
  let auto := Sample.page ["theme-auto"] (Some false) in
  let light := Sample.page ["theme-light"] (Some false) in
  JS.includes (DOM.className auto) "theme-dark" = false
  /\ JS.includes (DOM.className auto) "theme-auto" = true
  /\ Behaviour.shown (Behaviour.imagesSchemeChanged true auto) "signature"
     = Some "./images/signature.gif"
  /\ JS.includes (DOM.className light) "theme-auto" = false
  /\ DOM.nodes (Behaviour.imagesSchemeChanged true light)
     = DOM.nodes (JS.exec ThemeManager.updateImagesForTheme light).
Proof.
  intros auto light.
  destruct (scheme_decides_images_under_auto auto) as [_ Hauto].
  destruct (scheme_decides_images_under_auto light) as [Hlight _].
  assert (Hsig : ("signature", CONFIG.IMAGES_signature) ∈ ThemeManager.bindings)
    by (unfold ThemeManager.bindings; rewrite elem_of_cons; left; reflexivity).
  split; [reflexivity|]. split; [reflexivity|].
  split; [exact (Hauto eq_refl eq_refl true _ _ Hsig (mk_is_Some _ 9 eq_refl))|].
  split; [reflexivity|].
  exact (Hlight (or_intror eq_refl) true).
Defined.

(** X20. On a root none of whose classes has a marker name as a proper
    part, [isDarkMode] is the test of the classes: true with theme-dark on the
    root; otherwise, with theme-auto on the root, the [matches] of the system
    query, and a TypeError where [window.matchMedia] is undefined; false with
    neither.  It never changes the page. *)
Theorem isDarkMode_on_plain_markers (p : DOM.Page) :
  View.plainMarkers p ->
  fst (Utils.isDarkMode p)
  = (if DOMTokenList.contains (DOM.documentElement p) "theme-dark" then JS.Normal true
     else if DOMTokenList.contains (DOM.documentElement p) "theme-auto" then
       match DOM.matchMedia p with
       | Some matches => JS.Normal matches
       | None => JS.Throw JS.TypeError
       end
     else JS.Normal false)
  /\ snd (Utils.isDarkMode p) = p.
Proof.
  intros Hplain. rewrite isDarkMode_darkMode. split; [|reflexivity]. cbn [fst].
  unfold View.darkMode, DOM.className, CONFIG.THEMES_DARK, CONFIG.THEMES_AUTO.
  rewrite !includes_value_contains; try discriminate; try reflexivity.
  - intros t Ht. apply Hplain; [exact Ht|]. rewrite !elem_of_cons. auto.
  - intros t Ht. apply Hplain; [exact Ht|]. rewrite !elem_of_cons. auto.
Qed.

(** A root with theme-auto and a class of its own, on a dark system and in a
    browser without the query. *)
Lemma isDarkMode_on_plain_markers_witness :
  let dark := Sample.page ["no-js"; "theme-auto"] (Some true) in
  let none := Sample.page ["no-js"; "theme-auto"] None in
  View.plainMarkers dark
  /\ fst (Utils.isDarkMode dark) = JS.Normal true
  /\ View.plainMarkers none
  /\ fst (Utils.isDarkMode none) = JS.Throw JS.TypeError.
Proof.
  intros dark none.
  assert (Hplain : forall m, View.plainMarkers (Sample.page ["no-js"; "theme-auto"] m)).
  { intros m t marker Ht Hm Hinc. cbn in Ht, Hm.
    rewrite !elem_of_cons, elem_of_nil in Ht. rewrite !elem_of_cons, elem_of_nil in Hm.
    destruct Ht as [-> | [-> | []]]; destruct Hm as [-> | [-> | []]];
      first [reflexivity | discriminate Hinc]. }
  split; [apply Hplain|].
  split; [exact (proj1 (isDarkMode_on_plain_markers dark (Hplain _)))|].
  split; [apply Hplain|].
  exact (proj1 (isDarkMode_on_plain_markers none (Hplain _))).
Defined.

(** ** The title controllers leave the rest of the page alone *)

Lemma set_title_set_title t t' p : DOM.set_title t (DOM.set_title t' p) = DOM.set_title t p.
Proof. reflexivity. Qed.

Lemma set_title_same p : DOM.set_title (DOM.title p) p = p.
Proof. destruct p. reflexivity. Qed.

(** X21. Whatever blur and focus events the window receives, each title
    controller changes the document title and nothing else of the page, and
    the title is always the one captured at load or the controller's away
    message. *)
Theorem title_controllers_change_title_only (p : DOM.Page) :
  (forall es : list Script.event,
      let q := Script.run (Script.load p) es p in
      q = DOM.set_title (DOM.title q) p
      /\ (DOM.title q = DOM.title p \/ DOM.title q = "🔙 Ooops, ainda estou aqui!"))
  /\ (forall es : list PageTitleManager.event,
      let q := PageTitleManager.run (PageTitleManager.create p) es p in
      q = DOM.set_title (DOM.title q) p
      /\ (DOM.title q = DOM.title p \/ DOM.title q = "Ooops, ainda estou aqui!")).
Proof.
  split; intros es; induction es as [|e es IH] using rev_ind; cbn zeta.
  - split; [symmetry; apply set_title_same | left; reflexivity].
  - rewrite script_run_snoc. cbn zeta in IH. destruct IH as [IH _]. rewrite IH.
    destruct e; cbn; auto.
  - split; [symmetry; apply set_title_same | left; reflexivity].
  - rewrite title_manager_run_snoc. cbn zeta in IH. destruct IH as [IH _]. rewrite IH.
    destruct e; cbn; auto.
Qed.

(** ** A root without a marker *)

Lemma contains_includes_value (tokens : list string) (marker : string) :
  marker <> "" -> DOMTokenList.has_whitespace marker = false ->
  JS.includes (DOMTokenList.value tokens) marker = false ->
  marker ∉ tokens.
Proof.
  intros Hne Hws Hinc Hin. rewrite includes_value in Hinc by assumption.
  apply not_true_iff_false in Hinc. apply Hinc, existsb_exists.
  exists marker. split; [apply list_elem_of_In, Hin | apply includes_refl].
Qed.

(** X22. [init] never marks the root.  On a root whose class string
    contains neither theme-dark nor theme-auto and that does not carry
    theme-light, with no preference in the storage, [init] seeds theme-auto
    and leaves the root as it is.  Afterwards [isDarkMode] returns false
    whatever the system signal, also without [window.matchMedia], while the
    popover's effective theme follows the system: on a dark system the
    popover resolves to theme-dark and the images get their light paths. *)
Theorem init_leaves_root_unmarked (st : ThemeToggleModal.state) :
  (forall saved : string,
      DOM.localStorage (snd st) !! ThemeToggleModal.STORAGE_KEY = Some saved ->
      saved ∉ ThemeToggleModal.THEME_CLASSES) ->
  JS.includes (DOM.className (snd st)) "theme-dark" = false ->
  JS.includes (DOM.className (snd st)) "theme-auto" = false ->
  "theme-light" ∉ DOM.documentElement (snd st) ->
  let st' := JS.exec ThemeToggleModal.init st in
  ThemeToggleModal.currentTheme (fst st') = Some "theme-auto"
  /\ DOM.documentElement (snd st') = DOM.documentElement (snd st)
  /\ fst (Utils.isDarkMode (snd st')) = JS.Normal false
  /\ ThemeToggleModal.getEffectiveTheme st'
     = Some (if ThemeToggleModal.prefersDark (snd st) then "theme-dark" else "theme-light").
Proof.
  intros Hother Hdark Hauto Hlight st'. subst st'.
  assert (Hinit : ThemeToggleModal.init st
                  = (JS.Normal tt,
                     ThemeToggleModal.updateUI (ThemeToggleModal.detectCurrentTheme st))).
  { unfold ThemeToggleModal.init, JS.bind, JS.modify.
    set (seeded := ThemeToggleModal.updateUI (ThemeToggleModal.detectCurrentTheme st)).
    destruct (loadSavedTheme_cases seeded) as [(theme & Hin & Hs & _)|[_ H]]; [|exact H].
    exfalso. apply (Hother theme); [|exact Hin]. rewrite <- Hs. subst seeded.
    rewrite updateUI_applyOps. cbn [snd DOM.localStorage DOM.set_nodes].
    rewrite detectCurrentTheme_page. reflexivity. }
  assert (Hseed : ThemeToggleModal.detectCurrentTheme st
                  = (ThemeToggleModal.set_currentTheme (Some "theme-auto") (fst st), snd st)).
  { unfold ThemeToggleModal.detectCurrentTheme.
    rewrite (proj2 (contains_false _ "theme-dark"))
      by (apply contains_includes_value; [discriminate | reflexivity | exact Hdark]).
    rewrite (proj2 (contains_false _ "theme-light") Hlight). reflexivity. }
  unfold JS.exec. rewrite Hinit, Hseed, updateUI_applyOps. cbn [fst snd].
  split; [reflexivity|]. split; [reflexivity|]. split.
  - rewrite isDarkMode_darkMode. cbn [fst]. unfold View.darkMode.
    change (DOM.className (DOM.set_nodes ?f (snd st))) with (DOM.className (snd st)).
    unfold CONFIG.THEMES_DARK, CONFIG.THEMES_AUTO. rewrite Hdark, Hauto. reflexivity.
  - rewrite getEffectiveTheme_auto by reflexivity. reflexivity.
Qed.

(** The sample page with a root without classes on a dark system: the
    popover resolves to theme-dark and shows the moon, [isDarkMode] returns
    false. *)
Lemma init_leaves_root_unmarked_witness :
  let st := (Sample.popover, Sample.page [] (Some true)) in
  let st' := JS.exec ThemeToggleModal.init st in
  (forall saved : string,
      DOM.localStorage (snd st) !! ThemeToggleModal.STORAGE_KEY = Some saved ->
      saved ∉ ThemeToggleModal.THEME_CLASSES)
  /\ ThemeToggleModal.getEffectiveTheme st' = Some "theme-dark"
  /\ View.activeIcons st' = [3]
  /\ fst (Utils.isDarkMode (snd st')) = JS.Normal false.
Proof.
  intros st st'.
  assert (Hother : forall saved : string,
             DOM.localStorage (snd st) !! ThemeToggleModal.STORAGE_KEY = Some saved ->
             saved ∉ ThemeToggleModal.THEME_CLASSES)
    by (intros saved Hs; discriminate Hs).
  assert (Hlight : "theme-light" ∉ DOM.documentElement (snd st)) by apply not_elem_of_nil.
  destruct (init_leaves_root_unmarked st Hother eq_refl eq_refl Hlight)
    as (_ & _ & Hdark & Heff).
  split; [exact Hother|]. split; [exact Heff|]. split; [reflexivity | exact Hdark].
Defined.
